(** * CoDoc: validation and assembly core of the documentation pipeline

    A shallow embedding of the parts of [nodes.py], [utils/call_llm.py] and
    [utils/nostr_publisher.py] that validate the oracle's output, retry the
    stages, and assemble, write and publish the final artifacts.

    Conventions of the embedding:
    - a Python [str] is a [string]; an [ascii] stands for the code point of
      the same number (U+0000 to U+00FF), and the character classes below
      ([is_space], [isalnum], [lower_char]) are Python's on that range;
    - a Python [int] is a [Z]; [int(s)] follows the base-10 grammar of the
      interpreter, without its configurable cap on the number of digits;
    - a value built by [yaml.safe_load] is a [yaml]; a [bool] counts as the
      [int] it equals where the code tests [isinstance(x, int)];
    - a function that may raise returns a [result];
    - the parser, the oracle, the cache file, the relay client and the file
      system are surroundings: what they do in a call is an argument of
      the function that makes the call. *)

From Stdlib Require Import ZArith Ascii String Decimal DecimalString DecimalZ
  DecimalPos.
From stdpp Require Import gmap strings list sorting.

Local Open Scope Z_scope.

(** ** Python string operations *)

Module PyStr.

Definition code (c : ascii) : N := N_of_ascii c.

(** [str.isspace] on one character: TAB..CR, FS..US, space, NEL, NBSP. *)
Definition is_space (c : ascii) : bool :=
  let n := code c in
  ((9 <=? n) && (n <=? 13) || (28 <=? n) && (n <=? 32)
   || (n =? 133) || (n =? 160))%N.

Definition is_ascii_digit (c : ascii) : bool :=
  let n := code c in ((48 <=? n) && (n <=? 57))%N.

(** [str.isalnum] on one character. *)
Definition isalnum (c : ascii) : bool :=
  let n := code c in
  (is_ascii_digit c
   || (65 <=? n) && (n <=? 90) || (97 <=? n) && (n <=? 122)
   || (n =? 170) || (n =? 178) || (n =? 179) || (n =? 181)
   || (n =? 185) || (n =? 186) || (188 <=? n) && (n <=? 190)
   || (192 <=? n) && (n <=? 214) || (216 <=? n) && (n <=? 246)
   || (248 <=? n))%N.

(** [str.lower] on one character. *)
Definition lower_char (c : ascii) : ascii :=
  let n := code c in
  if ((65 <=? n) && (n <=? 90) || (192 <=? n) && (n <=? 214)
      || (216 <=? n) && (n <=? 222))%N
  then ascii_of_N (n + 32) else c.

Fixpoint map_chars (f : ascii → ascii) (s : string) : string :=
  match s with
  | EmptyString => EmptyString
  | String c s' => String (f c) (map_chars f s')
  end.

Definition lower (s : string) : string := map_chars lower_char s.

Definition len (s : string) : Z := Z.of_nat (String.length s).

(** [s[:n]] for a natural [n]. *)
Fixpoint take (n : nat) (s : string) : string :=
  match n, s with
  | S k, String c s' => String c (take k s')
  | _, _ => EmptyString
  end.

Definition startswith (s p : string) : bool := String.prefix p s.

(** [sub in s]. *)
Fixpoint contains (sub s : string) : bool :=
  String.prefix sub s
  || match s with
     | EmptyString => false
     | String _ s' => contains sub s'
     end.

(** Leading, then trailing, characters of the class [blank] removed. *)
Fixpoint lstrip_by (blank : ascii → bool) (s : string) : string :=
  match s with
  | String c s' => if blank c then lstrip_by blank s' else s
  | EmptyString => EmptyString
  end.

Fixpoint rstrip_by (blank : ascii → bool) (s : string) : string :=
  match s with
  | EmptyString => EmptyString
  | String c s' =>
      match rstrip_by blank s' with
      | EmptyString => if blank c then EmptyString else String c EmptyString
      | r => String c r
      end
  end.

(** [s.lstrip()], [s.rstrip()] and [s.strip()]. *)
Definition lstrip (s : string) : string := lstrip_by is_space s.
Definition rstrip (s : string) : string := rstrip_by is_space s.
Definition strip (s : string) : string := rstrip (lstrip s).

(** [s.split(sep)] for a non-empty [sep]: the fields between the
    left-to-right, non-overlapping occurrences of [sep]. [skip] counts the
    characters of a matched separator still to be passed over. *)
Fixpoint split_go (sep : string) (skip : nat) (s : string) : list string :=
  match s with
  | EmptyString => [EmptyString]
  | String c s' =>
      match skip with
      | S k => split_go sep k s'
      | O =>
          if String.prefix sep s
          then EmptyString :: split_go sep (String.length sep - 1) s'
          else match split_go sep 0 s' with
               | f :: fs => String c f :: fs
               | [] => [String c EmptyString]
               end
      end
  end.

Definition split (sep s : string) : list string := split_go sep 0 s.

(** [s[n:]] for a natural [n]. *)
Fixpoint drop (n : nat) (s : string) : string :=
  match n, s with
  | S k, String _ s' => drop k s'
  | _, _ => s
  end.

(** [s.split(sep, 1)]: at most one cut, at the first occurrence. *)
Fixpoint split_once_go (sep : string) (s : string) : string * option string :=
  if String.prefix sep s
  then (EmptyString, Some (drop (String.length sep) s))
  else match s with
       | EmptyString => (EmptyString, None)
       | String c s' =>
           let '(a, b) := split_once_go sep s' in (String c a, b)
       end.

Definition split_once (sep s : string) : list string :=
  match split_once_go sep s with
  | (a, Some b) => [a; b]
  | (a, None) => [a]
  end.

(** [s.replace(old, new)] for a non-empty [old]. *)
Fixpoint replace_go (old new : string) (skip : nat) (s : string) : string :=
  match s with
  | EmptyString => EmptyString
  | String c s' =>
      match skip with
      | S k => replace_go old new k s'
      | O =>
          if String.prefix old s
          then new +:+ replace_go old new (String.length old - 1) s'
          else String c (replace_go old new 0 s')
      end
  end.

Definition replace (old new s : string) : string := replace_go old new 0 s.

(** [sep.join(l)]. *)
Fixpoint join (sep : string) (l : list string) : string :=
  match l with
  | [] => EmptyString
  | [x] => x
  | x :: l' => x +:+ sep +:+ join sep l'
  end.

End PyStr.

(** ** Python integers as text *)

Module PyInt.
Import PyStr.

(** [str(n)] for an int. *)
Definition str (n : Z) : string := NilZero.string_of_int (Z.to_int n).

Definition digit_of (c : ascii) : option (uint → uint) :=
  match c with
  | "0" => Some D0 | "1" => Some D1 | "2" => Some D2 | "3" => Some D3
  | "4" => Some D4 | "5" => Some D5 | "6" => Some D6 | "7" => Some D7
  | "8" => Some D8 | "9" => Some D9
  | _ => None
  end%char.

(** The digit part of an integer literal: digits, with single underscores
    allowed between two digits. [after_digit] tells whether the previous
    character was a digit. *)
Fixpoint parse_digits (after_digit : bool) (s : string) : option uint :=
  match s with
  | EmptyString => if after_digit then Some Nil else None
  | String c s' =>
      if Ascii.eqb c "_"
      then if after_digit then parse_digits false s' else None
      else match digit_of c with
           | Some d => d <$> parse_digits true s'
           | None => None
           end
  end.

(** The whitespace [int] skips around a literal: TAB..CR, space, NEL, NBSP
    (the separators FS..US, which [str.strip] removes, are not skipped). *)
Definition int_space (c : ascii) : bool :=
  let n := code c in
  ((9 <=? n) && (n <=? 13) || (n =? 32) || (n =? 133) || (n =? 160))%N.

(** [int(s)] for a string, base 10: surrounding whitespace, an optional
    sign, then the digits. [None] stands for [ValueError]. *)
Definition int (s : string) : option Z :=
  match rstrip_by int_space (lstrip_by int_space s) with
  | String "-" ds => (λ u, - Z.of_uint u) <$> parse_digits false ds
  | String "+" ds => Z.of_uint <$> parse_digits false ds
  | ds => Z.of_uint <$> parse_digits false ds
  end.

(** [f"{n:02d}"] for a non-negative [n]. *)
Definition format_02d (n : Z) : string :=
  if n <? 10 then String "0" (str n) else str n.

End PyInt.

(** ** Values built by [yaml.safe_load] *)

#[local] Set Warnings "-register-all".

Inductive yaml : Type :=
| YNone
| YBool (b : bool)
| YInt (n : Z)
| YFloat (repr : string)             (* a float, given by its [repr] *)
| YStr (s : string)
| YList (items : list yaml)
| YDict (entries : list (string * yaml)).

(** [k in d] and [d[k]] for a string key: the first binding of [k]. *)
Fixpoint dict_get (k : string) (d : list (string * yaml)) : option yaml :=
  match d with
  | [] => None
  | (k', v) :: d' => if String.eqb k k' then Some v else dict_get k d'
  end.


Module PyValue.
Import PyStr.

(** [repr(v)]; the quoting of a nested string is kept to the plain
    single-quoted form. *)
Fixpoint repr (v : yaml) : string :=
  match v with
  | YNone => "None"
  | YBool true => "True"
  | YBool false => "False"
  | YInt n => PyInt.str n
  | YFloat r => r
  | YStr s => "'" +:+ s +:+ "'"
  | YList items => "[" +:+ join ", " (map repr items) +:+ "]"
  | YDict entries =>
      "{" +:+ join ", "
                (map (λ kv, "'" +:+ fst kv +:+ "': " +:+ repr (snd kv)) entries)
          +:+ "}"
  end.

(** [str(v)]. *)
Definition str (v : yaml) : string :=
  match v with
  | YStr s => s
  | _ => repr v
  end.
End PyValue.

(** ** Exceptions and results *)

Inductive exception : Type :=
| FailedToParseYaml (message : string)
| OutputNotList
| MissingKeysInItem (item : yaml)
| NameNotString (item : yaml)
| DescriptionNotString (item : yaml)
| FileIndicesNotList (item : yaml)
| CouldNotParseIndex (entry : yaml) (item_name : string)
| NotDictOrMissingKeys
| SummaryNotString
| RelationshipsNotList
| MissingKeysInRelationship (rel : yaml)
| LabelNotString (rel : yaml)
| CouldNotParseRelationship (rel : yaml)
| CouldNotParseOrderEntry (entry : yaml)
| OrderLengthMismatch (got expected : Z) (missing : gset Z)
| TypeError (message : string)
| OtherException (message : string).

Inductive result (A : Type) : Type :=
| Ok (a : A)
| Raise (e : exception).
Arguments Ok {A} a.
Arguments Raise {A} e.

Definition result_bind {A B} (f : A → result B) (r : result A) : result B :=
  match r with
  | Ok a => f a
  | Raise e => Raise e
  end.

#[global] Instance result_mbind : MBind result := @result_bind.
#[global] Instance result_mret : MRet result := @Ok.

Definition raises {A} (r : result A) : Prop := ∃ e, r = Raise e.

(** ** Resolving an index entry

    The shape shared by the Abstraction and Ordering stages:
    an [int] is taken as it is ([bool] is a subclass of [int], with
    [True == 1]); a string holding ["#"] is cut at the first ["#"]; anything
    else goes through [str]. [None] stands for the [ValueError] or
    [TypeError] of [int(...)]. *)

Definition index_of_entry (entry : yaml) : option Z :=
  match entry with
  | YInt n => Some n
  | YBool b => Some (if b then 1 else 0)
  | YStr s =>
      if PyStr.contains "#" s
      then PyInt.int (PyStr.strip (hd EmptyString (PyStr.split "#" s)))
      else PyInt.int (PyStr.strip (PyValue.str entry))
  | _ => PyInt.int (PyStr.strip (PyValue.str entry))
  end.

Definition in_range (idx n : Z) : bool := (0 <=? idx) && (idx <? n).

(** ** Abstraction Stage: [IdentifyAbstractions.exec], validation part *)

Record abstraction : Type := {
  name : string;
  description : string;
  files : list Z;
}.

Module IdentifyAbstractions.

(** The inner loop over [item["file_indices"]]; [validated_indices] is
    the list built so far. *)
Fixpoint validate_indices (file_count : Z) (item_name : string)
    (entries : list yaml) (validated_indices : list Z) : result (list Z) :=
  match entries with
  | [] => Ok validated_indices
  | idx_entry :: rest =>
      match index_of_entry idx_entry with
      | Some idx =>
          if negb (in_range idx file_count)
          then Raise (CouldNotParseIndex idx_entry item_name)
          else validate_indices file_count item_name rest
                 (validated_indices ++ [idx])
      | None => Raise (CouldNotParseIndex idx_entry item_name)
      end
  end.

(** [sorted(list(set(validated_indices)))]. *)
Definition sorted_set (validated_indices : list Z) : list Z :=
  merge_sort Z.le (elements (list_to_set validated_indices : gset Z)).

Definition validate_item (file_count : Z) (item : yaml) : result abstraction :=
  match item with
  | YDict d =>
      match dict_get "name" d, dict_get "description" d,
            dict_get "file_indices" d with
      | Some n, Some ds, Some fi =>
          match n with
          | YStr item_name =>
              match ds with
              | YStr item_description =>
                  match fi with
                  | YList entries =>
                      validated_indices ←
                        validate_indices file_count item_name entries [];
                      mret {| name := item_name;
                              description := item_description;
                              files := sorted_set validated_indices |}
                  | _ => Raise (FileIndicesNotList item)
                  end
              | _ => Raise (DescriptionNotString item)
              end
          | _ => Raise (NameNotString item)
          end
      | _, _, _ => Raise (MissingKeysInItem item)
      end
  | _ => Raise (MissingKeysInItem item)
  end.

Fixpoint validate_items (file_count : Z) (items : list yaml)
    (validated_abstractions : list abstraction) : result (list abstraction) :=
  match items with
  | [] => Ok validated_abstractions
  | item :: rest =>
      a ← validate_item file_count item;
      validate_items file_count rest (validated_abstractions ++ [a])
  end.

Definition validate (file_count : Z) (abstractions : yaml)
    : result (list abstraction) :=
  match abstractions with
  | YList items => validate_items file_count items []
  | _ => Raise OutputNotList
  end.

End IdentifyAbstractions.

(** ** Ordering Stage: [OrderChapters.exec], validation part *)

Module OrderChapters.

(** The loop over [ordered_indices_raw], with its two accumulators. *)
Fixpoint order_loop (num_abstractions : Z) (entries : list yaml)
    (ordered_indices : list Z) (seen_indices : gset Z)
    : result (list Z * gset Z) :=
  match entries with
  | [] => Ok (ordered_indices, seen_indices)
  | entry :: rest =>
      match index_of_entry entry with
      | Some idx =>
          if negb (in_range idx num_abstractions)
          then Raise (CouldNotParseOrderEntry entry)
          else if bool_decide (idx ∈ seen_indices)
          then Raise (CouldNotParseOrderEntry entry)
          else order_loop num_abstractions rest
                 (ordered_indices ++ [idx]) ({[idx]} ∪ seen_indices)
      | None => Raise (CouldNotParseOrderEntry entry)
      end
  end.

Definition validate (num_abstractions : Z) (ordered_indices_raw : yaml)
    : result (list Z) :=
  match ordered_indices_raw with
  | YList entries =>
      '(ordered_indices, seen_indices) ←
        order_loop num_abstractions entries [] ∅;
      if bool_decide (Z.of_nat (length ordered_indices) ≠ num_abstractions)
      then Raise (OrderLengthMismatch (Z.of_nat (length ordered_indices))
                    num_abstractions
                    (list_to_set (seqZ 0 num_abstractions) ∖ seen_indices))
      else Ok ordered_indices
  | _ => Raise OutputNotList
  end.

End OrderChapters.


(** ** Characters used as text constants *)

Definition NL : string := String (ascii_of_N 10) EmptyString.
Definition DQUOTE : string := String (ascii_of_N 34) EmptyString.
Definition FENCE : string := "```".
Definition FENCE_YAML : string := "```yaml".

(** ** Response Extractor: [parse_yaml_from_llm_response] *)

(** What [yaml.safe_load] does on a text: a value, or a [yaml.YAMLError]
    with its message. *)
Inductive load_result : Type :=
| Loaded (v : yaml)
| YAMLError (message : string).

Module Extractor.
Import PyStr.

(** Strategy 1. [None] is [yaml_str] left at [None]: the fence is absent,
    or an index was out of range ([IndexError], passed over). *)
Definition strategy1 (response : string) : option string :=
  if contains FENCE_YAML response
  then match split FENCE_YAML (strip response) !! 1%nat with
       | Some after =>
           match split FENCE after !! 0%nat with
           | Some inside => Some (strip inside)
           | None => None
           end
       | None => None
       end
  else None.

(** Strategy 2, entered when [yaml_str] is still [None]. *)
Definition strategy2 (response : string) : option string :=
  if contains FENCE response
  then let parts := split FENCE (strip response) in
       if bool_decide (3 ≤ length parts)%nat
       then match parts !! 1%nat with
            | Some p =>
                let yaml_str := strip p in
                if startswith yaml_str ("yaml" +:+ NL)
                   || startswith yaml_str ("yml" +:+ NL)
                then match split_once NL yaml_str !! 1%nat with
                     | Some rest => Some rest
                     | None => Some yaml_str
                     end
                else Some yaml_str
            | None => None
            end
       else None
  else None.

(** The text handed to the parser. *)
Definition select_yaml_str (response : string) : string :=
  match strategy1 response with
  | Some yaml_str => yaml_str
  | None =>
      match strategy2 response with
      | Some yaml_str => yaml_str
      | None => strip response
      end
  end.

Definition failure_message (e response : string) : string :=
  "Failed to parse YAML from LLM response. YAML Error: " +:+ e
  +:+ NL +:+ NL +:+ "Response content:" +:+ NL
  +:+ take 500 response +:+ "...".

Section Parser.
Variable safe_load : string → load_result.

Definition parse_yaml_from_llm_response (response : string) : result yaml :=
  match safe_load (select_yaml_str response) with
  | Loaded v => Ok v
  | YAMLError e => Raise (FailedToParseYaml (failure_message e response))
  end.




End Parser.

End Extractor.

(** ** Relationship Stage: [AnalyzeRelationships.exec], validation part *)

Record relationship : Type := {
  from : Z;
  to : Z;
  label : string;
}.

Record relationships : Type := {
  summary : string;
  details : list relationship;
}.

Module AnalyzeRelationships.
Import PyStr.

(** [int(str(v).split("#")[0].strip())]. *)
Definition endpoint_of (v : yaml) : option Z :=
  PyInt.int (strip (hd EmptyString (split "#" (PyValue.str v)))).

Fixpoint validate_relationships (num_abstractions : Z) (rels : list yaml)
    (validated_relationships : list relationship)
    : result (list relationship) :=
  match rels with
  | [] => Ok validated_relationships
  | rel :: rest =>
      match rel with
      | YDict d =>
          match dict_get "from_abstraction" d, dict_get "to_abstraction" d,
                dict_get "label" d with
          | Some f, Some t, Some l =>
              match l with
              | YStr rel_label =>
                  match endpoint_of f, endpoint_of t with
                  | Some from_idx, Some to_idx =>
                      if negb (in_range from_idx num_abstractions
                               && in_range to_idx num_abstractions)
                      then Raise (CouldNotParseRelationship rel)
                      else validate_relationships num_abstractions rest
                             (validated_relationships
                              ++ [{| from := from_idx; to := to_idx;
                                     label := rel_label |}])
                  | _, _ => Raise (CouldNotParseRelationship rel)
                  end
              | _ => Raise (LabelNotString rel)
              end
          | _, _, _ => Raise (MissingKeysInRelationship rel)
          end
      | _ => Raise (MissingKeysInRelationship rel)
      end
  end.

Definition validate (num_abstractions : Z) (relationships_data : yaml)
    : result relationships :=
  match relationships_data with
  | YDict d =>
      match dict_get "summary" d, dict_get "relationships" d with
      | Some s, Some r =>
          match s with
          | YStr the_summary =>
              match r with
              | YList rels =>
                  validated_relationships ←
                    validate_relationships num_abstractions rels [];
                  mret {| summary := the_summary;
                          details := validated_relationships |}
              | _ => Raise RelationshipsNotList
              end
          | _ => Raise SummaryNotString
          end
      | _, _ => Raise NotDictOrMissingKeys
      end
  | _ => Raise NotDictOrMissingKeys
  end.

End AnalyzeRelationships.

(** ** File names of chapters *)

Module Filename.
Import PyStr.

(** ["".join(c if c.isalnum() else "_" for c in name).lower()]. *)
Definition safe_name (chapter_name : string) : string :=
  lower (map_chars (λ c, if isalnum c then c else "_"%char) chapter_name).

(** [f"{i+1:02d}_{safe_name}.md"] for the position [i] in the order. *)
Definition filename (i : nat) (chapter_name : string) : string :=
  PyInt.format_02d (Z.of_nat i + 1) +:+ "_" +:+ safe_name chapter_name +:+ ".md".
End Filename.

(** [abstractions[abstraction_index]] under the guard
    [0 <= abstraction_index < len(abstractions)]. *)
Definition valid_index {A} (abstraction_index : Z) (l : list A) : bool :=
  in_range abstraction_index (Z.of_nat (length l)).

Definition at_index {A} (l : list A) (abstraction_index : Z) : option A :=
  if valid_index abstraction_index l then l !! Z.to_nat abstraction_index else None.

(** ** Narrative Assembly Stage: [WriteChapters] *)

Module WriteChapters.
Import PyStr.

Record item : Type := {
  chapter_num : Z;
  abstraction_index : Z;
  abstraction_details : abstraction;
}.

(** [prep]: the second loop, one item per entry of the order whose index
    is valid; [i] is the position given by [enumerate]. *)
Fixpoint items_from (abstractions : list abstraction) (i : nat)
    (chapter_order : list Z) : list item :=
  match chapter_order with
  | [] => []
  | idx :: rest =>
      match at_index abstractions idx with
      | Some a =>
          {| chapter_num := Z.of_nat i + 1; abstraction_index := idx;
             abstraction_details := a |}
          :: items_from abstractions (S i) rest
      | None => items_from abstractions (S i) rest
      end
  end.

Definition items_to_process (abstractions : list abstraction)
    (chapter_order : list Z) : list item :=
  items_from abstractions 0 chapter_order.

(** [exec], after the oracle call: the heading check and repair applied to
    the text the oracle returned. *)
Definition repair_heading (abstraction_name chapter_content : string) : string :=
  let actual_heading := "# " +:+ abstraction_name in
  if negb (startswith (strip chapter_content) ("# " +:+ abstraction_name))
  then
    let lines := split NL (strip chapter_content) in
    match lines with
    | first :: rest =>
        if startswith (strip first) "#"
        then join NL (actual_heading :: rest)
        else actual_heading +:+ NL +:+ NL +:+ chapter_content
    | [] => actual_heading +:+ NL +:+ NL +:+ chapter_content
    end
  else chapter_content.

(** The batch: [exec] once per item, in order; [oracle_text it] is the text
    the oracle call of that item returned. *)
Definition chapters (oracle_text : item → string) (items : list item)
    : list string :=
  map (λ it, repair_heading (name (abstraction_details it)) (oracle_text it))
      items.

End WriteChapters.

(** ** Combination Stage: [CombineTutorial.prep] *)

Module CombineTutorial.
Import PyStr.

(** *** The diagram *)

Definition node_line (i : nat) (abstr : abstraction) : string :=
  let node_id := "A" +:+ PyInt.str (Z.of_nat i) in
  let sanitized_name := replace DQUOTE "" (name abstr) in
  "    " +:+ node_id +:+ "[" +:+ DQUOTE +:+ sanitized_name +:+ DQUOTE +:+ "]".

Definition max_label_len : Z := 30.

Definition edge_label (rel_label : string) : string :=
  let edge_label := replace NL " " (replace DQUOTE "" rel_label) in
  if len edge_label >? max_label_len
  then take (Z.to_nat (max_label_len - 3)) edge_label +:+ "..."
  else edge_label.

Definition edge_line (rel : relationship) : string :=
  let from_node_id := "A" +:+ PyInt.str (from rel) in
  let to_node_id := "A" +:+ PyInt.str (to rel) in
  "    " +:+ from_node_id +:+ " -- " +:+ DQUOTE +:+ edge_label (label rel)
  +:+ DQUOTE +:+ " --> " +:+ to_node_id.

Definition mermaid_lines (abstractions : list abstraction)
    (rels : list relationship) : list string :=
  ["flowchart TD"] ++ imap node_line abstractions ++ map edge_line rels.

Definition mermaid_diagram (abstractions : list abstraction)
    (rels : list relationship) : string :=
  join NL (mermaid_lines abstractions rels).

(** *** Navigation entries and chapter files *)

Record chapter_link : Type := {
  number : Z;
  title : string;
  filename : string;
  link_description : string;
}.

Record chapter_file : Type := {
  file_name : string;
  content : string;
}.

(** The loop over [enumerate(chapter_order)] with its two lists. *)
Fixpoint chapter_loop (abstractions : list abstraction)
    (chapters_content : list string) (i : nat) (chapter_order : list Z)
    (chapter_files : list chapter_file) (chapter_links : list chapter_link)
    : list chapter_file * list chapter_link :=
  match chapter_order with
  | [] => (chapter_files, chapter_links)
  | idx :: rest =>
      match at_index abstractions idx, chapters_content !! i with
      | Some a, Some body =>
          let fname := Filename.filename i (name a) in
          chapter_loop abstractions chapters_content (S i) rest
            (chapter_files ++ [{| file_name := fname; content := body |}])
            (chapter_links
             ++ [{| number := Z.of_nat i + 1; title := name a;
                    filename := fname;
                    link_description := description a |}])
      | _, _ =>
          chapter_loop abstractions chapters_content (S i) rest
            chapter_files chapter_links
      end
  end.

Definition beginner_friendly_link (bf_episode_number : Z) : chapter_link :=
  {| number := bf_episode_number;
     title := "Beginner-Friendly Overview";
     filename := "beginner_friendly_episode.md";
     link_description :=
       "A high-level, simplified overview of the project for non-technical readers." |}.

(** [chapter_files] and [chapter_links] as [prep] leaves them. *)
Definition prep_chapters (abstractions : list abstraction)
    (chapter_order : list Z) (chapters_content : list string)
    : list chapter_file * list chapter_link :=
  let '(chapter_files, chapter_links) :=
    chapter_loop abstractions chapters_content 0 chapter_order [] [] in
  let bf_episode_number := Z.of_nat (length chapter_links) + 1 in
  (chapter_files, chapter_links ++ [beginner_friendly_link bf_episode_number]).

End CombineTutorial.

(** ** The oracle wrapper: [call_llm] *)

Module CallLlm.
Import PyStr.

(** The file [llm_cache.json]. [call_llm] is its only writer and dumps a
    dict from prompts to responses into it; [Unreadable] is a file on which
    [open] or [json.load] raises (a dump that broke off, for instance). *)
Inductive cache_file : Type :=
| Absent
| Unreadable
| Holds (cache : gmap string string).

(** What the surroundings do during one call. *)
Inductive api_outcome : Type :=
| ApiReturns (content : option string)   (* [message.content], maybe [None] *)
| ApiRaises (e : string).

Inductive save_outcome : Type :=
| SaveDone
| SaveFailsBeforeWrite (e : string)      (* [open(..., "w")] raises *)
| SaveFailsMidWrite (e : string).        (* [json.dump] raises *)

Record call_env : Type := {
  read_error : option string;            (* [open(..., "r")] raises *)
  api : api_outcome;
  save : save_outcome;
}.

Definition message_of (e : exception) : string :=
  match e with
  | OtherException m | TypeError m | FailedToParseYaml m => m
  | _ => EmptyString
  end.

(** [try: body except Exception as e: handler e], for a body that
    yields a value. *)
Definition try_except {A} (body : result A) (handler : exception → A) : A :=
  match body with
  | Ok a => a
  | Raise e => handler e
  end.

Definition os_path_exists (st : cache_file) : bool :=
  match st with
  | Absent => false
  | _ => true
  end.

(** [with open(cache_file, "r") as f: cache = json.load(f)]. *)
Definition load (env : call_env) (st : cache_file) : result (gmap string string) :=
  match st with
  | Holds d =>
      match read_error env with
      | None => Ok d
      | Some e => Raise (OtherException e)
      end
  | Unreadable => Raise (OtherException "JSONDecodeError")
  | Absent => Raise (OtherException "FileNotFoundError")
  end.

(** [client.chat.completions.create(...)] and the read of its content. *)
Definition create (env : call_env) : result (option string) :=
  match api env with
  | ApiReturns content => Ok content
  | ApiRaises e => Raise (OtherException e)
  end.

(** [with open(cache_file, "w") as f: json.dump(cache, f)]: what it
    yields and the file it leaves. *)
Definition dump (env : call_env) (cache : gmap string string) (st : cache_file)
    : result unit * cache_file :=
  match save env with
  | SaveDone => (Ok (), Holds cache)
  | SaveFailsBeforeWrite e => (Raise (OtherException e), st)
  | SaveFailsMidWrite e => (Raise (OtherException e), Unreadable)
  end.

Definition failure_text (e : exception) : string :=
  "[OpenAI call failed: " +:+ message_of e +:+ "]".

(** [response_text and not response_text.startswith("[")]. *)
Definition storable (response_text : option string) : bool :=
  match response_text with
  | Some t => negb (String.eqb t EmptyString) && negb (startswith t "[")
  | None => false
  end.

(** The cache as loaded at the top of the call. *)
Definition loaded_cache (env : call_env) (use_cache : bool) (st : cache_file)
    : gmap string string :=
  if use_cache && os_path_exists st
  then try_except (load env st) (λ _, ∅)
  else ∅.

(** The early [return cache[prompt]], when it is taken. *)
Definition cache_hit (env : call_env) (prompt : string) (use_cache : bool)
    (st : cache_file) : option string :=
  if use_cache && os_path_exists st
  then loaded_cache env use_cache st !! prompt
  else None.

Definition call_llm (env : call_env) (prompt : string) (use_cache : bool)
    (st : cache_file) : result (option string) * cache_file :=
  let cache := loaded_cache env use_cache st in
  match cache_hit env prompt use_cache st with
  | Some cached => (Ok (Some cached), st)
  | None =>
      let response_text :=
        try_except (create env) (λ e, Some (failure_text e)) in
      if use_cache && storable response_text
      then
        match response_text with
        | Some t =>
            let cache := <[prompt := t]> cache in
            (Ok response_text, snd (dump env cache st))
        | None => (Ok response_text, st)
        end
      else (Ok response_text, st)
  end.

End CallLlm.

(** ** Retries: the wrapper around [exec]

    The retry loop belongs to the flow library ([Node._exec] of pocketflow):
    [exec] runs with [self.cur_retry] going through [range(max_retries)];
    the first result is returned, and the exception of the last attempt
    is raised again. *)

Module Node.
Section Retry.
Context {W A : Type}.
Variable exec : nat → W → result A * W.

Fixpoint attempts (cur_retry remaining : nat) (w : W)
    : result (option A) * W :=
  match remaining with
  | O => (Ok None, w)
  | S k =>
      match exec cur_retry w with
      | (Ok a, w') => (Ok (Some a), w')
      | (Raise e, w') =>
          match k with
          | O => (Raise e, w')
          | S _ => attempts (S cur_retry) k w'
          end
      end
  end.

Definition _exec (max_retries : nat) (w : W) : result (option A) * W :=
  attempts 0 max_retries w.
End Retry.
End Node.

(** ** A stage's [exec]: the oracle call, then the validation *)

Module Stage.
Import CallLlm.

(** The cache file and the record of the oracle calls made so far
    (prompt and [use_cache] of each). *)
Record world : Type := {
  cache : cache_file;
  calls : list (string * bool);
}.

Section Run.
(** [environment n]: the surroundings during the [n]-th oracle call. *)
Variable environment : nat → call_env.

Definition call_llm_in (prompt : string) (use_cache : bool) (w : world)
    : result (option string) * world :=
  let '(r, st) :=
    call_llm (environment (length (calls w))) prompt use_cache (cache w) in
  (r, {| cache := st; calls := calls w ++ [(prompt, use_cache)] |}).

(** [response = call_llm(prompt, use_cache=(use_cache and
    self.cur_retry == 0))], followed by the stage's validation. *)
Definition exec {A} (validate : option string → result A)
    (prompt : string) (use_cache : bool) (cur_retry : nat) (w : world)
    : result A * world :=
  let '(r, w') :=
    call_llm_in prompt (use_cache && bool_decide (cur_retry = 0%nat)) w in
  (r ≫= validate, w').
End Run.
End Stage.

(** ** The stages' [exec] as run by the flow *)

Module Pipeline.
Import PyStr.

Section Run.
Variable safe_load : string → load_result.
Variable environment : nat → CallLlm.call_env.

(** A response of [None] cannot be searched for a fence. *)
Definition parsed (response : option string) : result yaml :=
  match response with
  | Some text => Extractor.parse_yaml_from_llm_response safe_load text
  | None => Raise (TypeError "argument of type 'NoneType' is not iterable")
  end.



Definition OrderChapters_exec (prompt : string) (num_abstractions : Z)
    (use_cache : bool) :=
  Stage.exec environment
    (λ response, parsed response ≫= OrderChapters.validate num_abstractions)
    prompt use_cache.

Definition WriteChapters_exec (prompt : string) (abstraction_name : string)
    (use_cache : bool) :=
  Stage.exec environment
    (λ response,
       match response with
       | Some chapter_content =>
           Ok (WriteChapters.repair_heading abstraction_name chapter_content)
       | None =>
           Raise (TypeError "'NoneType' object has no attribute 'strip'")
       end)
    prompt use_cache.
End Run.
End Pipeline.

(** ** Publishing: [publish_long_form_content_event] *)

Module Publisher.

(** What the relay client does during one call, once the key is set. *)
Inductive sdk_outcome : Type :=
| SdkRaises (e : string)
| SdkSends (success failed : list string).

Record publish_env : Type := {
  nostr_private_key : option string;
  sdk : sdk_outcome;
}.

(** The result of the call and the relays the event reached. Without a
    key ([NOSTR_PRIVATE_KEY] unset or empty) the call prints and returns. *)
Definition publish_long_form_content_event (env : publish_env)
    (file_name content repo_url : string) : result unit * list string :=
  match nostr_private_key env with
  | None => (Ok (), [])
  | Some key =>
      if String.eqb key EmptyString
      then (Ok (), [])
      else match sdk env with
           | SdkRaises e => (Raise (OtherException e), [])
           | SdkSends success failed => (Ok (), success)
           end
  end.

End Publisher.

(** ** Combination Stage: [CombineTutorial.exec] *)

Module Output.
Import PyStr CombineTutorial.

Definition watermark : string := NL +:+ NL +:+ "Wiki generated by: CoDoC".

Record prep_res : Type := {
  index_content : string;
  chapter_files : list chapter_file;
  beginner_friendly_episode : string;
  publish_to_nostr : bool;
  repo_url : string;
}.

(** The files written under [output_path] (name and text, in the order
    of writing) and the publish calls made (title and text). *)
Record world : Type := {
  written : list (string * string);
  published : list (string * string);
}.

Section Exec.
(** The surroundings of the publish call made under a given title. *)
Variable publishing : string → Publisher.publish_env.

(** [asyncio.run(publish_long_form_content_event(title, text, url))]. *)
Definition publish (title text url : string) (w : world) : result unit * world :=
  (fst (Publisher.publish_long_form_content_event (publishing title)
          title text url),
   {| written := written w; published := published w ++ [(title, text)] |}).

(** [with open(path, "w") as f: f.write(text)]. *)
Definition write (file text : string) (w : world) : world :=
  {| written := written w ++ [(file, text)]; published := published w |}.

(** One artifact: the publish call when publishing is on, then the
    write; an exception of the publish call leaves the block. *)
Definition put (p : prep_res) (title file text : string) (w : world)
    : result unit * world :=
  let '(r, w1) :=
    if publish_to_nostr p
    then publish title (text +:+ watermark) (repo_url p) w
    else (Ok (), w) in
  match r with
  | Ok _ => (Ok (), write file (text +:+ watermark) w1)
  | Raise e => (Raise e, w1)
  end.

Fixpoint put_chapters (p : prep_res) (files : list chapter_file) (w : world)
    : result unit * world :=
  match files with
  | [] => (Ok (), w)
  | chapter_info :: rest =>
      match put p (file_name chapter_info) (file_name chapter_info)
              (content chapter_info) w with
      | (Ok _, w') => put_chapters p rest w'
      | (Raise e, w') => (Raise e, w')
      end
  end.

Definition exec (p : prep_res) (w : world) : result unit * world :=
  match put p "index" "index.md" (index_content p) w with
  | (Raise e, w1) => (Raise e, w1)
  | (Ok _, w1) =>
      match put_chapters p (chapter_files p) w1 with
      | (Raise e, w2) => (Raise e, w2)
      | (Ok _, w2) =>
          if negb (String.eqb (beginner_friendly_episode p) EmptyString)
          then put p (replace ".md" "" "beginner_friendly_episode.md")
                 "beginner_friendly_episode.md"
                 (beginner_friendly_episode p) w2
          else (Ok (), w2)
      end
  end.
End Exec.

(** The artifacts of a run, as (title, file, text): the landing document,
    the chapters, and the overview when there is one. *)
Definition artifacts (p : prep_res) : list (string * string * string) :=
  [("index", "index.md", index_content p)]
  ++ map (λ c, (file_name c, file_name c, content c)) (chapter_files p)
  ++ (if String.eqb (beginner_friendly_episode p) EmptyString then []
      else [("beginner_friendly_episode", "beginner_friendly_episode.md",
             beginner_friendly_episode p)]).

End Output.

(** ** Notions used in the statements *)

(** Every character of [s] passes the test [P]. *)
Fixpoint all_chars (P : ascii → bool) (s : string) : bool :=
  match s with
  | EmptyString => true
  | String c s' => P c && all_chars P s'
  end.

(** [s] without the characters that fail [P]. *)
Fixpoint filter_chars (P : ascii → bool) (s : string) : string :=
  match s with
  | EmptyString => EmptyString
  | String c s' => if P c then String c (filter_chars P s') else filter_chars P s'
  end.

Definition is_char (c : ascii) (x : ascii) : bool := Ascii.eqb x c.
Definition not_char (c : ascii) (x : ascii) : bool := negb (Ascii.eqb x c).

Definition nl : ascii := ascii_of_N 10.
Definition dquote : ascii := ascii_of_N 34.
Definition backtick : ascii := "`"%char.




(** A relationship entry of the oracle's output and the edge accepted for
    it: the entry is a mapping holding the two endpoint fields and a
    string [label], and both endpoints resolve to an index of
    [0, num_abstractions). *)
Definition accepted_relationship (num_abstractions : Z) (rel : yaml)
    (r : relationship) : Prop :=
  ∃ d f t,
    rel = YDict d
    ∧ dict_get "from_abstraction" d = Some f
    ∧ dict_get "to_abstraction" d = Some t
    ∧ dict_get "label" d = Some (YStr (label r))
    ∧ AnalyzeRelationships.endpoint_of f = Some (from r)
    ∧ AnalyzeRelationships.endpoint_of t = Some (to r)
    ∧ 0 ≤ from r < num_abstractions
    ∧ 0 ≤ to r < num_abstractions.

(** The characters [str] writes for an int: digits and the minus sign. *)
Definition int_char (c : ascii) : bool :=
  PyStr.is_ascii_digit c || Ascii.eqb c "-".

(** A parsed relationship output that holds a third top-level key. *)
Definition sample_relationships : list (string * yaml) :=
  [("summary", YStr "s");
   ("relationships",
    YList [YDict [("from_abstraction", YInt 0);
                  ("to_abstraction", YStr "1 # B");
                  ("label", YStr "uses")]]);
   ("notes", YStr "x")].

(** A label with its double quotes dropped and each newline turned into a
    space. *)
Definition sanitized (rel_label : string) : string :=
  PyStr.map_chars (λ c, if is_char nl c then " "%char else c)
    (filter_chars (not_char dquote) rel_label).

(** Two chapter bodies for an abstraction named ["Foo"]: one that starts
    with a blank line, one whose heading names something else. *)
Definition body_after_blank_line : string := NL +:+ "# Foo" +:+ NL +:+ "text".
Definition body_with_longer_heading : string := "# FooBar" +:+ NL +:+ "text".

(** The first line of a text. *)
Definition first_line (s : string) : string :=
  hd EmptyString (PyStr.split NL s).

(** A response whose only line is a mapping followed by a comment; the
    comment holds a [yaml] fence around an unclosed bracket. *)
Definition sample_response : string := "key: value # ```yaml [ ```".

(** A parser that does on the three texts below what the YAML parser does:
    an unclosed bracket is an error, the other two are a plain scalar and a
    one-entry mapping. *)
Definition sample_safe_load (text : string) : load_result :=
  if String.eqb text "["
  then YAMLError "expected the node content, but found '<stream end>'"
  else if String.eqb text "yaml ["
  then Loaded (YStr "yaml [")
  else if String.eqb text sample_response
  then Loaded (YDict [("key", YStr "value")])
  else YAMLError "".



(** Two abstractions and the order that puts the second first. *)
Definition two_abstractions : list abstraction :=
  [{| name := "Data Store"; description := "Keeps the records."; files := [0] |};
   {| name := "HTTP/2 Client"; description := "Talks to the server.";
      files := [1; 2] |}].

(** The publish call returns (it may have reported a missing key or
    relays that failed) instead of raising. *)
Definition publish_returns (env : Publisher.publish_env) : bool :=
  match Publisher.nostr_private_key env with
  | None => true
  | Some key =>
      String.eqb key EmptyString
      || match Publisher.sdk env with
         | Publisher.SdkRaises _ => false
         | Publisher.SdkSends _ _ => true
         end
  end.

(** The files and the publish calls that a list of artifacts gives. *)
Definition files_of (arts : list (string * string * string))
    : list (string * string) :=
  map (λ a, (a.1.2, a.2 +:+ Output.watermark)) arts.

Definition publications_of (arts : list (string * string * string))
    : list (string * string) :=
  map (λ a, (a.1.1, a.2 +:+ Output.watermark)) arts.

(** The artifacts put one after the other, as [exec] does. *)
Fixpoint put_all (publishing : string → Publisher.publish_env)
    (p : Output.prep_res) (arts : list (string * string * string))
    (w : Output.world) : result unit * Output.world :=
  match arts with
  | [] => (Ok (), w)
  | a :: rest =>
      match Output.put publishing p a.1.1 a.1.2 a.2 w with
      | (Ok _, w') => put_all publishing p rest w'
      | (Raise e, w') => (Raise e, w')
      end
  end.

(** A run that publishes a landing document and one chapter, and the
    surroundings in which the relay client raises. *)
Definition sample_prep : Output.prep_res :=
  {| Output.index_content := "# Project";
     Output.chapter_files :=
       [{| CombineTutorial.file_name := "01_core.md";
           CombineTutorial.content := "# Core" |}];
     Output.beginner_friendly_episode := "";
     Output.publish_to_nostr := true;
     Output.repo_url := "https://example.org/o/r" |}.

Definition relay_down (title : string) : Publisher.publish_env :=
  {| Publisher.nostr_private_key := Some "nsec1";
     Publisher.sdk := Publisher.SdkRaises "relay unreachable" |}.

Definition relays_reject (title : string) : Publisher.publish_env :=
  {| Publisher.nostr_private_key := Some "nsec1";
     Publisher.sdk := Publisher.SdkSends [] ["ws://localhost:10547"] |}.

Definition empty_world : Output.world :=
  {| Output.written := []; Output.published := [] |}.

(** A response that is neither empty nor a failure marker: it does not
    start with ["["]. *)
Definition clean (response : string) : bool :=
  negb (String.eqb response EmptyString) && negb (PyStr.startswith response "[").


(** What the oracle answered in a call that went to it: the content, or
    the failure marker built from the exception. *)
Definition fresh_response (env : CallLlm.call_env) : option string :=
  match CallLlm.api env with
  | CallLlm.ApiReturns content => content
  | CallLlm.ApiRaises e => Some ("[OpenAI call failed: " +:+ e +:+ "]")
  end.


(** Surroundings in which the oracle call raises and the cache can be
    saved. *)
Definition api_down : CallLlm.call_env :=
  {| CallLlm.read_error := None;
     CallLlm.api := CallLlm.ApiRaises "Connection error.";
     CallLlm.save := CallLlm.SaveDone |}.

Definition api_answers (text : string) : CallLlm.call_env :=
  {| CallLlm.read_error := None;
     CallLlm.api := CallLlm.ApiReturns (Some text);
     CallLlm.save := CallLlm.SaveDone |}.

(** ** Further operations on strings and lists *)

Module PyStrExt.
Import PyStr.

(** [s.endswith(suffix)]. *)
Definition endswith (s suffix : string) : bool :=
  (String.length suffix <=? String.length s)%nat
  && String.eqb (drop (String.length s - String.length suffix) s) suffix.

(** [s[:-n]] for a natural [n > 0]. *)
Definition drop_end (n : nat) (s : string) : string :=
  take (String.length s - n) s.

(** [fields[-1]] for the fields that [split] gives (there is always one). *)
Definition last_field (fields : list string) : string :=
  List.last fields EmptyString.

(** [os.path.basename(p)] on POSIX: what follows the last slash. *)
Definition basename (p : string) : string := last_field (split "/" p).

(** [l[i]] for a Python list: a negative [i] counts from the end; [None]
    stands for [IndexError]. *)
Definition getitem {A} (l : list A) (i : Z) : option A :=
  if 0 <=? i then l !! Z.to_nat i
  else if - Z.of_nat (length l) <=? i
       then l !! Z.to_nat (Z.of_nat (length l) + i)
       else None.

End PyStrExt.

(** ** File contents handed to the oracle: [get_content_for_indices] *)

Module Context.
Import PyStr.

(** [d[k] = v] on a dict, which keeps the order of first insertion. *)
Fixpoint dict_set (k v : string) (d : list (string * string))
    : list (string * string) :=
  match d with
  | [] => [(k, v)]
  | (k', v') :: d' =>
      if String.eqb k k' then (k, v) :: d' else (k', v') :: dict_set k v d'
  end.

(** [f"{i} # {path}"]. *)
Definition content_key (i : Z) (path : string) : string :=
  PyInt.str i +:+ " # " +:+ path.

Fixpoint content_loop (files_data : list (string * string)) (indices : list Z)
    (content_map : list (string * string)) : list (string * string) :=
  match indices with
  | [] => content_map
  | i :: rest =>
      match at_index files_data i with
      | Some (path, content) =>
          content_loop files_data rest
            (dict_set (content_key i path) content content_map)
      | None => content_loop files_data rest content_map
      end
  end.

Definition get_content_for_indices (files_data : list (string * string))
    (indices : list Z) : list (string * string) :=
  content_loop files_data indices [].

(** The entry that an index gives, when it is an index of the corpus. *)
Definition entry_of (files_data : list (string * string)) (i : Z)
    : option (string * string) :=
  (λ file, (content_key i file.1, file.2)) <$> at_index files_data i.

(** [WriteChapters.exec]: the path shown in the header of a file,
    [idx_path.split('# ')[1] if '# ' in idx_path else idx_path]. *)
Definition header_path (idx_path : string) : string :=
  if contains "# " idx_path
  then default EmptyString (split "# " idx_path !! 1%nat)
  else idx_path.

(** [WriteChapters.exec]: [file_context_str]. *)
Definition file_context_str (related_files_content_map : list (string * string))
    : string :=
  join (NL +:+ NL)
    (map (λ kv, "--- File: " +:+ header_path (fst kv) +:+ " ---" +:+ NL +:+ snd kv)
       related_files_content_map).

End Context.

(** ** The landing document: the end of [_generate_comprehensive_index] *)

Module IndexPage.
Import PyStr PyStrExt.

(** The clean-up of the oracle's text: a leading [```markdown], then a
    leading [```], then a trailing [```] are cut, and the rest is trimmed.
    [None] is the [None] that [call_llm] returns when the oracle's message
    has no content; [startswith] on it raises [AttributeError]. *)
Definition clean_index_content (response : option string) : result string :=
  match response with
  | None => Raise (OtherException "AttributeError")
  | Some index_content =>
      let index_content :=
        if startswith index_content (FENCE +:+ "markdown")
        then drop 11 index_content else index_content in
      let index_content :=
        if startswith index_content FENCE
        then drop 3 index_content else index_content in
      let index_content :=
        if endswith index_content FENCE
        then drop_end 3 index_content else index_content in
      Ok (strip index_content)
  end.

End IndexPage.

(** ** Fetching the corpus: [parse_github_url], [FetchRepo] *)

Module FetchRepo.
Import PyStr PyStrExt.

(** [parse_github_url]: the URL to clone, the branch and the subdirectory.
    The unpacking of [split('/tree/', 1)] raises [ValueError] unless it
    gives two parts. *)
Definition parse_github_url (repo_url : string)
    : result (string * option string * option string) :=
  if contains "/tree/" repo_url
  then
    match split_once "/tree/" repo_url with
    | [repo_part; tree_part] =>
        let clean_repo_url :=
          if negb (endswith repo_part ".git")
          then repo_part +:+ ".git" else repo_part in
        let tree_parts := split "/" tree_part in
        let branch := hd EmptyString tree_parts in
        let subdirectory :=
          if (1 <? length tree_parts)%nat
          then Some (join "/" (tl tree_parts)) else None in
        Ok (clean_repo_url, Some branch, subdirectory)
    | _ => Raise (OtherException "ValueError")
    end
  else
    let clean_repo_url :=
      if negb (endswith repo_url ".git") && contains "github.com" repo_url
      then repo_url +:+ ".git" else repo_url in
    Ok (clean_repo_url, None, None).

(** [prep]: the project name derived from the URL when none is given,
    [repo_url.split("/")[-1].replace(".git", "")]. *)
Definition project_name_of_url (repo_url : string) : string :=
  replace ".git" "" (last_field (split "/" repo_url)).

End FetchRepo.

(** ** Narrative Assembly Stage: [WriteChapters.prep] *)

Module WriteChaptersPrep.
Import PyStr.

(** What [get_common_context] hands to [prep]. *)
Record context : Type := {
  files_data : list (string * string);
  project_name : string;
  language : string;
  use_cache : bool;
}.

(** An entry of [chapter_filenames]: the keys [num], [name] and [filename]. *)
Record chapter_ref : Type := {
  ref_num : Z;
  ref_name : string;
  ref_filename : string;
}.

(** The first loop over [enumerate(chapter_order)]: the lines of the
    chapter listing and the dict [chapter_filenames], keyed by the index of
    the abstraction. *)
Fixpoint listing_loop (abstractions : list abstraction) (i : nat)
    (chapter_order : list Z) (all_chapters : list string)
    (chapter_filenames : gmap Z chapter_ref)
    : list string * gmap Z chapter_ref :=
  match chapter_order with
  | [] => (all_chapters, chapter_filenames)
  | abstraction_index :: rest =>
      match at_index abstractions abstraction_index with
      | Some a =>
          let chapter_num := Z.of_nat i + 1 in
          let chapter_name := name a in
          let filename := Filename.filename i chapter_name in
          listing_loop abstractions (S i) rest
            (all_chapters
             ++ [PyInt.str chapter_num +:+ ". [" +:+ chapter_name +:+ "]("
                 +:+ filename +:+ ")"])
            (<[abstraction_index :=
                 {| ref_num := chapter_num; ref_name := chapter_name;
                    ref_filename := filename |}]> chapter_filenames)
      | None => listing_loop abstractions (S i) rest all_chapters chapter_filenames
      end
  end.

Record item : Type := {
  chapter_num : Z;
  abstraction_index : Z;
  abstraction_details : abstraction;
  related_files_content_map : list (string * string);
  item_project_name : string;
  full_chapter_listing : string;
  chapter_filenames : gmap Z chapter_ref;
  prev_chapter : option chapter_ref;
  next_chapter : option chapter_ref;
  item_language : string;
  item_use_cache : bool;
}.

(** [chapter_filenames[chapter_order[j]]]: [IndexError] and [KeyError]
    are the two ways it raises. *)
Definition neighbour (chapter_order : list Z)
    (chapter_filenames : gmap Z chapter_ref) (j : nat)
    : result (option chapter_ref) :=
  match chapter_order !! j with
  | None => Raise (OtherException "IndexError")
  | Some idx =>
      match chapter_filenames !! idx with
      | None => Raise (OtherException "KeyError")
      | Some ref => Ok (Some ref)
      end
  end.

(** The second loop over [enumerate(chapter_order)]; [todo] is what is
    left of the order from position [i] on. *)
Fixpoint items_loop (ctx : context) (abstractions : list abstraction)
    (chapter_order : list Z) (listing : string)
    (filenames : gmap Z chapter_ref) (i : nat) (todo : list Z)
    (items_to_process : list item) : result (list item) :=
  match todo with
  | [] => Ok items_to_process
  | idx :: rest =>
      match at_index abstractions idx with
      | Some details =>
          prev ← (if (0 <? i)%nat
                  then neighbour chapter_order filenames (i - 1)
                  else Ok None);
          next ← (if Z.of_nat i <? Z.of_nat (length chapter_order) - 1
                  then neighbour chapter_order filenames (i + 1)
                  else Ok None);
          items_loop ctx abstractions chapter_order listing filenames (S i) rest
            (items_to_process
             ++ [{| chapter_num := Z.of_nat i + 1;
                    abstraction_index := idx;
                    abstraction_details := details;
                    related_files_content_map :=
                      Context.get_content_for_indices (files_data ctx)
                        (files details);
                    item_project_name := project_name ctx;
                    full_chapter_listing := listing;
                    chapter_filenames := filenames;
                    prev_chapter := prev;
                    next_chapter := next;
                    item_language := language ctx;
                    item_use_cache := use_cache ctx |}])
      | None =>
          items_loop ctx abstractions chapter_order listing filenames (S i) rest
            items_to_process
      end
  end.

Definition prep (ctx : context) (abstractions : list abstraction)
    (chapter_order : list Z) : result (list item) :=
  let '(all_chapters, chapter_filenames) :=
    listing_loop abstractions 0 chapter_order [] ∅ in
  let full_chapter_listing := join NL all_chapters in
  items_loop ctx abstractions chapter_order full_chapter_listing
    chapter_filenames 0 chapter_order [].

End WriteChaptersPrep.

(** ** Relationship Stage: [AnalyzeRelationships.prep] *)

Module AnalyzeRelationshipsPrep.
Import PyStr.

(** The two characters that the source writes as ["\\n"]: a backslash and
    the letter n, not a newline. *)
Definition BACKSLASH_N : string := "\n".

(** [info_line] of the abstraction at position [i]. *)
Definition info_line (i : nat) (abstr : abstraction) : string :=
  let file_indices_str := join ", " (map PyInt.str (files abstr)) in
  "- Index " +:+ PyInt.str (Z.of_nat i) +:+ ": " +:+ name abstr
  +:+ " (Relevant file indices: [" +:+ file_indices_str +:+ "])"
  +:+ BACKSLASH_N +:+ "  Description: " +:+ description abstr.

(** The entry of [abstraction_info_for_prompt] at position [i]. *)
Definition listing_entry (i : nat) (abstr : abstraction) : string :=
  PyInt.str (Z.of_nat i) +:+ " # " +:+ name abstr.

(** [sorted(list(all_relevant_indices))], the set being the union of the
    [files] of the abstractions. *)
Definition all_relevant_indices (abstractions : list abstraction) : list Z :=
  IdentifyAbstractions.sorted_set (concat (map files abstractions)).

Definition relevant_files_content_map (files_data : list (string * string))
    (abstractions : list abstraction) : list (string * string) :=
  Context.get_content_for_indices files_data (all_relevant_indices abstractions).

(** The first two components of what [prep] returns: the context and
    the listing of the abstractions. *)
Definition prep (files_data : list (string * string))
    (abstractions : list abstraction) : string * string :=
  let context :=
    "Identified Abstractions:" +:+ BACKSLASH_N
    +:+ join EmptyString
          (imap (λ i abstr, info_line i abstr +:+ BACKSLASH_N) abstractions)
    +:+ BACKSLASH_N
    +:+ "Relevant File Snippets (Referenced by Index and Path):" +:+ BACKSLASH_N
    +:+ join (BACKSLASH_N +:+ BACKSLASH_N)
          (map (λ kv, "--- File: " +:+ fst kv +:+ " ---" +:+ BACKSLASH_N
                      +:+ snd kv)
             (relevant_files_content_map files_data abstractions)) in
  (context, join NL (imap listing_entry abstractions)).

End AnalyzeRelationshipsPrep.

(** ** Ordering Stage: [OrderChapters.prep] *)

Module OrderChaptersPrep.
Import PyStr PyStrExt.

Definition listing_entry (i : nat) (a : abstraction) : string :=
  "- " +:+ PyInt.str (Z.of_nat i) +:+ " # " +:+ name a.

(** One pass of the loop over [relationships["details"]]: the two names
    are looked up with [abstractions[...]], which raises [IndexError]. *)
Definition relationship_line (abstractions : list abstraction)
    (rel : relationship) : result string :=
  match getitem abstractions (from rel) with
  | None => Raise (OtherException "IndexError")
  | Some from_abstraction =>
      match getitem abstractions (to rel) with
      | None => Raise (OtherException "IndexError")
      | Some to_abstraction =>
          Ok ("- From " +:+ PyInt.str (from rel) +:+ " ("
              +:+ name from_abstraction +:+ ") to " +:+ PyInt.str (to rel)
              +:+ " (" +:+ name to_abstraction +:+ "): " +:+ label rel +:+ NL)
      end
  end.

Fixpoint context_loop (abstractions : list abstraction)
    (details : list relationship) (context : string) : result string :=
  match details with
  | [] => Ok context
  | rel :: rest =>
      line ← relationship_line abstractions rel;
      context_loop abstractions rest (context +:+ line)
  end.

(** The first two components of what [prep] returns: the listing of the
    abstractions and the context; [lang_note] is the note of
    [get_language_context]. *)
Definition prep (lang_note : string) (abstractions : list abstraction)
    (rels : relationships) : result (string * string) :=
  let abstraction_listing := join NL (imap listing_entry abstractions) in
  let summary_note := replace "Provided" "Project Summary might be" lang_note in
  let context :=
    "Project Summary" +:+ summary_note +:+ ":" +:+ NL +:+ summary rels
    +:+ NL +:+ NL
    +:+ "Relationships (Indices refer to abstractions above):" +:+ NL in
  context ← context_loop abstractions (details rels) context;
  Ok (abstraction_listing, context).

End OrderChaptersPrep.

(** ** Documentation files: [extract_documentation_context] *)

Module DocContext.
Import PyStr PyStrExt.

Record doc_context : Type := {
  readme_content : string;
  architecture_docs : list (string * string);      (* path, content *)
  api_docs : list (string * string);
  design_docs : list (string * string);
  contributing_guides : list (string * string);
  docs_structure : list string;
}.

(** [any(term in s for term in terms)]. *)
Definition any_in (terms : list string) (s : string) : bool :=
  existsb (λ term, contains term s) terms.

(** One pass of the loop: the first branch of the [if]/[elif] chain whose
    test holds. *)
Definition classify (doc : doc_context) (file : string * string) : doc_context :=
  let '(path, content) := file in
  let path_lower := lower path in
  let filename := basename path_lower in
  if startswith filename "readme"
  then {| readme_content := content;
          architecture_docs := architecture_docs doc;
          api_docs := api_docs doc;
          design_docs := design_docs doc;
          contributing_guides := contributing_guides doc;
          docs_structure := docs_structure doc |}
  else if any_in ["architecture"; "arch"; "design"; "adr"] path_lower
  then {| readme_content := readme_content doc;
          architecture_docs :=
            architecture_docs doc ++ [(path, take (Z.to_nat 5000) content)];
          api_docs := api_docs doc;
          design_docs := design_docs doc;
          contributing_guides := contributing_guides doc;
          docs_structure := docs_structure doc |}
  else if any_in ["api"; "swagger"; "openapi"] path_lower
  then {| readme_content := readme_content doc;
          architecture_docs := architecture_docs doc;
          api_docs := api_docs doc ++ [(path, take (Z.to_nat 2000) content)];
          design_docs := design_docs doc;
          contributing_guides := contributing_guides doc;
          docs_structure := docs_structure doc |}
  else if any_in ["design"; "spec"; "specification"] filename
  then {| readme_content := readme_content doc;
          architecture_docs := architecture_docs doc;
          api_docs := api_docs doc;
          design_docs := design_docs doc ++ [(path, take (Z.to_nat 2000) content)];
          contributing_guides := contributing_guides doc;
          docs_structure := docs_structure doc |}
  else if any_in ["contributing"; "development"; "dev-guide"] filename
  then {| readme_content := readme_content doc;
          architecture_docs := architecture_docs doc;
          api_docs := api_docs doc;
          design_docs := design_docs doc;
          contributing_guides :=
            contributing_guides doc ++ [(path, take (Z.to_nat 2000) content)];
          docs_structure := docs_structure doc |}
  else if contains "/docs/" path_lower || startswith path_lower "docs/"
  then {| readme_content := readme_content doc;
          architecture_docs := architecture_docs doc;
          api_docs := api_docs doc;
          design_docs := design_docs doc;
          contributing_guides := contributing_guides doc;
          docs_structure := docs_structure doc ++ [path] |}
  else doc.

Definition empty : doc_context :=
  {| readme_content := EmptyString; architecture_docs := []; api_docs := [];
     design_docs := []; contributing_guides := []; docs_structure := [] |}.

Definition extract_documentation_context (files_data : list (string * string))
    : doc_context :=
  fold_left classify files_data empty.

End DocContext.

(** ** Abstraction Stage: [IdentifyAbstractions.prep] *)

Module LlmContext.
Import PyStr PyStrExt.

Definition CONTEXT_HEADER : string := "=== PROJECT CONTEXT AND DOCUMENTATION ===".
Definition CODE_HEADER : string := "=== CODE FILES ===".

(** The test that makes a file contextual: one of the five words occurs in
    the lowercased last component of its path. *)
Definition is_contextual (path : string) : bool :=
  let filename := last_field (split "/" (lower path)) in
  existsb (λ ctx_file, contains ctx_file filename)
    ["readme"; "doc"; "guide"; "overview"; "architecture"].

(** The loop over [enumerate(files_data)] with its two lists. *)
Fixpoint partition_loop (i : nat) (files_data : list (string * string))
    (contextual_files code_files : list (nat * string * string))
    : list (nat * string * string) * list (nat * string * string) :=
  match files_data with
  | [] => (contextual_files, code_files)
  | (path, content) :: rest =>
      if is_contextual path
      then partition_loop (S i) rest (contextual_files ++ [(i, path, content)])
             code_files
      else partition_loop (S i) rest contextual_files
             (code_files ++ [(i, path, content)])
  end.

(** The entry of a file; [tag] is [" (CONTEXTUAL)"] or empty. *)
Definition entry (tag : string) (file : nat * string * string) : string :=
  "--- File Index " +:+ PyInt.str (Z.of_nat file.1.1) +:+ ": " +:+ file.1.2
  +:+ tag +:+ " ---" +:+ NL +:+ file.2 +:+ NL +:+ NL.

(** [create_llm_context]: the context, [file_info] and the number of
    contextual files. *)
Definition create_llm_context (files_data : list (string * string))
    : string * list (nat * string) * nat :=
  let '(contextual_files, code_files) := partition_loop 0 files_data [] [] in
  let context :=
    match contextual_files with
    | [] => EmptyString
    | _ =>
        CONTEXT_HEADER +:+ NL +:+ NL
        +:+ join EmptyString (map (entry " (CONTEXTUAL)") contextual_files)
        +:+ NL +:+ CODE_HEADER +:+ NL +:+ NL
    end in
  let file_info :=
    match contextual_files with
    | [] => []
    | _ => map (λ file, (file.1.1, file.1.2)) contextual_files
    end in
  (context +:+ join EmptyString (map (entry EmptyString) code_files),
   file_info ++ map (λ file, (file.1.1, file.1.2)) code_files,
   length contextual_files).

End LlmContext.

(** ** The file listing of the Abstraction Stage:
       [_generate_file_listing_for_prompt] *)

Module FileListing.
Import PyStr PyStrExt LlmContext.

Fixpoint take_while (P : ascii → bool) (s : string) : string :=
  match s with
  | String c s' => if P c then String c (take_while P s') else EmptyString
  | EmptyString => EmptyString
  end.

(** [re.match(r"--- File Index (\d+): (.*?) ---", line)]: the two groups
    when the line matches. The digits are taken greedily and must be
    followed by [": "]; the path is the shortest text followed by [" ---"],
    and, [.] not matching a newline, it holds none. *)
Definition match_file_entry (line : string) : option (string * string) :=
  if startswith line "--- File Index "
  then
    let rest := drop 15 line in
    let file_index := take_while is_ascii_digit rest in
    let rest := drop (String.length file_index) rest in
    if String.eqb file_index EmptyString then None
    else if startswith rest ": "
    then
      match split_once_go " ---" (drop 2 rest) with
      | (file_path, Some _) =>
          if all_chars (λ c, negb (Ascii.eqb c (ascii_of_N 10))) file_path
          then Some (file_index, file_path) else None
      | (_, None) => None
      end
    else None
  else None.

(** The loop over the lines, with its two flags. *)
Fixpoint listing_loop (lines : list string)
    (in_contextual_section in_code_section : bool) (file_listing : list string)
    : list string :=
  match lines with
  | [] => file_listing
  | line :: rest =>
      if contains CONTEXT_HEADER line
      then listing_loop rest true false file_listing
      else if contains CODE_HEADER line
      then listing_loop rest false true file_listing
      else if in_contextual_section || in_code_section
      then
        match match_file_entry line with
        | Some (file_index, file_path) =>
            listing_loop rest in_contextual_section in_code_section
              (file_listing ++ ["- " +:+ file_index +:+ " # " +:+ file_path])
        | None =>
            listing_loop rest in_contextual_section in_code_section file_listing
        end
      else listing_loop rest in_contextual_section in_code_section file_listing
  end.

Definition fallback (file_count : Z) : string :=
  "(" +:+ PyInt.str file_count
  +:+ " files available, details provided in 'Codebase to Analyze' section.)".

Definition _generate_file_listing_for_prompt (contextual_file_count file_count : Z)
    (context_str : string) : string :=
  let lines := split NL context_str in
  let file_listing := listing_loop lines false false [] in
  if bool_decide (file_listing = []) && (0 <? file_count)
  then fallback file_count
  else join NL file_listing.

End FileListing.

(** ** Publishing: the identifier of an event *)

Module PublisherTags.
Import PyStr PyStrExt.

(** [s.rfind(c)] for one character: the index of its last occurrence,
    [-1] when there is none. *)
Fixpoint rfind_char (c : ascii) (s : string) : option nat :=
  match s with
  | EmptyString => None
  | String d s' =>
      match rfind_char c s' with
      | Some k => Some (S k)
      | None => if Ascii.eqb d c then Some O else None
      end
  end.

Definition rfind (c : ascii) (s : string) : Z :=
  match rfind_char c s with
  | Some k => Z.of_nat k
  | None => -1
  end.

(** [os.path.splitext(p)] on POSIX: the extension starts at the last dot
    of the last component, unless only dots stand before it there. *)
Definition splitext (p : string) : string * string :=
  let sepIndex := rfind "/" p in
  let dotIndex := rfind "." p in
  if sepIndex <? dotIndex
  then
    let leading :=
      take (Z.to_nat (dotIndex - (sepIndex + 1))) (drop (Z.to_nat (sepIndex + 1)) p) in
    if all_chars (λ c, Ascii.eqb c ".") leading
    then (p, EmptyString)
    else (take (Z.to_nat dotIndex) p, drop (Z.to_nat dotIndex) p)
  else (p, EmptyString).

(** [slug_identifier]; [url_path] is [urlparse(repo_url).path]. *)
Definition slug_identifier (url_path file_name : string) : string :=
  let file_basename := fst (splitext file_name) in
  let repo_path := rstrip_by (λ c, Ascii.eqb c "/") (lstrip_by (λ c, Ascii.eqb c "/") url_path) in
  let base_slug := lower repo_path in
  if String.eqb (lower file_basename) "index"
  then base_slug +:+ "/index"
  else base_slug +:+ "/" +:+ lower file_basename.

End PublisherTags.

(** ** Crawling a cloned repository: [crawl_git_repo], [FetchRepo.exec] *)

Module Crawl.
Import PyStr.

(** A file that the walk over the clone meets: its path relative to the
    root that is crawled, its name, its size ([None] when [getsize] raises
    [OSError]) and its text ([None] when reading it raises). *)
Record walked_file : Type := {
  rel_path : string;
  filename : string;
  file_size : option Z;
  text : option string;
}.

(** What cloning gives: an exception inside the [try] block, or the
    files that the walk meets, in order. *)
Inductive clone_outcome : Type :=
| CloneFails (e : string)
| Cloned (walked : list walked_file).

Section Patterns.
(** [fnmatch.fnmatch(name, pattern)]. *)
Variable fnmatch : string → string → bool.

(** [should_include_file]; an absent set of patterns is the empty list. *)
Definition should_include_file (include_patterns exclude_patterns : list string)
    (file_path file_name : string) : bool :=
  let include_file :=
    match include_patterns with
    | [] => true
    | _ => existsb (fnmatch file_name) include_patterns
    end in
  match exclude_patterns with
  | [] => include_file
  | _ =>
      if include_file
      then negb (existsb (fnmatch file_path) exclude_patterns)
      else include_file
  end.

(** The loop over the files of the walk; [files] is the dict built so
    far. *)
Fixpoint crawl_loop (max_file_size : Z) (include_patterns exclude_patterns : list string)
    (walked : list walked_file) (files : list (string * string))
    : list (string * string) :=
  match walked with
  | [] => files
  | f :: rest =>
      match file_size f with
      | None => crawl_loop max_file_size include_patterns exclude_patterns rest files
      | Some size =>
          if max_file_size <? size
          then crawl_loop max_file_size include_patterns exclude_patterns rest files
          else if negb (should_include_file include_patterns exclude_patterns
                          (rel_path f) (filename f))
          then crawl_loop max_file_size include_patterns exclude_patterns rest files
          else match text f with
               | Some content =>
                   crawl_loop max_file_size include_patterns exclude_patterns rest
                     (Context.dict_set (rel_path f) content files)
               | None =>
                   crawl_loop max_file_size include_patterns exclude_patterns rest
                     files
               end
      end
  end.

(** The [files] of what [crawl_git_repo] returns. *)
Definition crawl_git_repo (clone : clone_outcome) (max_file_size : Z)
    (include_patterns exclude_patterns : list string) : list (string * string) :=
  match clone with
  | CloneFails _ => []
  | Cloned walked =>
      crawl_loop max_file_size include_patterns exclude_patterns walked []
  end.

(** [FetchRepo.exec] for a repository URL; [clone] is what cloning the
    cleaned URL at the branch and subdirectory gives. *)
Definition exec (clone : string → option string → option string → clone_outcome)
    (repo_url : string) (max_file_size : Z)
    (include_patterns exclude_patterns : list string)
    : result (list (string * string)) :=
  parsed ← FetchRepo.parse_github_url repo_url;
  let '(clean_repo_url, branch, subdirectory) := parsed in
  let files_list :=
    crawl_git_repo (clone clean_repo_url branch subdirectory) max_file_size
      include_patterns exclude_patterns in
  if (length files_list =? 0)%nat
  then Raise (OtherException "Failed to fetch files")
  else Ok files_list.

(** The entry that a file of the walk gives, when it is kept. *)
Definition kept (max_file_size : Z) (include_patterns exclude_patterns : list string)
    (f : walked_file) : option (string * string) :=
  match file_size f, text f with
  | Some size, Some content =>
      if (size <=? max_file_size)
         && should_include_file include_patterns exclude_patterns
              (rel_path f) (filename f)
      then Some (rel_path f, content) else None
  | _, _ => None
  end.

End Patterns.
End Crawl.

(** ** Further notions used in the statements *)




(** What [chapter_filenames] holds for the chapter at position [j] of the
    order, when that entry is an index of an abstraction: the number
    [j + 1], the name of the abstraction and the file name of the chapter. *)
Definition chapter_ref_at (abstractions : list abstraction)
    (chapter_order : list Z) (j : nat) : option WriteChaptersPrep.chapter_ref :=
  idx ← chapter_order !! j;
  a ← at_index abstractions idx;
  Some {| WriteChaptersPrep.ref_num := Z.of_nat j + 1;
          WriteChaptersPrep.ref_name := name a;
          WriteChaptersPrep.ref_filename := Filename.filename j (name a) |}.

(** The line of the chapter listing for position [j]. *)
Definition listing_line (abstractions : list abstraction) (j : nat) (idx : Z)
    : string :=
  match at_index abstractions idx with
  | Some a =>
      PyInt.str (Z.of_nat j + 1) +:+ ". [" +:+ name a +:+ "]("
      +:+ Filename.filename j (name a) +:+ ")"
  | None => EmptyString
  end.


(** The item that [WriteChapters.prep] builds for position [k] of the
    order, where the entry [idx] stands: its number, its abstraction, the
    contents of the files of that abstraction, the chapter listing, and the
    references to the chapters before and after it. *)
Definition item_at (ctx : WriteChaptersPrep.context)
    (abstractions : list abstraction) (chapter_order : list Z) (k : nat)
    (idx : Z) (it : WriteChaptersPrep.item) : Prop :=
  ∃ a,
    at_index abstractions idx = Some a
    ∧ WriteChaptersPrep.chapter_num it = Z.of_nat k + 1
    ∧ WriteChaptersPrep.abstraction_index it = idx
    ∧ WriteChaptersPrep.abstraction_details it = a
    ∧ WriteChaptersPrep.related_files_content_map it
      = Context.get_content_for_indices (WriteChaptersPrep.files_data ctx)
          (files a)
    ∧ WriteChaptersPrep.full_chapter_listing it
      = PyStr.join NL (imap (listing_line abstractions) chapter_order)
    ∧ WriteChaptersPrep.chapter_filenames it !! idx
      = chapter_ref_at abstractions chapter_order k
    ∧ WriteChaptersPrep.prev_chapter it
      = match k with
        | O => None
        | S j => chapter_ref_at abstractions chapter_order j
        end
    ∧ WriteChaptersPrep.next_chapter it
      = chapter_ref_at abstractions chapter_order (S k).


(** A relationship entry of the oracle's output whose two endpoints are
    copied from the listing of the abstractions. *)
Definition relationship_from_listing (from_entry to_entry rel_label : string)
    : yaml :=
  YDict [("from_abstraction", YStr from_entry);
         ("to_abstraction", YStr to_entry);
         ("label", YStr rel_label)].

(** The line of the Ordering Stage's context for an edge between the
    abstractions [f] and [t]. *)
Definition relationship_text (rel : relationship) (f t : abstraction) : string :=
  "- From " +:+ PyInt.str (from rel) +:+ " (" +:+ name f +:+ ") to "
  +:+ PyInt.str (to rel) +:+ " (" +:+ name t +:+ "): " +:+ label rel +:+ NL.


(** The files of the corpus with their indices, as [enumerate] gives them. *)
Definition enumerated (files_data : list (string * string))
    : list (nat * string * string) :=
  imap (λ i file, (i, file.1, file.2)) files_data.


(** The tag that [create_llm_context] writes after the path of a file. *)
Definition context_tag (path : string) : string :=
  if LlmContext.is_contextual path then " (CONTEXTUAL)" else EmptyString.

(** The first line of the entry of a file in the context. *)
Definition entry_header (file : nat * string * string) : string :=
  "--- File Index " +:+ PyInt.str (Z.of_nat file.1.1) +:+ ": " +:+ file.1.2
  +:+ context_tag file.1.2 +:+ " ---".

(** A line that the loop of the file listing passes over: it holds no
    section header and does not have the form of the first line of an
    entry. *)
Definition inert_line (line : string) : Prop :=
  PyStr.contains LlmContext.CONTEXT_HEADER line = false
  ∧ PyStr.contains LlmContext.CODE_HEADER line = false
  ∧ FileListing.match_file_entry line = None.

(** A file whose entry the file listing reads back: its path holds no
    newline and no [" ---"], the first line of its entry holds no section
    header, and the lines of its content are passed over. *)
Definition listable (file : nat * string * string) : Prop :=
  all_chars (λ c, negb (Ascii.eqb c (ascii_of_N 10))) file.1.2 = true
  ∧ PyStr.contains " ---" file.1.2 = false
  ∧ PyStr.contains LlmContext.CONTEXT_HEADER (entry_header file) = false
  ∧ PyStr.contains LlmContext.CODE_HEADER (entry_header file) = false
  ∧ Forall inert_line (PyStr.split NL file.2).

(** The line of the file listing for a file. *)
Definition listing_item (file : nat * string * string) : string :=
  "- " +:+ PyInt.str (Z.of_nat file.1.1) +:+ " # " +:+ file.1.2
  +:+ context_tag file.1.2.


(** The lines that the entry of a file takes in the context: its first
    line, the lines of the content, and an empty line. *)
Definition entry_lines (file : nat * string * string) : list string :=
  entry_header file :: PyStr.split NL file.2 ++ [EmptyString].

(** * Properties *)

#[local] Set Warnings "-clear-no-such-hyp".

(** ** Strings *)

Module PyStrFacts.
Import PyStr.

Lemma app_cons c a b : String c a +:+ b = String c (a +:+ b).
Proof. reflexivity. Qed.

Lemma app_nil_l a : EmptyString +:+ a = a.
Proof. reflexivity. Qed.

Lemma app_nil_r a : a +:+ EmptyString = a.
Proof. induction a as [|c a IH]; [done|]. by rewrite app_cons, IH. Qed.

Lemma app_assoc a b c : (a +:+ b) +:+ c = a +:+ (b +:+ c).
Proof. induction a as [|x a IH]; [done|]. by rewrite !app_cons, IH. Qed.

Lemma length_app a b :
  String.length (a +:+ b) = (String.length a + String.length b)%nat.
Proof. induction a as [|x a IH]; [done|]. rewrite app_cons. simpl. by rewrite IH. Qed.

Lemma prefix_nil s : String.prefix EmptyString s = true.
Proof. by destruct s. Qed.

Lemma prefix_cons c p d s :
  String.prefix (String c p) (String d s)
  = bool_decide (c = d) && String.prefix p s.
Proof.
  simpl. destruct (ascii_dec c d) as [->|Hne].
  - by rewrite bool_decide_eq_true_2.
  - by rewrite bool_decide_eq_false_2.
Qed.

Lemma prefix_app p s : String.prefix p (p +:+ s) = true.
Proof.
  induction p as [|c p IH]; [apply prefix_nil|].
  rewrite app_cons, prefix_cons, IH. by rewrite bool_decide_eq_true_2.
Qed.

Lemma prefix_app_l p a b :
  String.prefix p a = true → String.prefix p (a +:+ b) = true.
Proof.
  revert a. induction p as [|c p IH]; intros a; [by rewrite !prefix_nil|].
  destruct a as [|d a]; [done|].
  rewrite app_cons, !prefix_cons. intros [? ?]%andb_true_iff.
  apply andb_true_iff. split; [done|]. by apply IH.
Qed.

Lemma prefix_trans p q s :
  String.prefix p q = true → String.prefix q s = true →
  String.prefix p s = true.
Proof.
  revert q s. induction p as [|c p IH]; intros q s; [by rewrite !prefix_nil|].
  destruct q as [|d q]; [done|]. destruct s as [|e s]; [done|].
  rewrite !prefix_cons.
  intros [Hcd Hp]%andb_true_iff [Hde Hq]%andb_true_iff.
  apply bool_decide_eq_true_1 in Hcd, Hde. subst.
  rewrite bool_decide_eq_true_2 by done. simpl. by eapply IH.
Qed.

Lemma prefix_head_ne c p d s : c ≠ d → String.prefix (String c p) (String d s) = false.
Proof. intros. rewrite prefix_cons. by rewrite bool_decide_eq_false_2. Qed.

Lemma all_chars_app P a b :
  all_chars P (a +:+ b) = all_chars P a && all_chars P b.
Proof.
  induction a as [|c a IH]; [done|].
  rewrite app_cons. simpl. by rewrite IH, andb_assoc.
Qed.

Lemma all_chars_impl (P Q : ascii → bool) s :
  (∀ c, P c = true → Q c = true) →
  all_chars P s = true → all_chars Q s = true.
Proof.
  intros HPQ. induction s as [|c s IH]; [done|]. simpl.
  intros [? ?]%andb_true_iff. apply andb_true_iff. auto.
Qed.

(** *** [contains] *)

Lemma contains_here sub s : String.prefix sub s = true → contains sub s = true.
Proof. intros H. destruct s; simpl in *; by rewrite H. Qed.

Lemma contains_cons sub c s : contains sub s = true → contains sub (String c s) = true.
Proof. intros H. simpl. rewrite H. by rewrite orb_true_r. Qed.

Lemma contains_app sub a b : contains sub (a +:+ sub +:+ b) = true.
Proof.
  induction a as [|c a IH].
  - rewrite app_nil_l. apply contains_here, prefix_app.
  - rewrite app_cons. by apply contains_cons.
Qed.

Lemma contains_first_char_absent c sub s :
  all_chars (not_char c) s = true → contains (String c sub) s = false.
Proof.
  induction s as [|d s IH]; [done|]. simpl all_chars.
  intros [Hd Hs]%andb_true_iff. unfold contains; fold contains.
  rewrite (IH Hs), orb_false_r. apply prefix_head_ne.
  unfold not_char in Hd. apply negb_true_iff, Ascii.eqb_neq in Hd. congruence.
Qed.

Lemma contains_weaken p q s :
  String.prefix p q = true → contains q s = true → contains p s = true.
Proof.
  intros Hpq. induction s as [|c s IH].
  - unfold contains. rewrite !orb_false_r. intros. by eapply prefix_trans.
  - unfold contains; fold contains. intros [H|H]%orb_true_iff.
    + apply orb_true_iff. left. by eapply prefix_trans.
    + apply orb_true_iff. right. by apply IH.
Qed.

(** *** [strip] *)

Lemma lstrip_by_head blank c s :
  blank c = false → lstrip_by blank (String c s) = String c s.
Proof. intros H. simpl. by rewrite H. Qed.

Lemma rstrip_by_none blank s :
  all_chars (λ c, negb (blank c)) s = true → rstrip_by blank s = s.
Proof.
  induction s as [|c s IH]; [done|]. simpl.
  intros [Hc Hs]%andb_true_iff. rewrite (IH Hs).
  apply negb_true_iff in Hc. rewrite Hc. by destruct s.
Qed.

Lemma rstrip_by_app blank a w :
  all_chars blank w = true → rstrip_by blank (a +:+ w) = rstrip_by blank a.
Proof.
  intros Hw. induction a as [|c a IH].
  - rewrite app_nil_l. induction w as [|d w IHw]; [done|].
    simpl in *. apply andb_true_iff in Hw as [Hd Hw].
    rewrite (IHw Hw). by rewrite Hd.
  - rewrite app_cons. simpl. by rewrite IH.
Qed.

Lemma strip_by_none blank s :
  all_chars (λ c, negb (blank c)) s = true →
  rstrip_by blank (lstrip_by blank s) = s.
Proof.
  intros H.
  assert (lstrip_by blank s = s) as ->.
  { destruct s as [|c s]; [done|]. simpl in H.
    apply andb_true_iff in H as [Hc _]. apply negb_true_iff in Hc.
    by apply lstrip_by_head. }
  by apply rstrip_by_none.
Qed.

(** [rstrip] cuts a tail off: what it returns is a prefix of its input. *)
Lemma rstrip_by_prefix blank s : String.prefix (rstrip_by blank s) s = true.
Proof.
  induction s as [|c s IH]; [done|]. cbn [rstrip_by].
  destruct (rstrip_by blank s) as [|d r] eqn:Hr.
  - destruct (blank c); [done|].
    rewrite prefix_cons, prefix_nil. by rewrite bool_decide_eq_true_2.
  - rewrite prefix_cons, IH. by rewrite bool_decide_eq_true_2.
Qed.

Lemma lstrip_head c s : is_space c = false → lstrip (String c s) = String c s.
Proof. apply lstrip_by_head. Qed.

Lemma rstrip_no_space s :
  all_chars (λ c, negb (is_space c)) s = true → rstrip s = s.
Proof. apply rstrip_by_none. Qed.

Lemma rstrip_app_space a w :
  all_chars is_space w = true → rstrip (a +:+ w) = rstrip a.
Proof. apply rstrip_by_app. Qed.


Lemma rstrip_prefix s : String.prefix (rstrip s) s = true.
Proof. apply rstrip_by_prefix. Qed.

(** *** [split] on a separator whose first character is absent before it *)

Lemma split_go_skip sep a b :
  split_go sep (String.length a) (a +:+ b) = split_go sep 0 b.
Proof.
  induction a as [|e a IH]; [done|]. rewrite app_cons. simpl. apply IH.
Qed.

Lemma split_go_first c sep a b :
  all_chars (not_char c) a = true →
  split_go (String c sep) 0 (a +:+ String c sep +:+ b)
  = a :: split_go (String c sep) 0 b.
Proof.
  intros Ha. induction a as [|d a IH].
  - rewrite app_nil_l.
    change (String c sep +:+ b) with (String c (sep +:+ b)).
    unfold split_go at 1; fold split_go.
    rewrite prefix_cons, prefix_app, bool_decide_eq_true_2 by done.
    simpl andb. cbv iota. f_equal.
    replace (String.length (String c sep) - 1)%nat with (String.length sep)
      by (simpl; lia).
    apply split_go_skip.
  - simpl in Ha. apply andb_true_iff in Ha as [Hd Ha].
    rewrite app_cons. unfold split_go at 1; fold split_go.
    rewrite prefix_head_ne.
    + by rewrite (IH Ha).
    + unfold not_char in Hd.
      apply negb_true_iff, Ascii.eqb_neq in Hd. congruence.
Qed.

Lemma split_go_none c sep a :
  all_chars (not_char c) a = true →
  split_go (String c sep) 0 a = [a].
Proof.
  induction a as [|d a IH]; [done|]. simpl all_chars.
  intros [Hd Ha]%andb_true_iff. unfold split_go; fold split_go.
  rewrite prefix_head_ne.
  - by rewrite (IH Ha).
  - unfold not_char in Hd. apply negb_true_iff, Ascii.eqb_neq in Hd. congruence.
Qed.

Lemma split_first c sep a b :
  all_chars (not_char c) a = true →
  split (String c sep) (a +:+ String c sep +:+ b) = a :: split (String c sep) b.
Proof. apply split_go_first. Qed.

Lemma split_nonempty sep skip s : split_go sep skip s ≠ [].
Proof.
  revert skip. induction s as [|c s IH]; intros skip; [done|].
  cbn [split_go]. destruct skip; [|apply IH].
  destruct (String.prefix sep (String c s)); [done|].
  by destruct (split_go sep 0 s).
Qed.

End PyStrFacts.

(** ** Integers as text *)

Module PyIntFacts.
Import PyStr PyInt PyStrFacts.

Lemma uint_chars u : all_chars is_ascii_digit (NilEmpty.string_of_uint u) = true.
Proof. induction u; simpl; auto. Qed.

Lemma nilzero_chars u : all_chars is_ascii_digit (NilZero.string_of_uint u) = true.
Proof. destruct u; try done; apply (uint_chars (_ _)). Qed.

Lemma str_chars n : all_chars int_char (str n) = true.
Proof.
  assert (∀ u, all_chars int_char (NilZero.string_of_uint u) = true) as Hu.
  { intros u. eapply all_chars_impl; [|apply nilzero_chars].
    intros c Hc. unfold int_char. by rewrite Hc. }
  unfold str. destruct (Z.to_int n); simpl NilZero.string_of_int; [apply Hu|].
  simpl. apply Hu.
Qed.

Lemma int_char_not_space c : int_char c = true → negb (is_space c) = true.
Proof.
  destruct c as [[] [] [] [] [] [] [] []]; vm_compute; congruence.
Qed.

Lemma int_char_not_hash c : int_char c = true → not_char "#" c = true.
Proof.
  destruct c as [[] [] [] [] [] [] [] []]; vm_compute; congruence.
Qed.

Lemma int_char_not_int_space c : int_char c = true → negb (int_space c) = true.
Proof.
  destruct c as [[] [] [] [] [] [] [] []]; vm_compute; congruence.
Qed.

Lemma str_no_int_space n : all_chars (λ c, negb (int_space c)) (str n) = true.
Proof. eapply all_chars_impl; [apply int_char_not_int_space|apply str_chars]. Qed.

Lemma str_no_space n : all_chars (λ c, negb (is_space c)) (str n) = true.
Proof. eapply all_chars_impl; [apply int_char_not_space|apply str_chars]. Qed.

Lemma str_no_hash n : all_chars (not_char "#") (str n) = true.
Proof. eapply all_chars_impl; [apply int_char_not_hash|apply str_chars]. Qed.

Lemma str_cons n : ∃ c s, str n = String c s ∧ is_space c = false.
Proof.
  pose proof (str_no_space n) as H.
  destruct (str n) as [|c s] eqn:E.
  - exfalso. unfold str in E.
    destruct (Z.to_int n) as [u|u]; simpl in E; [|done].
    destruct u; discriminate.
  - exists c, s. split; [done|]. simpl in H.
    apply andb_true_iff in H as [H _]. by apply negb_true_iff in H.
Qed.

Lemma parse_digits_uint u :
  parse_digits true (NilEmpty.string_of_uint u) = Some u.
Proof. induction u; simpl; [done|..]; by rewrite IHu. Qed.

Lemma parse_digits_first u :
  u ≠ Nil → parse_digits false (NilEmpty.string_of_uint u) = Some u.
Proof. destruct u; [done|..]; intros _; simpl; by rewrite parse_digits_uint. Qed.

Lemma nilzero_nonnil u :
  u ≠ Nil → NilZero.string_of_uint u = NilEmpty.string_of_uint u.
Proof. by destruct u. Qed.

(** [int(str(n)) == n]. *)
Lemma int_str n : int (str n) = Some n.
Proof.
  unfold int. rewrite strip_by_none by apply str_no_int_space.
  pose proof (DecimalZ.of_to n) as Hz.
  destruct n as [|p|p]; [done|..]; unfold str; simpl Z.to_int in *;
    simpl NilZero.string_of_int; simpl Z.of_int in Hz;
    pose proof (DecimalPos.Unsigned.to_uint_nonnil p) as Hnn;
    rewrite (nilzero_nonnil _ Hnn).
  - destruct (Pos.to_uint p) as [|u|u|u|u|u|u|u|u|u|u] eqn:E; [done|..];
      simpl; rewrite parse_digits_uint; simpl; by rewrite Hz.
  - rewrite parse_digits_first by done. simpl. by rewrite Hz.
Qed.

(** A number followed by blanks reads as the number. *)
Lemma strip_str_blank n w :
  all_chars is_space w = true → strip (str n +:+ w) = str n.
Proof.
  intros Hw. unfold strip.
  destruct (str_cons n) as (c & s & E & Hc).
  assert (lstrip (str n +:+ w) = str n +:+ w) as ->.
  { rewrite E, app_cons. by apply lstrip_head. }
  rewrite rstrip_app_space by done.
  apply rstrip_no_space, str_no_space.
Qed.


End PyIntFacts.

(** ** Index entries *)

Module IndexFacts.
Import PyStr PyStrFacts PyIntFacts.

Lemma comment_form n comment :
  PyInt.str n +:+ " # " +:+ comment
  = (PyInt.str n +:+ " ") +:+ "#" +:+ (" " +:+ comment).
Proof. by rewrite !app_assoc. Qed.

Lemma blank_no_hash n : all_chars (not_char "#") (PyInt.str n +:+ " ") = true.
Proof. rewrite all_chars_app, str_no_hash. done. Qed.



Lemma index_of_commented n comment :
  index_of_entry (YStr (PyInt.str n +:+ " # " +:+ comment)) = Some n.
Proof.
  unfold index_of_entry. rewrite comment_form.
  rewrite contains_app.
  rewrite (split_first "#" "") by apply blank_no_hash.
  simpl hd. rewrite strip_str_blank by done. apply int_str.
Qed.


Lemma endpoint_of_commented n comment :
  AnalyzeRelationships.endpoint_of (YStr (PyInt.str n +:+ " # " +:+ comment))
  = Some n.
Proof.
  unfold AnalyzeRelationships.endpoint_of. simpl PyValue.str.
  rewrite comment_form. rewrite (split_first "#" "") by apply blank_no_hash.
  simpl hd. rewrite strip_str_blank by done. apply int_str.
Qed.

End IndexFacts.

(** ** Abstraction Stage *)

Module IdentifyAbstractionsFacts.
Import IdentifyAbstractions.

Lemma in_range_spec idx n : in_range idx n = true ↔ 0 ≤ idx < n.
Proof. unfold in_range. rewrite andb_true_iff, Z.leb_le, Z.ltb_lt. done. Qed.









End IdentifyAbstractionsFacts.

(** ** What a stage's [exec] returns comes out of its validation *)

Module StageFacts.





End StageFacts.




(** ** Ordering Stage *)

Module OrderChaptersFacts.
Import OrderChapters.






End OrderChaptersFacts.




(** ** Relationship Stage *)

Module AnalyzeRelationshipsFacts.
Import AnalyzeRelationships IdentifyAbstractionsFacts.

Lemma validate_relationships_step num rel :
  (∃ r, accepted_relationship num rel r
        ∧ ∀ rest acc,
            validate_relationships num (rel :: rest) acc
            = validate_relationships num rest (acc ++ [r]))
  ∨ ((∀ r, ¬ accepted_relationship num rel r)
     ∧ ∀ rest acc, raises (validate_relationships num (rel :: rest) acc)).
Proof.
  destruct rel as [| | | | | |d];
    try (right; split;
         [by intros r (? & ? & ? & ? & _)|intros; by eexists]).
  destruct (dict_get "from_abstraction" d) as [f|] eqn:Hf.
  2:{ right. split.
      - intros r (? & ? & ? & [= <-] & ? & _). congruence.
      - intros. simpl. rewrite Hf. by eexists. }
  destruct (dict_get "to_abstraction" d) as [t|] eqn:Ht.
  2:{ right. split.
      - intros r (? & ? & ? & [= <-] & ? & ? & _). congruence.
      - intros. simpl. rewrite Hf, Ht. by eexists. }
  destruct (dict_get "label" d) as [l|] eqn:Hl.
  2:{ right. split.
      - intros r (? & ? & ? & [= <-] & ? & ? & ? & _). congruence.
      - intros. simpl. rewrite Hf, Ht, Hl. by eexists. }
  destruct l as [| | | |s| |];
    try (right; split;
         [intros r (? & ? & ? & [= <-] & ? & ? & ? & _); congruence
         |intros; simpl; rewrite Hf, Ht, Hl; by eexists]).
  destruct (endpoint_of f) as [from_idx|] eqn:Hef.
  2:{ right. split.
      - intros r (? & ? & ? & [= <-] & ? & ? & ? & ? & _). congruence.
      - intros. simpl. rewrite Hf, Ht, Hl, Hef. by eexists. }
  destruct (endpoint_of t) as [to_idx|] eqn:Het.
  2:{ right. split.
      - intros r (? & ? & ? & [= <-] & ? & ? & ? & ? & ? & _). congruence.
      - intros. simpl. rewrite Hf, Ht, Hl, Hef, Het. by eexists. }
  destruct (in_range from_idx num && in_range to_idx num) eqn:Hr.
  - left. exists {| from := from_idx; to := to_idx; label := s |}.
    apply andb_true_iff in Hr as [Hr1 Hr2].
    split.
    + exists d, f, t. apply in_range_spec in Hr1, Hr2. simpl.
      split_and!; try done; lia.
    + intros. simpl. by rewrite Hf, Ht, Hl, Hef, Het, Hr1, Hr2.
  - right. split.
    + intros r (? & f' & t' & [= <-] & Hf' & Ht' & _ & Hef' & Het' & Hr1 & Hr2).
      assert (f' = f) as -> by congruence.
      assert (t' = t) as -> by congruence.
      assert (from r = from_idx) as <- by congruence.
      assert (to r = to_idx) as <- by congruence.
      apply in_range_spec in Hr1, Hr2. rewrite Hr1, Hr2 in Hr. done.
    + intros. simpl. rewrite Hf, Ht, Hl, Hef, Het, Hr. by eexists.
Qed.

Lemma accepted_functional num rel r r' :
  accepted_relationship num rel r → accepted_relationship num rel r' → r = r'.
Proof.
  intros (d & f & t & -> & Hf & Ht & Hl & Hef & Het & _)
         (d' & f' & t' & [= <-] & Hf' & Ht' & Hl' & Hef' & Het' & _).
  destruct r, r'. simpl in *. f_equal; congruence.
Qed.

Lemma validate_relationships_ok num rels acc res :
  validate_relationships num rels acc = Ok res
  ↔ ∃ rs, Forall2 (accepted_relationship num) rels rs ∧ res = acc ++ rs.
Proof.
  revert acc. induction rels as [|rel rels IH]; intros acc.
  - simpl. split.
    + intros [= <-]. exists []. split; [constructor|]. by rewrite app_nil_r.
    + intros (rs & ->%Forall2_nil_inv_l & ->). by rewrite app_nil_r.
  - destruct (validate_relationships_step num rel)
      as [(r & Hacc & Hstep)|[Hnone Hraise]].
    + rewrite Hstep, IH. split.
      * intros (rs & Hall & ->). exists (r :: rs).
        split; [by constructor|]. by rewrite <- app_assoc.
      * intros (rs & Hall & ->).
        apply Forall2_cons_inv_l in Hall as (r' & rs' & Hr' & Hall & ->).
        rewrite (accepted_functional _ _ _ _ Hr' Hacc).
        exists rs'. split; [done|]. by rewrite <- app_assoc.
    + split.
      * intros Hok. destruct (Hraise rels acc) as [e He]. congruence.
      * intros (rs & Hall & _).
        apply Forall2_cons_inv_l in Hall as (r' & ? & Hr' & _ & _).
        by apply Hnone in Hr'.
Qed.

Lemma validate_data_ok num parsed res :
  validate num parsed = Ok res
  ↔ ∃ d rels,
      parsed = YDict d
      ∧ dict_get "summary" d = Some (YStr (summary res))
      ∧ dict_get "relationships" d = Some (YList rels)
      ∧ Forall2 (accepted_relationship num) rels (details res).
Proof.
  unfold validate. destruct parsed as [| | | | | |d];
    try (split; [done|by intros (? & ? & ? & _)]).
  destruct (dict_get "summary" d) as [vs|] eqn:Hs.
  2:{ split; [done|]. intros (? & ? & [= <-] & ? & _). congruence. }
  destruct (dict_get "relationships" d) as [vr|] eqn:Hr.
  2:{ split; [done|]. intros (? & ? & [= <-] & ? & ? & _). congruence. }
  destruct vs as [| | | |s| |];
    try (split; [done|]; intros (? & ? & [= <-] & ? & _); congruence).
  destruct vr as [| | | | |rels|];
    try (split; [done|]; intros (? & ? & [= <-] & ? & ? & _); congruence).
  destruct (validate_relationships num rels []) as [rs|e] eqn:Hv; simpl.
  - apply validate_relationships_ok in Hv as (rs' & Hall & ->). simpl.
    split.
    + intros [= <-]. exists d, rels. by repeat split.
    + intros (? & rels' & [= <-] & Hs' & Hr' & Hall').
      rewrite Hr in Hr'. injection Hr' as <-.
      destruct res as [s' ds']. simpl in *. f_equal. f_equal; [congruence|].
      clear -Hall Hall'. revert ds' Hall'.
      induction Hall as [|rel r rels rs Hacc _ IH]; intros ds' Hall'.
      * by apply Forall2_nil_inv_l in Hall'.
      * apply Forall2_cons_inv_l in Hall' as (r' & rs' & Hr' & Hall' & ->).
        f_equal; [by eapply accepted_functional|]. by apply IH.
  - split; [done|].
    intros (? & rels' & [= <-] & Hs' & Hr' & Hall').
    rewrite Hr in Hr'. injection Hr' as <-.
    assert (validate_relationships num rels [] = Ok ([] ++ details res))
      as Hok; [|congruence].
    apply validate_relationships_ok. eauto.
Qed.

End AnalyzeRelationshipsFacts.




(** ** Diagram labels *)

Module LabelFacts.
Import PyStr PyStrFacts CombineTutorial.

Lemma replace_char_step c new d s :
  replace_go (String c EmptyString) new 0 (String d s)
  = if Ascii.eqb d c
    then new +:+ replace_go (String c EmptyString) new 0 s
    else String d (replace_go (String c EmptyString) new 0 s).
Proof.
  cbn [replace_go]. rewrite prefix_cons, prefix_nil, andb_true_r.
  destruct (Ascii.eqb_spec d c) as [->|Hne].
  - by rewrite bool_decide_eq_true_2.
  - rewrite bool_decide_eq_false_2 by congruence. done.
Qed.

Lemma replace_char_drop c s :
  replace (String c EmptyString) "" s = filter_chars (not_char c) s.
Proof.
  unfold replace. induction s as [|d s IH]; [done|].
  rewrite replace_char_step. cbn [filter_chars]. unfold not_char at 1.
  destruct (Ascii.eqb d c); simpl negb; cbv iota.
  - by rewrite app_nil_l.
  - by rewrite IH.
Qed.

Lemma replace_char_map c e s :
  replace (String c EmptyString) (String e EmptyString) s
  = map_chars (λ x, if is_char c x then e else x) s.
Proof.
  unfold replace. induction s as [|d s IH]; [done|].
  rewrite replace_char_step. cbn [map_chars]. unfold is_char at 1.
  destruct (Ascii.eqb d c); by rewrite IH.
Qed.

Lemma replace_dquote s : replace DQUOTE "" s = filter_chars (not_char dquote) s.
Proof. apply replace_char_drop. Qed.

Lemma replace_nl s :
  replace NL " " s = map_chars (λ c, if is_char nl c then " "%char else c) s.
Proof. apply (replace_char_map nl " "). Qed.

Lemma sanitized_eq rel_label :
  replace NL " " (replace DQUOTE "" rel_label) = sanitized rel_label.
Proof. by rewrite replace_dquote, replace_nl. Qed.

Lemma sanitized_clean rel_label :
  all_chars (λ c, not_char dquote c && not_char nl c) (sanitized rel_label)
  = true.
Proof.
  unfold sanitized. induction rel_label as [|c s IH]; [done|].
  cbn [filter_chars]. destruct (not_char dquote c) eqn:Hq; [|done].
  cbn [map_chars all_chars]. rewrite IH, andb_true_r.
  unfold is_char. destruct (Ascii.eqb_spec c nl) as [->|Hne]; [done|].
  rewrite Hq. unfold not_char. apply andb_true_iff. split; [done|].
  apply negb_true_iff. by apply Ascii.eqb_neq.
Qed.

Lemma length_take n s :
  String.length (take n s) = Nat.min n (String.length s).
Proof.
  revert s. induction n as [|n IH]; intros [|c s]; simpl; try done.
  by rewrite IH.
Qed.

Lemma take_prefix n s : String.prefix (take n s) s = true.
Proof.
  revert s. induction n as [|n IH]; intros [|c s]; try done.
  cbn [take]. rewrite prefix_cons, IH. by rewrite bool_decide_eq_true_2.
Qed.

End LabelFacts.

(** C6 — Diagram edge labels. The label written into an edge statement is the
    relationship's label with its double quotes dropped and each newline
    turned into a space; no double quote and no newline is left in it. When
    that text is longer than 30 characters the edge shows its first 27
    characters followed by ["..."], 30 characters in all; a text of at most
    30 characters is shown as it is. *)
Theorem edge_label_sanitized_and_capped (rel : relationship) :
  let shown := CombineTutorial.edge_label (label rel) in
  let clean := sanitized (label rel) in
  CombineTutorial.edge_line rel
  = "    " +:+ ("A" +:+ PyInt.str (from rel)) +:+ " -- " +:+ DQUOTE +:+ shown
    +:+ DQUOTE +:+ " --> " +:+ ("A" +:+ PyInt.str (to rel))
  ∧ all_chars (λ c, not_char dquote c && not_char nl c) clean = true
  ∧ (PyStr.len clean > 30 →
     shown = PyStr.take 27 clean +:+ "..." ∧ PyStr.len shown = 30)
  ∧ (PyStr.len clean ≤ 30 → shown = clean)
  ∧ PyStr.len shown ≤ 30.
Proof.
  intros shown clean.
  assert (shown = if PyStr.len clean >? 30
                  then PyStr.take 27 clean +:+ "..." else clean) as Hshown.
  { unfold shown, CombineTutorial.edge_label.
    by rewrite LabelFacts.sanitized_eq. }
  assert (PyStr.len clean > 30 → PyStr.len (PyStr.take 27 clean +:+ "...") = 30)
    as Hlen.
  { unfold PyStr.len. intros Hgt.
    rewrite PyStrFacts.length_app, LabelFacts.length_take.
    rewrite Nat.min_l by lia. done. }
  split; [done|]. split; [apply LabelFacts.sanitized_clean|].
  split; [|split].
  - intros Hgt. rewrite Hshown.
    destruct (Z.gtb_spec (PyStr.len clean) 30); [|lia]. split; [done|]. auto.
  - intros Hle. rewrite Hshown.
    destruct (Z.gtb_spec (PyStr.len clean) 30); [lia|done].
  - rewrite Hshown.
    destruct (Z.gtb_spec (PyStr.len clean) 30); [|lia]. rewrite Hlen; lia.
Qed.

(** C6 at a label of 40 characters holding a quoted word: 27 characters and
    the ellipsis are shown. *)
Lemma edge_label_sanitized_and_capped_witness :
  CombineTutorial.edge_label
    ("Feeds " +:+ DQUOTE +:+ "raw" +:+ DQUOTE +:+ " data to the processing unit")
  = "Feeds raw data to the proce...".
Proof.
  pose (rel := {| from := 0; to := 1;
                  label := "Feeds " +:+ DQUOTE +:+ "raw" +:+ DQUOTE
                           +:+ " data to the processing unit" |}).
  destruct (edge_label_sanitized_and_capped rel) as (_ & _ & Hlong & _).
  destruct Hlong as [-> _]; [vm_compute; reflexivity|].
  vm_compute. reflexivity.
Defined.

(** ** Heading repair *)

Module HeadingFacts.
Import PyStr PyStrFacts WriteChapters.

Lemma heading_cons abstraction_name :
  "# " +:+ abstraction_name = String "#" (String " " abstraction_name).
Proof. done. Qed.

Lemma lstrip_heading abstraction_name tail :
  lstrip (("# " +:+ abstraction_name) +:+ tail)
  = ("# " +:+ abstraction_name) +:+ tail.
Proof. rewrite heading_cons, !app_cons. by apply lstrip_head. Qed.

Lemma join_cons_prefix sep x l : String.prefix x (join sep (x :: l)) = true.
Proof.
  destruct l as [|y l]; cbn [join].
  - rewrite <- (app_nil_r x) at 2. apply prefix_app.
  - apply prefix_app.
Qed.

Lemma join_cons_form sep x l :
  join sep (x :: l) = x ∨ ∃ tail, join sep (x :: l) = x +:+ sep +:+ tail.
Proof. destruct l as [|y l]; cbn [join]; eauto. Qed.

(** The three cases of the repair. *)
Lemma repair_cases abstraction_name chapter_content :
  let heading := "# " +:+ abstraction_name in
  (startswith (strip chapter_content) heading = true
   ∧ repair_heading abstraction_name chapter_content = chapter_content)
  ∨ (startswith (strip chapter_content) heading = false
     ∧ ∃ first rest,
         split NL (strip chapter_content) = first :: rest
         ∧ ((startswith (strip first) "#" = true
             ∧ repair_heading abstraction_name chapter_content
               = join NL (heading :: rest))
            ∨ (startswith (strip first) "#" = false
               ∧ repair_heading abstraction_name chapter_content
                 = heading +:+ NL +:+ NL +:+ chapter_content))).
Proof.
  intros heading. unfold repair_heading. fold heading.
  destruct (startswith (strip chapter_content) heading) eqn:Hs; simpl negb;
    cbv iota; [by left|right]. split; [done|].
  destruct (split NL (strip chapter_content)) as [|first rest] eqn:Hsplit.
  { by apply split_nonempty in Hsplit. }
  exists first, rest. split; [done|].
  destruct (startswith (strip first) "#"); [left|right]; done.
Qed.

Lemma repaired_starts abstraction_name chapter_content :
  startswith (strip chapter_content) ("# " +:+ abstraction_name) = false →
  startswith (repair_heading abstraction_name chapter_content)
    ("# " +:+ abstraction_name) = true.
Proof.
  intros Hs.
  destruct (repair_cases abstraction_name chapter_content)
    as [[Hs' _]|(_ & first & rest & _ & [[_ ->]|[_ ->]])]; [congruence|..];
    unfold startswith.
  - apply join_cons_prefix.
  - apply prefix_app.
Qed.

Lemma starts_after_blanks abstraction_name chapter_content :
  startswith (lstrip (repair_heading abstraction_name chapter_content))
    ("# " +:+ abstraction_name) = true.
Proof.
  destruct (repair_cases abstraction_name chapter_content)
    as [[Hs ->]|(Hs & first & rest & _ & [[_ ->]|[_ ->]])].
  - unfold startswith, strip in *.
    eapply prefix_trans; [exact Hs|apply rstrip_prefix].
  - unfold startswith.
    destruct (join_cons_form NL ("# " +:+ abstraction_name) rest)
      as [->|[tail ->]].
    + rewrite heading_cons, lstrip_head by done.
      rewrite <- (app_nil_r (String _ _)) at 2. apply prefix_app.
    + rewrite lstrip_heading. apply prefix_app.
  - unfold startswith. rewrite lstrip_heading. apply prefix_app.
Qed.

Lemma first_line_repaired abstraction_name chapter_content :
  all_chars (not_char nl) abstraction_name = true →
  startswith (strip chapter_content) ("# " +:+ abstraction_name) = false →
  first_line (repair_heading abstraction_name chapter_content)
  = "# " +:+ abstraction_name.
Proof.
  intros Hname Hs. unfold first_line.
  assert (all_chars (not_char nl) ("# " +:+ abstraction_name) = true) as Hh.
  { rewrite all_chars_app, Hname. done. }
  assert (∀ tail, hd EmptyString
                    (split NL (("# " +:+ abstraction_name) +:+ NL +:+ tail))
                  = "# " +:+ abstraction_name) as Hcut.
  { intros tail. change NL with (String nl EmptyString).
    by rewrite (split_first nl "" _ tail Hh). }
  destruct (repair_cases abstraction_name chapter_content)
    as [[Hs' _]|(_ & first & rest & _ & [[_ ->]|[_ ->]])]; [congruence|..].
  - destruct (join_cons_form NL ("# " +:+ abstraction_name) rest)
      as [->|[tail ->]]; [|apply Hcut].
    unfold split. change NL with (String nl EmptyString).
    by rewrite (split_go_none nl "" _ Hh).
  - apply Hcut.
Qed.

End HeadingFacts.

(** C5, as stated, fails. For the abstraction ["Foo"]: a body that starts
    with a blank line and then the right heading is returned as it is, so
    the returned body does not begin with the heading; and a body headed
    ["# FooBar"] is returned as it is, its heading not replaced. *)
Lemma heading_repair_leaves_some_bodies :
  WriteChapters.repair_heading "Foo" body_after_blank_line = body_after_blank_line
  ∧ PyStr.startswith body_after_blank_line "# Foo" = false
  ∧ first_line body_after_blank_line = ""
  ∧ WriteChapters.repair_heading "Foo" body_with_longer_heading
    = body_with_longer_heading
  ∧ first_line body_with_longer_heading = "# FooBar".
Proof. repeat split; vm_compute; reflexivity. Qed.

(** C5, amended — Narrative Assembly heading repair, with [heading] the
    text ["# " + abstraction_name]. A body whose trimmed text is [heading]
    alone, or [heading] followed by further lines, is returned as it is. A
    body whose trimmed text does not start with the text [heading] is
    rewritten: when the first line of the trimmed body is a heading (starts
    with ["#"] once trimmed) that line is replaced by [heading] and the
    other lines are kept, otherwise [heading] and a blank line are put
    before the body. A rewritten body starts with [heading], and its first
    line is exactly [heading] when the name holds no newline. Every
    returned body starts with the text [heading] once its leading
    whitespace is skipped. *)
Theorem heading_repair (abstraction_name chapter_content : string) :
  let heading := "# " +:+ abstraction_name in
  let returned := WriteChapters.repair_heading abstraction_name chapter_content in
  (PyStr.strip chapter_content = heading
   ∨ (∃ tail, PyStr.strip chapter_content = heading +:+ NL +:+ tail) →
   returned = chapter_content)
  ∧ (PyStr.startswith (PyStr.strip chapter_content) heading = false →
     (∃ first rest,
        PyStr.split NL (PyStr.strip chapter_content) = first :: rest
        ∧ (PyStr.startswith (PyStr.strip first) "#" = true →
           returned = PyStr.join NL (heading :: rest))
        ∧ (PyStr.startswith (PyStr.strip first) "#" = false →
           returned = heading +:+ NL +:+ NL +:+ chapter_content))
     ∧ PyStr.startswith returned heading = true
     ∧ (all_chars (not_char nl) abstraction_name = true →
        first_line returned = heading))
  ∧ PyStr.startswith (PyStr.lstrip returned) heading = true.
Proof.
  intros heading returned. split; [|split].
  - intros Hs.
    destruct (HeadingFacts.repair_cases abstraction_name chapter_content)
      as [[_ H]|[Hs' _]]; [done|]. exfalso. fold heading in Hs'.
    unfold PyStr.startswith in Hs'.
    destruct Hs as [Hs|[tail Hs]]; rewrite Hs in Hs'.
    + rewrite <- (PyStrFacts.app_nil_r heading) in Hs' at 2.
      by rewrite PyStrFacts.prefix_app in Hs'.
    + by rewrite PyStrFacts.prefix_app in Hs'.
  - intros Hs. split; [|split].
    + destruct (HeadingFacts.repair_cases abstraction_name chapter_content)
        as [[Hs' _]|(_ & first & rest & Hsplit & Hcase)].
      { fold heading in Hs'. congruence. }
      exists first, rest. split; [done|].
      destruct Hcase as [[Hf H]|[Hf H]]; split; intros Hf'; try done;
        congruence.
    + by apply HeadingFacts.repaired_starts.
    + intros Hname. by apply HeadingFacts.first_line_repaired.
  - apply HeadingFacts.starts_after_blanks.
Qed.

(** The amended C5 at a body without heading: the heading and a blank line
    are put before it. *)
Lemma heading_repair_witness :
  PyStr.startswith (WriteChapters.repair_heading "Foo" "text") "# Foo" = true
  ∧ first_line (WriteChapters.repair_heading "Foo" "text") = "# Foo".
Proof.
  destruct (heading_repair "Foo" "text") as (_ & Hrew & _).
  destruct Hrew as (_ & Hstart & Hline); [vm_compute; reflexivity|].
  split; [exact Hstart|]. apply Hline. vm_compute. reflexivity.
Defined.

(** ** Response Extractor *)

Module ExtractorFacts.
Import PyStr PyStrFacts Extractor.

Lemma contains_prefix_mono sub p s :
  String.prefix p s = true → contains sub p = true → contains sub s = true.
Proof.
  revert s. induction p as [|c p IH]; intros s Hps.
  - unfold contains. rewrite orb_false_r. intros Hsub.
    apply contains_here. destruct sub; [apply prefix_nil|done].
  - destruct s as [|d s]; [done|].
    rewrite prefix_cons in Hps. apply andb_true_iff in Hps as [Hcd Hps].
    apply bool_decide_eq_true_1 in Hcd. subst d.
    unfold contains; fold contains. intros [Hhere|Hlater]%orb_true_iff.
    + apply orb_true_iff. left. eapply prefix_trans; [exact Hhere|].
      rewrite prefix_cons, Hps. by rewrite bool_decide_eq_true_2.
    + apply orb_true_iff. right. by apply IH.
Qed.



Lemma split_go_absent sep s :
  contains sep s = false → split_go sep 0 s = [s].
Proof.
  induction s as [|c s IH]; [done|].
  unfold contains; fold contains. intros [Hp Hc]%orb_false_iff.
  cbn [split_go]. by rewrite Hp, (IH Hc).
Qed.






(** A response with a single plain fence: nothing is between a pair. *)
Lemma strategy2_single_fence response before after :
  strip response = before +:+ FENCE +:+ after →
  all_chars (not_char backtick) before = true →
  all_chars (not_char backtick) after = true →
  strategy2 response = None.
Proof.
  intros Hshape Hb Ha. unfold strategy2.
  destruct (contains FENCE response); [|done].
  rewrite Hshape. unfold FENCE.
  rewrite (split_first backtick "``" before _ Hb).
  unfold split. rewrite (split_go_none backtick "``" _ Ha).
  by rewrite bool_decide_eq_false_2 by (simpl; lia).
Qed.




End ExtractorFacts.




(** ** Navigation entries *)

Module NavigationFacts.
Import PyStr PyStrFacts CombineTutorial.

Lemma at_index_valid {A} (l : list A) idx :
  0 ≤ idx < Z.of_nat (length l) →
  ∃ a, at_index l idx = Some a ∧ l !! Z.to_nat idx = Some a.
Proof.
  intros Hr. unfold at_index, valid_index.
  rewrite (proj2 (IdentifyAbstractionsFacts.in_range_spec _ _) Hr).
  destruct (lookup_lt_is_Some_2 l (Z.to_nat idx)) as [a Ha]; [lia|]. eauto.
Qed.

Lemma items_from_length abstractions i chapter_order :
  Forall (λ idx, 0 ≤ idx < Z.of_nat (length abstractions)) chapter_order →
  length (WriteChapters.items_from abstractions i chapter_order)
  = length chapter_order.
Proof.
  revert i. induction chapter_order as [|idx rest IH]; intros i Hv; [done|].
  apply Forall_cons in Hv as [Hidx Hv]. simpl.
  destruct (at_index_valid abstractions idx Hidx) as (a & -> & _).
  simpl. by rewrite IH.
Qed.

Lemma chapters_length oracle_text abstractions chapter_order :
  Forall (λ idx, 0 ≤ idx < Z.of_nat (length abstractions)) chapter_order →
  length (WriteChapters.chapters oracle_text
            (WriteChapters.items_to_process abstractions chapter_order))
  = length chapter_order.
Proof.
  intros Hv. unfold WriteChapters.chapters, WriteChapters.items_to_process.
  by rewrite length_map, items_from_length.
Qed.


Lemma safe_name_chars chapter_name :
  Filename.safe_name chapter_name
  = map_chars (λ c, lower_char (if isalnum c then c else "_"%char)) chapter_name.
Proof.
  unfold Filename.safe_name, lower.
  induction chapter_name as [|c s IH]; [done|]. simpl. by rewrite IH.
Qed.


Lemma safe_char c :
  let d := lower_char (if isalnum c then c else "_"%char) in
  (isalnum d || is_char "_" d) && Ascii.eqb (lower_char d) d = true.
Proof. destruct c as [[] [] [] [] [] [] [] []]; vm_compute; reflexivity. Qed.

Lemma safe_name_safe chapter_name :
  all_chars (λ c, (isalnum c || is_char "_" c) && Ascii.eqb (lower_char c) c)
    (Filename.safe_name chapter_name) = true.
Proof.
  rewrite safe_name_chars.
  induction chapter_name as [|c s IH]; [done|]. cbn [map_chars all_chars].
  rewrite IH, andb_true_r. apply safe_char.
Qed.

End NavigationFacts.



(** ** Writing and publishing the artifacts *)

Module OutputFacts.
Import Output.

Lemma put_off publishing p title file text w :
  publish_to_nostr p = false →
  put publishing p title file text w
  = (Ok (), {| written := written w ++ [(file, text +:+ watermark)];
               published := published w |}).
Proof. intros Hoff. unfold put. by rewrite Hoff. Qed.

Lemma put_returns publishing p title file text w :
  publish_to_nostr p = true →
  publish_returns (publishing title) = true →
  put publishing p title file text w
  = (Ok (), {| written := written w ++ [(file, text +:+ watermark)];
               published := published w ++ [(title, text +:+ watermark)] |}).
Proof.
  intros Hon Hret. unfold put, publish. rewrite Hon.
  unfold Publisher.publish_long_form_content_event, publish_returns in *.
  destruct (Publisher.nostr_private_key (publishing title)) as [key|]; [|done].
  destruct (String.eqb key EmptyString); [done|].
  by destruct (Publisher.sdk (publishing title)).
Qed.

Lemma put_raises publishing p title file text w :
  publish_to_nostr p = true →
  publish_returns (publishing title) = false →
  ∃ e, put publishing p title file text w
       = (Raise e, {| written := written w;
                      published := published w ++ [(title, text +:+ watermark)] |}).
Proof.
  intros Hon Hret. unfold put, publish. rewrite Hon.
  unfold Publisher.publish_long_form_content_event, publish_returns in *.
  destruct (Publisher.nostr_private_key (publishing title)) as [key|]; [|done].
  destruct (String.eqb key EmptyString); [done|].
  destruct (Publisher.sdk (publishing title)); [|done]. by eexists.
Qed.

Lemma put_all_app publishing p l1 l2 w :
  put_all publishing p (l1 ++ l2) w
  = match put_all publishing p l1 w with
    | (Ok _, w') => put_all publishing p l2 w'
    | (Raise e, w') => (Raise e, w')
    end.
Proof.
  revert w. induction l1 as [|a l1 IH]; intros w; [done|]. simpl.
  destruct (put publishing p a.1.1 a.1.2 a.2 w) as [[[]|e] w']; [apply IH|done].
Qed.

Lemma put_chapters_all publishing p files w :
  put_chapters publishing p files w
  = put_all publishing p
      (map (λ c, (CombineTutorial.file_name c, CombineTutorial.file_name c,
                  CombineTutorial.content c)) files) w.
Proof.
  revert w. induction files as [|c files IH]; intros w; [done|]. simpl.
  destruct (put publishing p _ _ _ w) as [[[]|e] w']; [apply IH|done].
Qed.

(** [exec] puts the artifacts of the run, in order. *)
Lemma exec_put_all publishing p w :
  exec publishing p w = put_all publishing p (artifacts p) w.
Proof.
  unfold exec, artifacts. cbn [app put_all fst snd].
  destruct (put publishing p "index" "index.md" (index_content p) w)
    as [[[]|e] w1]; [|done].
  rewrite put_all_app, <- put_chapters_all.
  destruct (put_chapters publishing p (chapter_files p) w1) as [[[]|e] w2];
    [|done].
  destruct (String.eqb (beginner_friendly_episode p) EmptyString); simpl; [done|].
  change (PyStr.replace ".md" "" "beginner_friendly_episode.md")
    with "beginner_friendly_episode".
  by destruct (put publishing p _ _ _ w2) as [[[]|e] w3].
Qed.

Lemma put_all_off publishing p arts w :
  publish_to_nostr p = false →
  put_all publishing p arts w
  = (Ok (), {| written := written w ++ files_of arts;
               published := published w |}).
Proof.
  intros Hoff. revert w. induction arts as [|a arts IH]; intros w.
  - simpl. rewrite app_nil_r. by destruct w.
  - simpl. rewrite put_off by done. rewrite IH. simpl.
    by rewrite <- app_assoc.
Qed.

Lemma put_all_returns publishing p arts w :
  publish_to_nostr p = true →
  Forall (λ a, publish_returns (publishing a.1.1) = true) arts →
  put_all publishing p arts w
  = (Ok (), {| written := written w ++ files_of arts;
               published := published w ++ publications_of arts |}).
Proof.
  intros Hon Hall. revert w. induction Hall as [|a arts Ha _ IH]; intros w.
  - simpl. rewrite !app_nil_r. by destruct w.
  - simpl. rewrite put_returns by done. rewrite IH. simpl.
    by rewrite <- !app_assoc.
Qed.

Lemma put_all_raises publishing p before a rest w :
  publish_to_nostr p = true →
  Forall (λ b, publish_returns (publishing b.1.1) = true) before →
  publish_returns (publishing a.1.1) = false →
  ∃ e, put_all publishing p (before ++ a :: rest) w
       = (Raise e,
          {| written := written w ++ files_of before;
             published := published w ++ publications_of (before ++ [a]) |}).
Proof.
  intros Hon Hbefore Ha. rewrite put_all_app.
  rewrite (put_all_returns _ _ _ _ Hon Hbefore). simpl.
  destruct (put_raises publishing p a.1.1 a.1.2 a.2
              {| written := written w ++ files_of before;
                 published := published w ++ publications_of before |} Hon Ha)
    as [e ->].
  exists e. simpl. unfold publications_of. rewrite map_app. simpl.
  by rewrite <- app_assoc.
Qed.

End OutputFacts.

(** C9, as stated, fails: with the relay client raising, the publish call
    for the landing document leaves [exec] by its exception, and neither
    the landing document nor the chapter is written. *)
Lemma publish_exception_blocks_writing :
  Output.exec relay_down sample_prep empty_world
  = (Raise (OtherException "relay unreachable"),
     {| Output.written := [];
        Output.published :=
          [("index", "# Project" +:+ Output.watermark)] |}).
Proof. vm_compute. reflexivity. Qed.

(** C9, amended — Writing and publishing the artifacts (the landing
    document, each chapter, the overview when there is one), each with the
    watermark. Without publishing, every artifact is written. With
    publishing, the publish call of an artifact is made just before its
    write; as long as the publish calls return, also when they report a
    missing key or relays that failed, one call is made per artifact and
    every artifact is written. A publish call that raises ends the stage:
    the artifacts before it are written, that artifact and the later ones
    are not. *)
Theorem artifacts_written_when_publish_returns
    (publishing : string → Publisher.publish_env) (p : Output.prep_res)
    (w : Output.world) :
  (Output.publish_to_nostr p = false →
   Output.exec publishing p w
   = (Ok (), {| Output.written := Output.written w ++ files_of (Output.artifacts p);
                Output.published := Output.published w |}))
  ∧ (Output.publish_to_nostr p = true →
     Forall (λ a, publish_returns (publishing a.1.1) = true)
       (Output.artifacts p) →
     Output.exec publishing p w
     = (Ok (),
        {| Output.written := Output.written w ++ files_of (Output.artifacts p);
           Output.published :=
             Output.published w ++ publications_of (Output.artifacts p) |}))
  ∧ (Output.publish_to_nostr p = true →
     ∀ before a rest,
       Output.artifacts p = before ++ a :: rest →
       Forall (λ b, publish_returns (publishing b.1.1) = true) before →
       publish_returns (publishing a.1.1) = false →
       ∃ e, Output.exec publishing p w
            = (Raise e,
               {| Output.written := Output.written w ++ files_of before;
                  Output.published :=
                    Output.published w ++ publications_of (before ++ [a]) |})).
Proof.
  rewrite OutputFacts.exec_put_all. split; [|split].
  - apply OutputFacts.put_all_off.
  - apply OutputFacts.put_all_returns.
  - intros Hon before a rest -> Hbefore Ha.
    by apply OutputFacts.put_all_raises.
Qed.

(** The amended C9 with relays that reject every event: the publish calls
    return, and both artifacts are written. *)
Lemma artifacts_written_when_publish_returns_witness :
  (Output.exec relays_reject sample_prep empty_world).2.(Output.written)
  = [("index.md", "# Project" +:+ Output.watermark);
     ("01_core.md", "# Core" +:+ Output.watermark)].
Proof.
  destruct (artifacts_written_when_publish_returns relays_reject sample_prep
              empty_world) as (_ & Hreturns & _).
  rewrite Hreturns; [reflexivity|reflexivity|].
  repeat constructor.
Defined.

(** ** The oracle wrapper *)

Module CallLlmFacts.
Import CallLlm.


Lemma response_is_fresh env :
  try_except (create env) (λ e, Some (failure_text e)) = fresh_response env.
Proof. unfold create, fresh_response. by destruct (api env). Qed.

Lemma storable_clean t : storable (Some t) = clean t.
Proof. done. Qed.

(** The three ways a call ends. *)
Lemma call_llm_cases env prompt use_cache st :
  (∃ cached,
     cache_hit env prompt use_cache st = Some cached
     ∧ call_llm env prompt use_cache st = (Ok (Some cached), st))
  ∨ (cache_hit env prompt use_cache st = None
     ∧ (use_cache = false ∨ storable (fresh_response env) = false)
     ∧ call_llm env prompt use_cache st = (Ok (fresh_response env), st))
  ∨ (cache_hit env prompt use_cache st = None
     ∧ use_cache = true
     ∧ ∃ t, fresh_response env = Some t ∧ clean t = true
            ∧ call_llm env prompt use_cache st
              = (Ok (Some t),
                 (dump env (<[prompt := t]> (loaded_cache env use_cache st)) st).2)).
Proof.
  unfold call_llm. rewrite response_is_fresh.
  destruct (cache_hit env prompt use_cache st) as [cached|]; [left; eauto|].
  right. destruct use_cache; simpl.
  - destruct (storable (fresh_response env)) eqn:Hs.
    + right. split; [done|]. split; [done|].
      destruct (fresh_response env) as [t|]; [|done]. exists t. by repeat split.
    + left. split; [done|]. split; [by right|done].
  - left. split; [done|]. split; [by left|done].
Qed.






End CallLlmFacts.



(** ** Retries and the cache *)

Module RetryFacts.
Import CallLlm.

Lemma exec_calls {A} environment (validate : option string → result A)
    prompt use_cache cur_retry w :
  Stage.calls (Stage.exec environment validate prompt use_cache cur_retry w).2
  = Stage.calls w ++ [(prompt, use_cache && bool_decide (cur_retry = 0%nat))].
Proof.
  unfold Stage.exec, Stage.call_llm_in.
  by destruct (call_llm _ _ _ _) as [r st].
Qed.

Lemma attempts_calls {A} environment (validate : option string → result A)
    prompt use_cache remaining :
  ∀ cur_retry w,
    (0 < remaining)%nat →
    ∃ n, (1 ≤ n ≤ remaining)%nat
         ∧ Stage.calls
             (Node.attempts (Stage.exec environment validate prompt use_cache)
                cur_retry remaining w).2
           = Stage.calls w
             ++ map (λ i, (prompt, use_cache && bool_decide (i = 0%nat)))
                  (seq cur_retry n).
Proof.
  induction remaining as [|k IH]; intros cur_retry w Hpos; [lia|].
  cbn [Node.attempts].
  pose proof (exec_calls environment validate prompt use_cache cur_retry w)
    as Hcalls.
  destruct (Stage.exec environment validate prompt use_cache cur_retry w)
    as [[a|e] w'].
  - exists 1%nat. split; [lia|]. done.
  - destruct k as [|k'].
    + exists 1%nat. split; [lia|]. done.
    + destruct (IH (S cur_retry) w') as (n & Hn & Hrest); [lia|].
      exists (S n). split; [lia|]. rewrite Hrest. simpl in Hcalls.
      rewrite Hcalls. by rewrite <- app_assoc.
Qed.

Lemma later_attempts_flags (prompt : string) use_cache m :
  map (λ i, (prompt, use_cache && bool_decide (i = 0%nat))) (seq 1 m)
  = replicate m (prompt, false).
Proof.
  assert (∀ start,
            (0 < start)%nat →
            map (λ i, (prompt, use_cache && bool_decide (i = 0%nat)))
              (seq start m)
            = replicate m (prompt, false)) as H; [|apply H; lia].
  induction m as [|m IH]; intros start Hs; [done|]. simpl.
  rewrite bool_decide_eq_false_2 by lia. rewrite andb_false_r.
  f_equal. apply IH. lia.
Qed.

Lemma uncached_call env prompt st :
  cache_hit env prompt false st = None
  ∧ call_llm env prompt false st = (Ok (fresh_response env), st).
Proof.
  split; [done|].
  destruct (CallLlmFacts.call_llm_cases env prompt false st)
    as [(c & Hc & _)|[(_ & _ & ->)|(_ & Hu & _)]]; done.
Qed.

End RetryFacts.

(** C7 — Retries and the cache. An attempt of a stage passes to the oracle
    call the flag [use_cache and cur_retry == 0]: it is true exactly on the
    first attempt (retry counter zero) of a run with caching enabled. Along
    the retries of one stage invocation the calls made are the first one,
    with the run's caching flag, followed by calls with [use_cache=False]
    only. A call with [use_cache=False] never takes the early return from
    the cache: it returns what the oracle answers (or the failure marker)
    and leaves the cache file alone; the cache serves a response only to a
    call made with [use_cache=True]. *)
Theorem cache_only_on_first_attempt
    (environment : nat → CallLlm.call_env) (prompt : string)
    (use_cache : bool) :
  (∀ A (validate : option string → result A) cur_retry w,
     Stage.calls (Stage.exec environment validate prompt use_cache cur_retry w).2
     = Stage.calls w ++ [(prompt, use_cache && bool_decide (cur_retry = 0%nat))]
     ∧ (use_cache && bool_decide (cur_retry = 0%nat) = true
        ↔ use_cache = true ∧ cur_retry = 0%nat))
  ∧ (∀ A (validate : option string → result A) max_retries w,
       (0 < max_retries)%nat →
       ∃ n, (1 ≤ n ≤ max_retries)%nat
            ∧ Stage.calls
                (Node._exec (Stage.exec environment validate prompt use_cache)
                   max_retries w).2
              = Stage.calls w
                ++ (prompt, use_cache) :: replicate (n - 1) (prompt, false))
  ∧ (∀ env st,
       CallLlm.cache_hit env prompt false st = None
       ∧ CallLlm.call_llm env prompt false st = (Ok (fresh_response env), st))
  ∧ (∀ env flag st v,
       CallLlm.cache_hit env prompt flag st = Some v → flag = true).
Proof.
  split; [|split; [|split]].
  - intros A validate cur_retry w. split; [apply RetryFacts.exec_calls|].
    rewrite andb_true_iff, bool_decide_eq_true. done.
  - intros A validate max_retries w Hpos. unfold Node._exec.
    destruct (RetryFacts.attempts_calls environment validate prompt use_cache
                max_retries 0%nat w Hpos) as (n & Hn & Hcalls).
    exists n. split; [done|]. rewrite Hcalls. f_equal.
    destruct n as [|m]; [lia|]. cbn [seq map].
    rewrite bool_decide_eq_true_2 by done. rewrite andb_true_r.
    f_equal. rewrite RetryFacts.later_attempts_flags. f_equal. lia.
  - intros env st. apply RetryFacts.uncached_call.
  - intros env flag st v. unfold CallLlm.cache_hit. by destruct flag.
Qed.

(** C7 at the Ordering Stage with five attempts allowed, caching enabled and
    an oracle that keeps answering with text that does not parse: the first
    call carries [use_cache=True], the later ones [use_cache=False]. *)
Lemma cache_only_on_first_attempt_witness :
  ∃ n, (1 ≤ n ≤ 5)%nat
       ∧ Stage.calls
           (Node._exec
              (Pipeline.OrderChapters_exec sample_safe_load
                 (λ _, api_answers "[") "p" 3 true)
              5 {| Stage.cache := CallLlm.Absent; Stage.calls := [] |}).2
         = [] ++ ("p", true) :: replicate (n - 1) ("p", false).
Proof.
  destruct (cache_only_on_first_attempt (λ _, api_answers "[") "p" true)
    as (_ & Hretry & _).
  apply (Hretry _ _ 5%nat {| Stage.cache := CallLlm.Absent; Stage.calls := [] |}).
  lia.
Defined.

(** ** The definitions on small inputs *)

Module Examples.
Import PyStr.

Example strip_both_ends : strip ("  a b" +:+ NL) = "a b".
Proof. reflexivity. Qed.

Example split_on_fence : split "```" "a```b```" = ["a"; "b"; ""].
Proof. reflexivity. Qed.

Example split_without_separator : split "#" "abc" = ["abc"].
Proof. reflexivity. Qed.

Example split_once_at_first_newline :
  split_once NL ("yaml" +:+ NL +:+ "a" +:+ NL +:+ "b")
  = ["yaml"; "a" +:+ NL +:+ "b"].
Proof. reflexivity. Qed.

Example replace_leftmost : replace "ab" "x" "aababab" = "axxx".
Proof. reflexivity. Qed.

Example int_accepts :
  PyInt.int " +1_0 " = Some 10 ∧ PyInt.int "-007" = Some (-7).
Proof. split; reflexivity. Qed.

Example int_rejects :
  PyInt.int "1__0" = None ∧ PyInt.int "" = None ∧ PyInt.int "_1" = None
  ∧ PyInt.int "1_" = None ∧ PyInt.int "1.0" = None ∧ PyInt.int "+ 1" = None.
Proof. repeat split; reflexivity. Qed.

Example str_of_ints : PyInt.str 0 = "0" ∧ PyInt.str 42 = "42" ∧ PyInt.str (-5) = "-5".
Proof. repeat split; reflexivity. Qed.

Example format_02d_pads :
  PyInt.format_02d 7 = "07" ∧ PyInt.format_02d 12 = "12"
  ∧ PyInt.format_02d 123 = "123".
Proof. repeat split; reflexivity. Qed.

Example entry_forms :
  index_of_entry (YInt 3) = Some 3
  ∧ index_of_entry (YStr "3") = Some 3
  ∧ index_of_entry (YStr "3 # main.py") = Some 3
  ∧ index_of_entry (YBool true) = Some 1
  ∧ index_of_entry (YStr "x # 3") = None
  ∧ index_of_entry (YFloat "3.0") = None
  ∧ index_of_entry YNone = None
  ∧ index_of_entry (YList [YInt 1]) = None.
Proof. repeat split; reflexivity. Qed.

Example endpoint_of_bool_fails :
  AnalyzeRelationships.endpoint_of (YBool true) = None.
Proof. reflexivity. Qed.

Example order_accepted :
  OrderChapters.validate 3 (YList [YInt 2; YStr "0 # a"; YStr "1"])
  = Ok [2; 0; 1].
Proof. vm_compute. reflexivity. Qed.

Example order_missing_index :
  OrderChapters.validate 3 (YList [YInt 2; YInt 0])
  = Raise (OrderLengthMismatch 2 3 {[1]}).
Proof. vm_compute. reflexivity. Qed.

Example abstraction_accepted :
  IdentifyAbstractions.validate 5
    (YList [YDict [("name", YStr "A"); ("description", YStr "d");
                   ("file_indices",
                    YList [YInt 4; YStr "1 # x"; YInt 4; YStr "0"])]])
  = Ok [{| name := "A"; description := "d"; files := [0; 1; 4] |}].
Proof. vm_compute. reflexivity. Qed.

Example safe_name_of_title : Filename.safe_name "HTTP/2 Client" = "http_2_client".
Proof. reflexivity. Qed.

Example heading_replaced :
  WriteChapters.repair_heading "Foo" ("## Intro" +:+ NL +:+ "text")
  = "# Foo" +:+ NL +:+ "text".
Proof. reflexivity. Qed.

Example heading_prepended :
  WriteChapters.repair_heading "Foo" "text" = "# Foo" +:+ NL +:+ NL +:+ "text".
Proof. reflexivity. Qed.

Example cached_answer_served :
  (CallLlm.call_llm api_down "p" true (CallLlm.Holds {["p" := "- 0"]})).1
  = Ok (Some "- 0").
Proof. vm_compute. reflexivity. Qed.

End Examples.

(** * Further properties of the code *)

(** ** Further facts on strings *)

Module PyStrExtFacts.
Import PyStr PyStrExt PyStrFacts.

Lemma prefix_drop p s :
  String.prefix p s = true → s = p +:+ drop (String.length p) s.
Proof.
  revert s. induction p as [|c p IH]; intros s; [done|].
  destruct s as [|d s]; [done|].
  rewrite prefix_cons. intros [Hc Hp]%andb_true_iff.
  apply bool_decide_eq_true in Hc as ->.
  rewrite app_cons. cbn [String.length drop]. by rewrite <- IH.
Qed.

Lemma drop_0 s : drop 0 s = s.
Proof. by destruct s. Qed.

Lemma drop_length_app a b : drop (String.length a) (a +:+ b) = b.
Proof.
  induction a as [|c a IH]; [apply drop_0|].
  rewrite app_cons. cbn [String.length drop]. apply IH.
Qed.

Lemma take_length_app a b : take (String.length a) (a +:+ b) = a.
Proof.
  induction a as [|c a IH]; [by destruct b|].
  rewrite app_cons. cbn [String.length take]. by rewrite IH.
Qed.

Lemma join_cons_char sep c f fs :
  join sep (String c f :: fs) = String c (join sep (f :: fs)).
Proof. destruct fs; [done|]. cbn [join]. by rewrite app_cons. Qed.

(** [sep.join(s.split(sep)) == s], for a non-empty [sep]. *)
Lemma join_split_go d sep skip s :
  join (String d sep) (split_go (String d sep) skip s) = drop skip s.
Proof.
  revert skip. induction s as [|c s IH]; intros skip.
  - by destruct skip.
  - cbn [split_go]. destruct skip as [|k]; [|by rewrite IH].
    rewrite drop_0.
    destruct (String.prefix (String d sep) (String c s)) eqn:Hp.
    + pose proof (IH (String.length (String d sep) - 1)%nat) as Hrest.
      destruct (split_go (String d sep) (String.length (String d sep) - 1) s)
        as [|f fs] eqn:Hs; [by apply split_nonempty in Hs|].
      change (join (String d sep) (EmptyString :: f :: fs))
        with (EmptyString +:+ String d sep +:+ join (String d sep) (f :: fs)).
      rewrite Hrest, app_nil_l.
      symmetry. etrans; [apply (prefix_drop _ _ Hp)|].
      f_equal. cbn [String.length drop]. by replace (S (String.length sep) - 1)%nat
        with (String.length sep) by lia.
    + pose proof (IH 0%nat) as Hrest. rewrite drop_0 in Hrest.
      destruct (split_go (String d sep) 0 s) as [|f fs] eqn:Hs;
        [by apply split_nonempty in Hs|].
      by rewrite join_cons_char, Hrest.
Qed.

Lemma join_split d sep s :
  join (String d sep) (split (String d sep) s) = s.
Proof. unfold split. by rewrite join_split_go, drop_0. Qed.

Lemma split_once_go_cut sep s a b :
  split_once_go sep s = (a, Some b) → s = a +:+ sep +:+ b.
Proof.
  revert a. induction s as [|c s IH]; intros a.
  - cbn [split_once_go]. destruct (String.prefix sep EmptyString) eqn:Hp; [|done].
    intros [= <- <-]. rewrite app_nil_l. by apply prefix_drop.
  - cbn [split_once_go]. destruct (String.prefix sep (String c s)) eqn:Hp.
    + intros [= <- <-]. rewrite app_nil_l. by apply prefix_drop.
    + destruct (split_once_go sep s) as [a' b'] eqn:Hs.
      intros [= <- ->]. rewrite app_cons. f_equal. by apply IH.
Qed.

(** The cut is at the first occurrence: none starts inside the first part. *)
Lemma split_once_go_first sep s a b k :
  split_once_go sep s = (a, b) → (k < String.length a)%nat →
  String.prefix sep (drop k s) = false.
Proof.
  revert a k. induction s as [|c s IH]; intros a k.
  - cbn [split_once_go]. destruct (String.prefix sep EmptyString);
      intros [= <- <-]; cbn; lia.
  - cbn [split_once_go]. destruct (String.prefix sep (String c s)) eqn:Hp.
    + intros [= <- <-]; cbn; lia.
    + destruct (split_once_go sep s) as [a' b'] eqn:Hs. intros [= <- <-].
      destruct k as [|k]; [by rewrite drop_0|].
      cbn [String.length drop]. intros Hk. apply (IH a'); [done|lia].
Qed.

Lemma split_once_go_found sep s :
  contains sep s = true → ∃ a b, split_once_go sep s = (a, Some b).
Proof.
  induction s as [|c s IH].
  - unfold contains. rewrite orb_false_r. cbn [split_once_go].
    intros ->. eauto.
  - unfold contains; fold contains. cbn [split_once_go].
    destruct (String.prefix sep (String c s)); [eauto|].
    rewrite orb_false_l. intros (a & b & ->)%IH. eauto.
Qed.

(** *** [split] on a single character *)

Lemma split_char_fields c s :
  Forall (λ f, all_chars (not_char c) f = true) (split (String c EmptyString) s).
Proof.
  unfold split. induction s as [|d s IH]; [by repeat constructor|].
  cbn [split_go]. rewrite prefix_cons, prefix_nil, andb_true_r.
  case_bool_decide as Hc.
  - constructor; [done|]. apply IH.
  - destruct (split_go (String c EmptyString) 0 s) as [|f fs] eqn:Hs;
      [by apply split_nonempty in Hs|].
    apply Forall_cons in IH as [Hf Hfs]. constructor; [|done].
    cbn [all_chars]. rewrite Hf, andb_true_r. unfold not_char.
    apply negb_true_iff, Ascii.eqb_neq. congruence.
Qed.

Lemma split_char_app c a b :
  split (String c EmptyString) (a +:+ String c b)
  = split (String c EmptyString) a ++ split (String c EmptyString) b.
Proof.
  unfold split. induction a as [|d a IH].
  - rewrite app_nil_l. cbn [split_go]. rewrite prefix_cons, prefix_nil.
    by rewrite bool_decide_eq_true_2.
  - rewrite app_cons. cbn [split_go]. rewrite !prefix_cons, !prefix_nil, !andb_true_r.
    case_bool_decide as Hc.
    + cbn [String.length Nat.sub]. by rewrite IH.
    + rewrite IH.
      destruct (split_go (String c EmptyString) 0 a) as [|f fs] eqn:Hs;
        [by apply split_nonempty in Hs|done].
Qed.

Lemma split_char_absent c s :
  all_chars (not_char c) s = true → split (String c EmptyString) s = [s].
Proof. apply split_go_none. Qed.

Lemma last_field_app l1 l2 :
  l2 ≠ [] → last_field (l1 ++ l2) = last_field l2.
Proof.
  intros Hl2. unfold last_field. induction l1 as [|x l1 IH]; [done|].
  cbn [app List.last]. destruct (l1 ++ l2) eqn:E; [|done].
  by apply app_eq_nil in E as [_ ?].
Qed.

Lemma last_field_elem l : l ≠ [] → last_field l ∈ l.
Proof.
  unfold last_field. induction l as [|x l IH]; [done|]. intros _.
  destruct l as [|y l]; [apply list_elem_of_here|].
  apply list_elem_of_further. by apply IH.
Qed.

Lemma no_char_contains c sub s :
  all_chars (not_char c) s = true → contains (String c sub) s = false.
Proof. apply contains_first_char_absent. Qed.

(** *** [endswith] *)

Lemma endswith_app a x : endswith (a +:+ x) x = true.
Proof.
  unfold endswith. rewrite length_app.
  apply andb_true_iff. split; [apply Nat.leb_le; lia|].
  replace (String.length a + String.length x - String.length x)%nat
    with (String.length a) by lia.
  rewrite drop_length_app. apply String.eqb_refl.
Qed.

Lemma drop_end_app a x : drop_end (String.length x) (a +:+ x) = a.
Proof.
  unfold drop_end. rewrite length_app.
  replace (String.length a + String.length x - String.length x)%nat
    with (String.length a) by lia.
  apply take_length_app.
Qed.

(** *** [replace] *)

Lemma replace_go_chars P old new skip s :
  all_chars P new = true → all_chars P s = true →
  all_chars P (replace_go old new skip s) = true.
Proof.
  intros Hnew. revert skip. induction s as [|c s IH]; intros skip; [done|].
  cbn [all_chars]. intros [Hc Hs]%andb_true_iff.
  cbn [replace_go]. destruct skip; [|by apply IH].
  destruct (String.prefix old (String c s)).
  - rewrite all_chars_app, Hnew. by apply IH.
  - cbn [all_chars]. rewrite Hc. by apply IH.
Qed.

Lemma replace_absent old new s :
  contains old s = false → replace old new s = s.
Proof.
  unfold replace. induction s as [|c s IH]; [done|].
  unfold contains; fold contains. intros [Hp Hs]%orb_false_iff.
  cbn [replace_go]. rewrite Hp. by rewrite IH.
Qed.

End PyStrExtFacts.

(** ** Fetching the corpus *)

Module FetchRepoFacts.
Import PyStr PyStrExt PyStrFacts PyStrExtFacts.

Lemma git_suffix_no_straddle s :
  String.prefix ".git" (s +:+ ".git") = true →
  s = EmptyString ∨ String.prefix ".git" s = true.
Proof.
  destruct s as [|c1 [|c2 [|c3 [|c4 s]]]]; [by left|..]; right; revert H;
    rewrite ?app_cons, ?app_nil_l, ?prefix_cons, ?prefix_nil;
    repeat case_bool_decide; done.
Qed.

Lemma replace_git_suffix name :
  contains ".git" name = false → replace ".git" "" (name +:+ ".git") = name.
Proof.
  unfold replace. induction name as [|c name IH]; [done|].
  unfold contains; fold contains. intros [Hp Hs]%orb_false_iff.
  rewrite app_cons. cbn [replace_go].
  destruct (String.prefix ".git" (String c (name +:+ ".git"))) eqn:Hq.
  - rewrite <- app_cons in Hq. apply git_suffix_no_straddle in Hq as [?|Hq];
      [done|congruence].
  - by rewrite IH.
Qed.

Lemma last_field_of_url c base name :
  all_chars (not_char c) name = true →
  last_field (split (String c EmptyString) (base +:+ String c name)) = name.
Proof.
  intros Hname. rewrite split_char_app, last_field_app.
  - by rewrite split_char_absent.
  - apply split_nonempty.
Qed.

End FetchRepoFacts.

(** X1: for every URL that holds ["/tree/"], [parse_github_url] does not
    raise and cuts the URL at the first ["/tree/"]: the URL is the
    repository part, ["/tree/"], the branch and, after a slash, the
    subdirectory when there is one. The branch is what stands before the
    next slash (so it holds none), and the URL to clone is the repository
    part, with [".git"] added unless it ends with it already. *)
Theorem parse_github_url_tree_parts repo_url :
  PyStr.contains "/tree/" repo_url = true →
  ∃ clean_repo_url repo_part branch subdirectory,
    FetchRepo.parse_github_url repo_url
    = Ok (clean_repo_url, Some branch, subdirectory)
    ∧ repo_url
      = repo_part +:+ "/tree/" +:+ branch
        +:+ match subdirectory with
            | Some d => "/" +:+ d
            | None => EmptyString
            end
    ∧ (∀ k, (k < String.length repo_part)%nat →
            String.prefix "/tree/" (PyStr.drop k repo_url) = false)
    ∧ all_chars (not_char "/") branch = true
    ∧ clean_repo_url
      = (if PyStrExt.endswith repo_part ".git" then repo_part
         else repo_part +:+ ".git")
    ∧ PyStrExt.endswith clean_repo_url ".git" = true.
Proof.
  intros Htree. unfold FetchRepo.parse_github_url. rewrite Htree.
  destruct (PyStrExtFacts.split_once_go_found _ _ Htree) as (a & b & Hcut).
  unfold PyStr.split_once. rewrite Hcut.
  pose proof (PyStrExtFacts.split_char_fields "/" b) as Hfields.
  pose proof (PyStrExtFacts.join_split "/" EmptyString b) as Hjoin.
  destruct (PyStr.split "/" b) as [|branch rest] eqn:Hb;
    [by apply PyStrFacts.split_nonempty in Hb|].
  apply Forall_cons in Hfields as [Hbranch _].
  eexists _, a, branch, _. split; [reflexivity|].
  split_and!.
  - rewrite (PyStrExtFacts.split_once_go_cut _ _ _ _ Hcut). do 2 f_equal.
    rewrite <- Hjoin. destruct rest; [|done].
    cbn. by rewrite PyStrFacts.app_nil_r.
  - intros k Hk. by eapply PyStrExtFacts.split_once_go_first.
  - done.
  - by destruct (PyStrExt.endswith a ".git").
  - destruct (PyStrExt.endswith a ".git") eqn:Hgit; [done|].
    apply PyStrExtFacts.endswith_app.
Qed.

Lemma parse_github_url_tree_parts_witness :
  ∃ clean_repo_url repo_part branch subdirectory,
    FetchRepo.parse_github_url "https://github.com/o/r/tree/main/src/app"
    = Ok (clean_repo_url, Some branch, subdirectory)
    ∧ "https://github.com/o/r/tree/main/src/app"
      = repo_part +:+ "/tree/" +:+ branch
        +:+ match subdirectory with
            | Some d => "/" +:+ d
            | None => EmptyString
            end
    ∧ (∀ k, (k < String.length repo_part)%nat →
            String.prefix "/tree/"
              (PyStr.drop k "https://github.com/o/r/tree/main/src/app") = false)
    ∧ all_chars (not_char "/") branch = true
    ∧ clean_repo_url
      = (if PyStrExt.endswith repo_part ".git" then repo_part
         else repo_part +:+ ".git")
    ∧ PyStrExt.endswith clean_repo_url ".git" = true.
Proof.
  apply (parse_github_url_tree_parts "https://github.com/o/r/tree/main/src/app").
  reflexivity.
Defined.

(** X2: the project name that [FetchRepo.prep] derives from a URL never
    holds a slash, and for a URL that ends with ["/" + name] or
    ["/" + name + ".git"], where [name] holds no slash and no [".git"],
    it is [name]. *)
Theorem project_name_of_url_is_last_segment base name :
  all_chars (not_char "/") name = true →
  PyStr.contains ".git" name = false →
  FetchRepo.project_name_of_url (base +:+ "/" +:+ name) = name
  ∧ FetchRepo.project_name_of_url (base +:+ "/" +:+ name +:+ ".git") = name
  ∧ ∀ repo_url,
      all_chars (not_char "/") (FetchRepo.project_name_of_url repo_url) = true.
Proof.
  intros Hslash Hgit. unfold FetchRepo.project_name_of_url. split_and!.
  - change (base +:+ "/" +:+ name) with (base +:+ String "/" name).
    rewrite FetchRepoFacts.last_field_of_url by done.
    by apply PyStrExtFacts.replace_absent.
  - change (base +:+ "/" +:+ name +:+ ".git")
      with (base +:+ String "/" (name +:+ ".git")).
    rewrite FetchRepoFacts.last_field_of_url.
    + by apply FetchRepoFacts.replace_git_suffix.
    + by rewrite PyStrFacts.all_chars_app, Hslash.
  - intros repo_url. apply PyStrExtFacts.replace_go_chars; [done|].
    pose proof (PyStrExtFacts.split_char_fields "/" repo_url) as Hfields.
    eapply (proj1 (Forall_forall _ _)) in Hfields; [apply Hfields|].
    apply PyStrExtFacts.last_field_elem, PyStrFacts.split_nonempty.
Qed.

Lemma project_name_of_url_is_last_segment_witness :
  FetchRepo.project_name_of_url ("https://github.com/o" +:+ "/" +:+ "socket.io")
  = "socket.io"
  ∧ FetchRepo.project_name_of_url
      ("https://github.com/o" +:+ "/" +:+ "socket.io" +:+ ".git")
    = "socket.io"
  ∧ ∀ repo_url,
      all_chars (not_char "/") (FetchRepo.project_name_of_url repo_url) = true.
Proof.
  apply (project_name_of_url_is_last_segment "https://github.com/o" "socket.io");
    reflexivity.
Defined.

(** ** File contents handed to the oracle *)

Module ContextFacts.
Import PyStr PyStrFacts Context.

Lemma content_key_inj i path j path' :
  content_key i path = content_key j path' → i = j.
Proof.
  intros Hk.
  pose proof (IndexFacts.index_of_commented i path) as Hi.
  pose proof (IndexFacts.index_of_commented j path') as Hj.
  unfold content_key in Hk. rewrite Hk in Hi. congruence.
Qed.

Lemma dict_set_fresh k v d :
  k ∉ d.*1 → dict_set k v d = d ++ [(k, v)].
Proof.
  induction d as [|[k' v'] d IH]; [done|]. cbn [fmap list_fmap fst].
  rewrite not_elem_of_cons. intros [Hne Hd]. cbn [dict_set].
  destruct (String.eqb_spec k k'); [done|]. by rewrite IH.
Qed.

Lemma content_loop_distinct files_data indices seen :
  NoDup (seen ++ indices) →
  content_loop files_data indices (omap (Context.entry_of files_data) seen)
  = omap (Context.entry_of files_data) (seen ++ indices).
Proof.
  revert seen. induction indices as [|i rest IH]; intros seen Hnd.
  - by rewrite List.app_nil_r.
  - cbn [content_loop].
    replace (seen ++ i :: rest) with ((seen ++ [i]) ++ rest) in *
      by by rewrite <- List.app_assoc.
    rewrite <- IH by done.
    rewrite omap_app. cbn [omap list_omap].
    destruct (at_index files_data i) as [[path content]|] eqn:Hi.
    2:{ assert (entry_of files_data i = None) as ->
          by (unfold entry_of; by rewrite Hi).
        by rewrite List.app_nil_r. }
    assert (entry_of files_data i = Some (content_key i path, content)) as ->
      by (unfold entry_of; by rewrite Hi).
    f_equal.
    apply dict_set_fresh.
    intros ((k & v) & Hk & Hin)%list_elem_of_fmap. cbn [fst] in Hk.
    apply list_elem_of_omap in Hin as (j & Hj & Hentry).
    unfold entry_of in Hentry.
    destruct (at_index files_data j) as [[path' content']|]; [|done].
    injection Hentry as <- <-. apply content_key_inj in Hk as ->.
    apply NoDup_app in Hnd as [Hnd _]. apply NoDup_app in Hnd as (_ & Hnd & _).
    by apply (Hnd j), list_elem_of_here.
Qed.

Lemma content_map_distinct files_data indices :
  NoDup indices →
  get_content_for_indices files_data indices
  = omap (entry_of files_data) indices.
Proof. intros Hnd. by apply (content_loop_distinct files_data indices []). Qed.


End ContextFacts.

(** X3: for indices that are pairwise distinct, [get_content_for_indices]
    gives one entry per index of the corpus, in the order of the indices,
    under the key ["<index> # <path>"] and holding the file's content; an
    index outside the corpus is passed over, and no two indices share a
    key. *)
Theorem content_map_one_entry_per_index files_data indices :
  NoDup indices →
  Context.get_content_for_indices files_data indices
  = omap (Context.entry_of files_data) indices.
Proof. apply ContextFacts.content_map_distinct. Qed.

Lemma content_map_one_entry_per_index_witness :
  Context.get_content_for_indices
    [("a.py", "import b"); ("b.py", "x = 1")] [1; 7; 0; -1]
  = [("1 # b.py", "x = 1"); ("0 # a.py", "import b")].
Proof.
  rewrite (content_map_one_entry_per_index
             [("a.py", "import b"); ("b.py", "x = 1")] [1; 7; 0; -1]).
  - reflexivity.
  - compute_done.
Defined.



(** X5: the path that [WriteChapters.exec] shows in the header of a file
    is what stands in the key of the content map between ["# "] and the
    next ["# "]: the path itself when it holds no ["# "], and only its part
    before the first ["#"] when that is followed by a space. *)
Theorem header_path_of_content_key i :
  (∀ path, PyStr.contains "# " path = false →
           Context.header_path (Context.content_key i path) = path)
  ∧ (∀ a b, all_chars (not_char "#") a = true →
            Context.header_path (Context.content_key i (a +:+ "# " +:+ b)) = a).
Proof.
  assert (∀ path, Context.header_path (Context.content_key i path)
                  = hd EmptyString (PyStr.split "# " path)) as Hhd.
  { intros path. unfold Context.header_path, Context.content_key.
    change (PyInt.str i +:+ " # " +:+ path)
      with (PyInt.str i +:+ " " +:+ "# " +:+ path).
    rewrite <- PyStrFacts.app_assoc.
    rewrite PyStrFacts.contains_app.
    rewrite (PyStrFacts.split_first "#" " ") by apply IndexFacts.blank_no_hash.
    cbn [lookup list_lookup].
    destruct (PyStr.split "# " path) as [|f fs] eqn:Hs;
      [by apply PyStrFacts.split_nonempty in Hs|done]. }
  split.
  - intros path Hpath. rewrite Hhd. unfold PyStr.split.
    by rewrite ExtractorFacts.split_go_absent.
  - intros a b Ha. rewrite Hhd.
    by rewrite (PyStrFacts.split_first "#" " ").
Qed.

(** ** The landing document *)

Module IndexPageFacts.
Import PyStr PyStrExt PyStrFacts PyStrExtFacts.

Lemma lstrip_blank w s : all_chars is_space w = true → lstrip (w +:+ s) = lstrip s.
Proof.
  induction w as [|c w IH]; [done|]. cbn [all_chars].
  intros [Hc Hw]%andb_true_iff. rewrite app_cons. unfold lstrip.
  cbn [lstrip_by]. rewrite Hc. by apply IH.
Qed.

Lemma lstrip_all_blank w : all_chars is_space w = true → lstrip w = EmptyString.
Proof.
  intros Hw. rewrite <- (app_nil_r w). by rewrite lstrip_blank.
Qed.

Lemma strip_app_blank s w :
  all_chars is_space w = true → strip (s +:+ w) = strip s.
Proof.
  intros Hw. unfold strip. induction s as [|c s IH].
  - rewrite app_nil_l. by rewrite lstrip_all_blank.
  - rewrite app_cons. unfold lstrip. cbn [lstrip_by].
    destruct (is_space c); [apply IH|].
    rewrite <- app_cons. by apply rstrip_app_space.
Qed.

(** Whitespace around a text does not change what [strip] gives. *)
Lemma strip_padded w1 s w2 :
  all_chars is_space w1 = true → all_chars is_space w2 = true →
  strip (w1 +:+ s +:+ w2) = strip s.
Proof.
  intros H1 H2. unfold strip. rewrite lstrip_blank by done.
  by apply strip_app_blank.
Qed.

Lemma fenced_unwrapped body :
  String.prefix FENCE (NL +:+ body +:+ NL +:+ FENCE) = false
  ∧ endswith (NL +:+ body +:+ NL +:+ FENCE) FENCE = true
  ∧ drop_end 3 (NL +:+ body +:+ NL +:+ FENCE) = NL +:+ body +:+ NL.
Proof.
  split; [done|].
  replace (NL +:+ body +:+ NL +:+ FENCE) with ((NL +:+ body +:+ NL) +:+ FENCE)
    by by rewrite !app_assoc.
  split; [apply endswith_app|apply (drop_end_app _ FENCE)].
Qed.

End IndexPageFacts.

(** X6: the clean-up at the end of [_generate_comprehensive_index]. A
    document that the oracle wrapped in a [```markdown] or a bare [```]
    fence, each fence on a line of its own, comes out as the trimmed
    document; a text with no fence at either end is only trimmed. A
    document that is not wrapped but ends with a fence (the closing fence
    of its last code block) loses that fence. When the oracle's message
    has no content, the clean-up raises. *)
Theorem index_content_unwrapped :
  (∀ body,
     IndexPage.clean_index_content
       (Some (FENCE +:+ "markdown" +:+ NL +:+ body +:+ NL +:+ FENCE))
     = Ok (PyStr.strip body))
  ∧ (∀ body,
       IndexPage.clean_index_content
         (Some (FENCE +:+ NL +:+ body +:+ NL +:+ FENCE))
       = Ok (PyStr.strip body))
  ∧ (∀ text,
       PyStr.startswith text FENCE = false →
       PyStrExt.endswith text FENCE = false →
       IndexPage.clean_index_content (Some text) = Ok (PyStr.strip text))
  ∧ (∀ document,
       PyStr.startswith (document +:+ FENCE) FENCE = false →
       IndexPage.clean_index_content (Some (document +:+ FENCE))
       = Ok (PyStr.strip document))
  ∧ raises (IndexPage.clean_index_content None).
Proof.
  assert (∀ p s, String.prefix p s = false →
                 String.prefix (p +:+ "markdown") s = false) as Hlonger.
  { intros p s Hp. destruct (String.prefix (p +:+ "markdown") s) eqn:Hq; [|done].
    rewrite <- Hp. symmetry. eapply PyStrFacts.prefix_trans; [|apply Hq].
    apply PyStrFacts.prefix_app. }
  split_and!.
  - intros body. unfold IndexPage.clean_index_content, PyStr.startswith.
    replace (FENCE +:+ "markdown" +:+ NL +:+ body +:+ NL +:+ FENCE)
      with ((FENCE +:+ "markdown") +:+ NL +:+ body +:+ NL +:+ FENCE)
      by by rewrite !PyStrFacts.app_assoc.
    rewrite PyStrFacts.prefix_app.
    rewrite (PyStrExtFacts.drop_length_app (FENCE +:+ "markdown")).
    destruct (IndexPageFacts.fenced_unwrapped body) as (Hn & He & Hd).
    rewrite ?Hn, He, Hd.
    by rewrite IndexPageFacts.strip_padded.
  - intros body. unfold IndexPage.clean_index_content, PyStr.startswith.
    assert (String.prefix (FENCE +:+ "markdown")
              (FENCE +:+ NL +:+ body +:+ NL +:+ FENCE) = false) as -> by done.
    rewrite PyStrFacts.prefix_app.
    rewrite (PyStrExtFacts.drop_length_app FENCE).
    destruct (IndexPageFacts.fenced_unwrapped body) as (Hn & He & Hd).
    rewrite ?Hn, He, Hd.
    by rewrite IndexPageFacts.strip_padded.
  - intros text Hstart Hend. unfold IndexPage.clean_index_content.
    unfold PyStr.startswith in *. by rewrite Hlonger, Hstart, Hend.
  - intros document Hstart. unfold IndexPage.clean_index_content.
    unfold PyStr.startswith in *. rewrite Hlonger, Hstart by done.
    rewrite PyStrExtFacts.endswith_app.
    by rewrite (PyStrExtFacts.drop_end_app _ FENCE).
  - by eexists.
Qed.

(** ** The diagram *)

Module DiagramFacts.
Import CombineTutorial.



End DiagramFacts.



(** ** The oracle wrapper as a memo *)

(** X8: a response that [call_llm] returned for a prompt with the cache
    on, when it is neither empty nor a failure marker and the cache file
    could be saved, is what every later call with the cache on returns for
    that prompt from the file this call left (when the file can be read),
    whatever the oracle would answer then; the later call leaves the file
    as it is. *)
Theorem stored_response_is_served env prompt st response st' :
  CallLlm.call_llm env prompt true st = (Ok (Some response), st') →
  clean response = true →
  CallLlm.save env = CallLlm.SaveDone →
  ∀ env', CallLlm.read_error env' = None →
          CallLlm.call_llm env' prompt true st' = (Ok (Some response), st').
Proof.
  intros Hcall Hclean Hsave env' Hread.
  assert (∀ d, d !! prompt = Some response →
               CallLlm.call_llm env' prompt true (CallLlm.Holds d)
               = (Ok (Some response), CallLlm.Holds d)) as Hserved.
  { intros d Hd. unfold CallLlm.call_llm, CallLlm.cache_hit, CallLlm.loaded_cache,
      CallLlm.load. cbn. rewrite Hread. unfold CallLlm.try_except at 1.
    by rewrite Hd. }
  destruct (CallLlmFacts.call_llm_cases env prompt true st)
    as [(c & Hhit & Hc)|[(_ & [?|Hs] & Hc)|(Hmiss & _ & t & _ & _ & Hc)]];
    rewrite Hc in Hcall; try done.
  - injection Hcall as -> ->.
    unfold CallLlm.cache_hit, CallLlm.loaded_cache, CallLlm.load in Hhit.
    destruct st' as [| |d]; try done. cbn in Hhit.
    destruct (CallLlm.read_error env); [done|]. by apply Hserved.
  - injection Hcall as Hfresh _. rewrite Hfresh in Hs.
    rewrite CallLlmFacts.storable_clean in Hs. congruence.
  - injection Hcall as -> <-. unfold CallLlm.dump. rewrite Hsave. cbn [snd].
    apply Hserved, lookup_insert_eq.
Qed.

Lemma stored_response_is_served_witness :
  CallLlm.call_llm api_down "p" true (CallLlm.Holds {["p" := "- 0"]})
  = (Ok (Some "- 0"), CallLlm.Holds {["p" := "- 0"]}).
Proof.
  apply (stored_response_is_served (api_answers "- 0") "p" CallLlm.Absent
           "- 0" (CallLlm.Holds {["p" := "- 0"]})); reflexivity.
Defined.

(** X9: a call that can read the cache file, and whose saving does not
    break off in the middle of the write, keeps every response that the
    file holds: the file it leaves holds them all, unchanged. *)
Theorem cache_entries_kept env prompt use_cache cache :
  CallLlm.read_error env = None →
  (∀ e, CallLlm.save env ≠ CallLlm.SaveFailsMidWrite e) →
  ∃ cache',
    (CallLlm.call_llm env prompt use_cache (CallLlm.Holds cache)).2
    = CallLlm.Holds cache'
    ∧ cache ⊆ cache'.
Proof.
  intros Hread Hsave.
  destruct (CallLlmFacts.call_llm_cases env prompt use_cache (CallLlm.Holds cache))
    as [(c & _ & ->)|[(_ & _ & ->)|(Hmiss & -> & t & _ & _ & ->)]];
    [by exists cache..|].
  unfold CallLlm.cache_hit, CallLlm.loaded_cache, CallLlm.load in *.
  cbn in *. rewrite Hread in *. cbn in *. unfold CallLlm.dump.
  destruct (CallLlm.save env) as [|e|e] eqn:Hs; cbn [snd].
  - eexists. split; [done|]. by apply insert_subseteq.
  - by exists cache.
  - by destruct (Hsave e).
Qed.

Lemma cache_entries_kept_witness :
  ∃ cache',
    (CallLlm.call_llm (api_answers "- 1") "q" true
       (CallLlm.Holds {["p" := "- 0"]})).2
    = CallLlm.Holds cache'
    ∧ ({["p" := "- 0"]} : gmap string string) ⊆ cache'.
Proof.
  apply (cache_entries_kept (api_answers "- 1") "q" true {["p" := "- 0"]});
    [reflexivity|]. intros e. discriminate.
Defined.

(** X10: when the read of an existing cache file raises, the call goes on
    with an empty cache; if the oracle then answers with a response that is
    stored, the file is written anew and holds that one response only:
    the responses it held before are gone. *)
Theorem read_error_resets_cache env prompt st e response :
  CallLlm.os_path_exists st = true →
  CallLlm.read_error env = Some e →
  CallLlm.api env = CallLlm.ApiReturns (Some response) →
  clean response = true →
  CallLlm.save env = CallLlm.SaveDone →
  CallLlm.call_llm env prompt true st
  = (Ok (Some response), CallLlm.Holds {[prompt := response]}).
Proof.
  intros Hexists Hread Hapi Hclean Hsave.
  unfold CallLlm.call_llm, CallLlm.cache_hit, CallLlm.loaded_cache, CallLlm.load,
    CallLlm.create, CallLlm.dump.
  rewrite Hexists, Hapi, Hsave. cbn.
  assert (CallLlm.try_except
            match st with
            | CallLlm.Absent => Raise (OtherException "FileNotFoundError")
            | CallLlm.Unreadable => Raise (OtherException "JSONDecodeError")
            | CallLlm.Holds d =>
                match CallLlm.read_error env with
                | Some e => Raise (OtherException e)
                | None => Ok d
                end
            end (λ _, (∅ : gmap string string)) = ∅) as ->.
  { destruct st; try done. by rewrite Hread. }
  rewrite lookup_empty. unfold clean in Hclean. unfold PyStr.startswith in *.
  rewrite Hclean. by rewrite insert_empty.
Qed.

Lemma read_error_resets_cache_witness :
  CallLlm.call_llm
    {| CallLlm.read_error := Some "PermissionError";
       CallLlm.api := CallLlm.ApiReturns (Some "- 1");
       CallLlm.save := CallLlm.SaveDone |}
    "q" true (CallLlm.Holds {["p" := "- 0"]})
  = (Ok (Some "- 1"), CallLlm.Holds {["q" := "- 1"]}).
Proof.
  apply (read_error_resets_cache _ "q" (CallLlm.Holds {["p" := "- 0"]})
           "PermissionError" "- 1"); reflexivity.
Defined.

(** ** File names of the chapters *)

Module FilenameFacts.
Import PyStr PyStrFacts PyIntFacts CombineTutorial.

Lemma str_digits n : 0 ≤ n → all_chars is_ascii_digit (PyInt.str n) = true.
Proof.
  intros Hn. unfold PyInt.str.
  destruct n as [|p|p]; [done|apply nilzero_chars|lia].
Qed.

Lemma format_02d_digits n :
  0 ≤ n → all_chars is_ascii_digit (PyInt.format_02d n) = true.
Proof.
  intros Hn. unfold PyInt.format_02d.
  destruct (n <? 10); [cbn [all_chars]|]; by rewrite ?str_digits.
Qed.

(** [int(f"{n:02d}") == n]. *)
Lemma format_02d_int n : 0 ≤ n → PyInt.int (PyInt.format_02d n) = Some n.
Proof.
  intros Hn. unfold PyInt.format_02d.
  destruct (n <? 10) eqn:Hlt; [|apply int_str].
  apply Z.ltb_lt in Hlt.
  assert (n = 0 ∨ n = 1 ∨ n = 2 ∨ n = 3 ∨ n = 4 ∨ n = 5 ∨ n = 6 ∨ n = 7
          ∨ n = 8 ∨ n = 9) as Hcases by lia.
  repeat destruct Hcases as [->|Hcases]; try subst n; reflexivity.
Qed.

Lemma digits_then_other d1 d2 c x y :
  all_chars is_ascii_digit d1 = true → all_chars is_ascii_digit d2 = true →
  is_ascii_digit c = false →
  d1 +:+ String c x = d2 +:+ String c y → d1 = d2.
Proof.
  intros H1 H2 Hc. revert d2 H2.
  induction d1 as [|a d1 IH]; intros [|b d2] H2; rewrite ?app_cons, ?app_nil_l.
  - done.
  - intros [= -> _]. cbn [all_chars] in H2. by rewrite Hc in H2.
  - intros [= -> _]. cbn [all_chars] in H1. by rewrite Hc in H1.
  - cbn [all_chars] in H1, H2.
    apply andb_true_iff in H1 as [_ H1]. apply andb_true_iff in H2 as [_ H2].
    intros [= -> Heq]. f_equal. by apply IH.
Qed.

(** The position is read off the file name. *)
Lemma filename_position i chapter_name j chapter_name' :
  Filename.filename i chapter_name = Filename.filename j chapter_name' → i = j.
Proof.
  unfold Filename.filename. intros Heq.
  apply (digits_then_other _ _ "_"
           (Filename.safe_name chapter_name +:+ ".md")
           (Filename.safe_name chapter_name' +:+ ".md")) in Heq;
    [|apply format_02d_digits; lia|apply format_02d_digits; lia|done].
  pose proof (format_02d_int (Z.of_nat i + 1) ltac:(lia)) as Hi.
  pose proof (format_02d_int (Z.of_nat j + 1) ltac:(lia)) as Hj.
  rewrite Heq, Hj in Hi. injection Hi. lia.
Qed.

Lemma filename_starts_with_digit i chapter_name :
  ∃ c s, Filename.filename i chapter_name = String c s ∧ is_ascii_digit c = true.
Proof.
  unfold Filename.filename.
  pose proof (format_02d_digits (Z.of_nat i + 1)) as Hd.
  destruct (PyInt.format_02d (Z.of_nat i + 1)) as [|c s] eqn:E.
  - exfalso. unfold PyInt.format_02d in E.
    destruct (Z.of_nat i + 1 <? 10); [done|].
    destruct (str_cons (Z.of_nat i + 1)) as (? & ? & E' & _). congruence.
  - exists c, (s +:+ "_" +:+ Filename.safe_name chapter_name +:+ ".md").
    split; [done|]. cbn [all_chars] in Hd.
    apply andb_true_iff in Hd as [Hc _]; [done|lia].
Qed.

(** What the loop adds: the files and links of positions at or after [i],
    in ascending order of position. *)
Lemma chapter_loop_positions abstractions chapters_content chapter_order :
  ∀ i chapter_files chapter_links,
    ∃ added : list (nat * abstraction * string),
      chapter_loop abstractions chapters_content i chapter_order
        chapter_files chapter_links
      = (chapter_files
         ++ map (λ e, {| file_name := Filename.filename e.1.1 (name e.1.2);
                         content := e.2 |}) added,
         chapter_links
         ++ map (λ e, {| number := Z.of_nat e.1.1 + 1; title := name e.1.2;
                         filename := Filename.filename e.1.1 (name e.1.2);
                         link_description := description e.1.2 |}) added)
      ∧ StronglySorted lt (map (λ e, e.1.1) added)
      ∧ Forall (λ e, (i ≤ e.1.1)%nat) added.
Proof.
  induction chapter_order as [|idx rest IH]; intros i chapter_files chapter_links.
  - exists []. cbn [chapter_loop map]. rewrite !List.app_nil_r.
    split_and!; [done|constructor|constructor].
  - cbn [chapter_loop].
    destruct (at_index abstractions idx) as [a|];
      [destruct (chapters_content !! i) as [body|]|].
    + destruct (IH (S i)
                  (chapter_files
                   ++ [{| file_name := Filename.filename i (name a);
                          content := body |}])
                  (chapter_links
                   ++ [{| number := Z.of_nat i + 1; title := name a;
                          filename := Filename.filename i (name a);
                          link_description := description a |}]))
        as (added & -> & Hsorted & Hfrom).
      exists ((i, a, body) :: added). split_and!.
      * by rewrite <- !List.app_assoc.
      * cbn [map fst]. constructor; [done|].
        apply Forall_fmap. eapply Forall_impl; [apply Hfrom|].
        intros e He. cbn in *. lia.
      * constructor; [cbn; lia|].
        eapply Forall_impl; [apply Hfrom|]. intros e He. cbn in *. lia.
    + destruct (IH (S i) chapter_files chapter_links)
        as (added & -> & Hsorted & Hfrom).
      exists added. split_and!; [done..|].
      eapply Forall_impl; [apply Hfrom|]. intros e He. cbn in *. lia.
    + destruct (IH (S i) chapter_files chapter_links)
        as (added & -> & Hsorted & Hfrom).
      exists added. split_and!; [done..|].
      eapply Forall_impl; [apply Hfrom|]. intros e He. cbn in *. lia.
Qed.

Lemma positions_distinct_names (added : list (nat * abstraction * string)) :
  StronglySorted lt (map (λ e, e.1.1) added) →
  NoDup (map (λ e, Filename.filename e.1.1 (name e.1.2)) added).
Proof.
  induction added as [|e added IH]; [constructor|].
  cbn [map]. intros Hs. apply StronglySorted_inv in Hs as [Hs Hlt].
  constructor; [|by apply IH].
  intros (e' & Heq & Hin)%list_elem_of_fmap.
  apply filename_position in Heq.
  rewrite Forall_forall in Hlt.
  assert (e'.1.1 ∈ map (λ e, e.1.1) added) as Hpos
    by (apply list_elem_of_fmap; by exists e').
  specialize (Hlt _ Hpos). lia.
Qed.

Lemma prep_chapters_names abstractions chapter_order chapters_content :
  let r := CombineTutorial.prep_chapters abstractions chapter_order
             chapters_content in
  map CombineTutorial.filename r.2
  = map CombineTutorial.file_name r.1 ++ ["beginner_friendly_episode.md"]
  ∧ NoDup ("index.md" :: map CombineTutorial.filename r.2).
Proof.
  cbn zeta. unfold CombineTutorial.prep_chapters.
  destruct (FilenameFacts.chapter_loop_positions abstractions chapters_content
              chapter_order 0 [] []) as (added & -> & Hsorted & _).
  cbn [fst snd app].
  rewrite map_app, !map_map. cbn [map CombineTutorial.filename
    CombineTutorial.file_name CombineTutorial.beginner_friendly_link].
  split; [done|].
  assert (∀ s c t, s = String c t → PyStr.is_ascii_digit c = false →
                   s ∉ map (λ e : nat * abstraction * string,
                              Filename.filename e.1.1 (name e.1.2)) added)
    as Hother.
  { intros s c t -> Hc (e & He & _)%list_elem_of_fmap.
    destruct (FilenameFacts.filename_starts_with_digit e.1.1 (name e.1.2))
      as (c' & t' & Hf & Hd). congruence. }
  apply NoDup_cons. split.
  - rewrite elem_of_app, list_elem_of_singleton. intros [Hin|?]; [|done].
    by eapply Hother in Hin.
  - apply NoDup_app. split_and!.
    + by apply FilenameFacts.positions_distinct_names.
    + intros s Hin ->%list_elem_of_singleton. by eapply Hother in Hin.
    + apply NoDup_singleton.
Qed.

End FilenameFacts.

(** X11: whatever the order, the abstractions and the chapters are, the
    file names that [CombineTutorial.prep] gives to the chapters are
    pairwise distinct (the position in the order is part of the name), and
    none is the name of the landing document or of the overview: no
    two artifacts go to the same file. The navigation entries name the
    chapter files, in order, and then the overview. *)
Theorem chapter_file_names_distinct abstractions chapter_order chapters_content :
  let r := CombineTutorial.prep_chapters abstractions chapter_order
             chapters_content in
  map CombineTutorial.filename r.2
  = map CombineTutorial.file_name r.1 ++ ["beginner_friendly_episode.md"]
  ∧ NoDup ("index.md" :: map CombineTutorial.filename r.2).
Proof. apply FilenameFacts.prep_chapters_names. Qed.

(** X12: with the chapter files of [CombineTutorial.prep], and publishing
    off or every publish call returning, [CombineTutorial.exec] writes each
    file once, under pairwise distinct names. When the overview text is not
    empty the files written are the landing document and then the file of
    every navigation entry, in order. When it is empty the overview is
    still among the navigation entries, but its file is not written. *)
Theorem listed_files_written publishing abstractions chapter_order
    chapters_content index episode url publish :
  (publish = true → ∀ title, publish_returns (publishing title) = true) →
  let r := CombineTutorial.prep_chapters abstractions chapter_order
             chapters_content in
  let p := {| Output.index_content := index;
              Output.chapter_files := r.1;
              Output.beginner_friendly_episode := episode;
              Output.publish_to_nostr := publish;
              Output.repo_url := url |} in
  let names := (Output.written (Output.exec publishing p empty_world).2).*1 in
  NoDup names
  ∧ (episode ≠ EmptyString →
     names = "index.md" :: map CombineTutorial.filename r.2)
  ∧ (episode = EmptyString →
     names = "index.md" :: map CombineTutorial.file_name r.1
     ∧ "beginner_friendly_episode.md" ∈ map CombineTutorial.filename r.2
     ∧ "beginner_friendly_episode.md" ∉ names).
Proof.
  intros Hreturns. cbn zeta.
  destruct (FilenameFacts.prep_chapters_names abstractions chapter_order
              chapters_content) as [Hnames Hnd].
  set (r := CombineTutorial.prep_chapters abstractions chapter_order
              chapters_content) in *.
  set (p := {| Output.index_content := index; Output.chapter_files := r.1;
               Output.beginner_friendly_episode := episode;
               Output.publish_to_nostr := publish; Output.repo_url := url |}).
  assert ((Output.written (Output.exec publishing p empty_world).2).*1
          = map (λ a, a.1.2) (Output.artifacts p)) as ->.
  { rewrite OutputFacts.exec_put_all. destruct publish eqn:Hp.
    - rewrite OutputFacts.put_all_returns; [|done|].
      + cbn. unfold files_of. by rewrite <- list_fmap_compose.
      + apply Forall_forall. intros a _. by apply Hreturns.
    - rewrite OutputFacts.put_all_off by done.
      cbn. unfold files_of. by rewrite <- list_fmap_compose. }
  unfold Output.artifacts. cbn [Output.index_content Output.chapter_files
    Output.beginner_friendly_episode p].
  rewrite !map_app, map_map. cbn [map fst snd app].
  rewrite Hnames in *.
  destruct (String.eqb_spec episode EmptyString) as [->|Hne].
  - cbn [map]. rewrite List.app_nil_r.
    apply NoDup_cons in Hnd as [Hindex Hnd].
    apply NoDup_app in Hnd as (Hfiles & Hbf & _).
    split_and!.
    + apply NoDup_cons. split; [|done].
      intros Hin. apply Hindex. apply elem_of_app. by left.
    + done.
    + intros _. split_and!; [done|apply elem_of_app; right; apply list_elem_of_here|].
      rewrite not_elem_of_cons. split; [done|].
      intros Hin. by apply (Hbf _ Hin), list_elem_of_here.
  - cbn [map fst snd]. split_and!; [done|done|done].
Qed.

Lemma listed_files_written_witness :
  let r := CombineTutorial.prep_chapters two_abstractions [1; 0]
             ["# HTTP/2 Client"; "# Data Store"] in
  let p := {| Output.index_content := "# P";
              Output.chapter_files := r.1;
              Output.beginner_friendly_episode := "";
              Output.publish_to_nostr := false;
              Output.repo_url := "u" |} in
  let names := (Output.written (Output.exec relay_down p empty_world).2).*1 in
  NoDup names
  ∧ (EmptyString ≠ EmptyString →
     names = "index.md" :: map CombineTutorial.filename r.2)
  ∧ (EmptyString = EmptyString →
     names = "index.md" :: map CombineTutorial.file_name r.1
     ∧ "beginner_friendly_episode.md" ∈ map CombineTutorial.filename r.2
     ∧ "beginner_friendly_episode.md" ∉ names).
Proof.
  apply (listed_files_written relay_down two_abstractions [1; 0]
           ["# HTTP/2 Client"; "# Data Store"] "# P" "" "u" false).
  discriminate.
Defined.

(** ** Narrative Assembly Stage: the items of the batch *)

Module WriteChaptersPrepFacts.
Import WriteChaptersPrep.

Lemma chapter_ref_at_valid abstractions chapter_order j idx :
  chapter_order !! j = Some idx →
  0 ≤ idx < Z.of_nat (length abstractions) →
  ∃ a, at_index abstractions idx = Some a
       ∧ chapter_ref_at abstractions chapter_order j
         = Some {| ref_num := Z.of_nat j + 1; ref_name := name a;
                   ref_filename := Filename.filename j (name a) |}.
Proof.
  intros Hj Hidx. unfold chapter_ref_at. rewrite Hj. cbn.
  destruct (NavigationFacts.at_index_valid abstractions idx Hidx) as (a & -> & _).
  by exists a.
Qed.

(** The first loop, on entries that are distinct indices of abstractions. *)
Lemma listing_loop_valid abstractions chapter_order :
  Forall (λ idx, 0 ≤ idx < Z.of_nat (length abstractions)) chapter_order →
  NoDup chapter_order →
  ∀ i all_chapters chapter_filenames,
    ∃ filenames,
      listing_loop abstractions i chapter_order all_chapters chapter_filenames
      = (all_chapters
         ++ imap (λ j, listing_line abstractions (i + j)) chapter_order,
         filenames)
      ∧ (∀ j idx, chapter_order !! j = Some idx →
           ∃ a, at_index abstractions idx = Some a
                ∧ filenames !! idx
                  = Some {| ref_num := Z.of_nat (i + j) + 1; ref_name := name a;
                            ref_filename := Filename.filename (i + j) (name a) |})
      ∧ (∀ idx, idx ∉ chapter_order →
           filenames !! idx = chapter_filenames !! idx).
Proof.
  induction 1 as [|idx rest Hidx _ IH]; intros Hnd i all_chapters chapter_filenames.
  - exists chapter_filenames. cbn. rewrite List.app_nil_r.
    split_and!; [done| |done]. intros j idx. by rewrite lookup_nil.
  - apply NoDup_cons in Hnd as [Hnew Hnd]. cbn [listing_loop].
    destruct (NavigationFacts.at_index_valid abstractions idx Hidx)
      as (a & Ha & _). rewrite Ha.
    destruct (IH Hnd (S i)
                (all_chapters
                 ++ [PyInt.str (Z.of_nat i + 1) +:+ ". [" +:+ name a +:+ "]("
                     +:+ Filename.filename i (name a) +:+ ")"])
                (<[idx := {| ref_num := Z.of_nat i + 1; ref_name := name a;
                             ref_filename := Filename.filename i (name a) |}]>
                   chapter_filenames))
      as (filenames & -> & Hpos & Hother).
    exists filenames. split_and!.
    + rewrite <- List.app_assoc. cbn [app]. rewrite imap_cons.
      unfold listing_line at 2. rewrite Ha, Nat.add_0_r. do 3 f_equal.
      apply imap_ext. intros j y _. cbn.
      by replace (i + S j)%nat with (S (i + j)) by lia.
    + intros [|j] idx' Hj.
      * injection Hj as <-. exists a. split; [done|].
        rewrite Hother by done. rewrite lookup_insert_eq. by rewrite Nat.add_0_r.
      * cbn in Hj. destruct (Hpos j idx' Hj) as (a' & Ha' & Hf).
        exists a'. split; [done|]. rewrite Hf.
        by replace (S i + j)%nat with (i + S j)%nat by lia.
    + intros idx' [Hne Hrest]%not_elem_of_cons.
      rewrite Hother by done. by rewrite lookup_insert_ne.
Qed.

(** The filenames dict only has indices of abstractions as keys. *)
Lemma listing_loop_keys abstractions chapter_order :
  ∀ i all_chapters chapter_filenames idx,
    is_Some ((listing_loop abstractions i chapter_order all_chapters
                chapter_filenames).2 !! idx) →
    is_Some (chapter_filenames !! idx) ∨ valid_index idx abstractions = true.
Proof.
  induction chapter_order as [|idx' rest IH];
    intros i all_chapters chapter_filenames idx; [by left|].
  cbn [listing_loop]. unfold at_index at 1.
  destruct (valid_index idx' abstractions) eqn:Hv; [|apply IH].
  destruct (abstractions !! Z.to_nat idx') as [a|]; [|apply IH].
  intros [Hin|?]%IH; [|by right].
  destruct (decide (idx = idx')) as [->|Hne]; [by right|].
  left. by rewrite lookup_insert_ne in Hin.
Qed.

(** The second loop, when the dict holds the reference of every position. *)
Lemma items_loop_valid ctx abstractions chapter_order listing filenames :
  (∀ j idx, chapter_order !! j = Some idx →
     at_index abstractions idx ≠ None
     ∧ filenames !! idx = chapter_ref_at abstractions chapter_order j) →
  ∀ todo i items,
    (∀ k, todo !! k = chapter_order !! (i + k)%nat) →
    ∃ new,
      items_loop ctx abstractions chapter_order listing filenames i todo items
      = Ok (items ++ new)
      ∧ length new = length todo
      ∧ ∀ k idx, todo !! k = Some idx →
          ∃ it a,
            new !! k = Some it
            ∧ at_index abstractions idx = Some a
            ∧ it = {| chapter_num := Z.of_nat (i + k) + 1;
                      abstraction_index := idx;
                      abstraction_details := a;
                      related_files_content_map :=
                        Context.get_content_for_indices (files_data ctx) (files a);
                      item_project_name := project_name ctx;
                      full_chapter_listing := listing;
                      chapter_filenames := filenames;
                      prev_chapter :=
                        match (i + k)%nat with
                        | O => None
                        | S j => chapter_ref_at abstractions chapter_order j
                        end;
                      next_chapter :=
                        chapter_ref_at abstractions chapter_order (S (i + k));
                      item_language := language ctx;
                      item_use_cache := use_cache ctx |}.
Proof.
  intros Hfn.
  assert (∀ j idx, chapter_order !! j = Some idx →
            neighbour chapter_order filenames j
            = Ok (chapter_ref_at abstractions chapter_order j)) as Hnb.
  { intros j idx Hj. destruct (Hfn j idx Hj) as [Hvalid Hf].
    unfold neighbour. rewrite Hj, Hf. unfold chapter_ref_at. rewrite Hj. cbn.
    by destruct (at_index abstractions idx). }
  induction todo as [|idx rest IH]; intros i items Htodo.
  - exists []. rewrite List.app_nil_r. split_and!; [done..|].
    intros k idx. by rewrite lookup_nil.
  - pose proof (Htodo 0%nat) as Hi. cbn in Hi. rewrite Nat.add_0_r in Hi.
    symmetry in Hi. destruct (Hfn i idx Hi) as [Hvalid _].
    destruct (at_index abstractions idx) as [a|] eqn:Ha; [|done].
    cbn [items_loop]. rewrite Ha.
    assert ((if (0 <? i)%nat
             then neighbour chapter_order filenames (i - 1)
             else Ok None)
            = Ok match i with
                 | O => None
                 | S j => chapter_ref_at abstractions chapter_order j
                 end) as ->.
    { destruct i as [|j]; [done|]. cbn [Nat.ltb Nat.leb].
      replace (S j - 1)%nat with j by lia.
      destruct (lookup_lt_is_Some_2 chapter_order j) as [p Hp];
        [apply lookup_lt_Some in Hi; lia|]. by eapply Hnb. }
    assert ((if Z.of_nat i <? Z.of_nat (length chapter_order) - 1
             then neighbour chapter_order filenames (i + 1)
             else Ok None)
            = Ok (chapter_ref_at abstractions chapter_order (S i))) as ->.
    { replace (i + 1)%nat with (S i) by lia.
      destruct (Z.of_nat i <? Z.of_nat (length chapter_order) - 1) eqn:Hlt.
      - apply Z.ltb_lt in Hlt.
        destruct (lookup_lt_is_Some_2 chapter_order (S i)) as [q Hq]; [lia|].
        by eapply Hnb.
      - apply Z.ltb_ge in Hlt. unfold chapter_ref_at.
        rewrite (lookup_ge_None_2 chapter_order (S i)) by lia. done. }
    cbn [mbind result_mbind result_bind].
    edestruct (IH (S i)) as (new & -> & Hlen & Hitems).
    { intros k. replace (S i + k)%nat with (i + S k)%nat by lia.
      apply (Htodo (S k)). }
    eexists (_ :: new). split_and!.
    + by rewrite <- List.app_assoc.
    + cbn. by rewrite Hlen.
    + intros [|k] idx' Hk.
      * injection Hk as <-. eexists _, a. split; [done|]. split; [done|].
        by rewrite Nat.add_0_r.
      * cbn in Hk. destruct (Hitems k idx' Hk) as (it & a' & Hit & Ha' & ->).
        eexists _, a'. split; [done|]. split; [done|].
        by replace (S i + k)%nat with (i + S k)%nat by lia.
Qed.

(** The second loop raises as soon as the reference of a neighbour of a
    valid entry is missing. *)
Lemma items_loop_raises ctx abstractions chapter_order listing filenames :
  ∀ todo i items k idx,
    todo !! k = Some idx →
    valid_index idx abstractions = true →
    ((i + k ≠ 0)%nat
     ∧ raises (neighbour chapter_order filenames (i + k - 1))
     ∨ Z.of_nat (i + k) < Z.of_nat (length chapter_order) - 1
       ∧ raises (neighbour chapter_order filenames (i + k + 1))) →
    raises (items_loop ctx abstractions chapter_order listing filenames i todo
              items).
Proof.
  induction todo as [|h rest IH]; intros i items k idx Hk Hvalid Hbad;
    [by rewrite lookup_nil in Hk|].
  cbn [items_loop].
  destruct k as [|k].
  - injection Hk as ->. rewrite Nat.add_0_r in Hbad.
    unfold at_index at 1. rewrite Hvalid.
    destruct (abstractions !! Z.to_nat idx) as [a|] eqn:Ha.
    2:{ apply lookup_ge_None in Ha. unfold valid_index in Hvalid.
        apply IdentifyAbstractionsFacts.in_range_spec in Hvalid. lia. }
    destruct Hbad as [[Hi [e He]]|[Hi [e He]]].
    + destruct i as [|j]; [done|]. cbn [Nat.ltb Nat.leb]. rewrite He.
      by eexists.
    + destruct (if (0 <? i)%nat then _ else _) as [prev|e'];
        cbn [mbind result_mbind result_bind]; [|by eexists].
      apply Z.ltb_lt in Hi. rewrite Hi, He. by eexists.
  - cbn in Hk.
    assert (raises (items_loop ctx abstractions chapter_order listing filenames
                      (S i) rest items) ∧
            ∀ items', raises (items_loop ctx abstractions chapter_order listing
                                filenames (S i) rest items')) as [_ Hrest].
    { split; [|intros items']; eapply (IH (S i) _ k idx Hk Hvalid);
        by replace (S i + k)%nat with (i + S k)%nat by lia. }
    destruct (at_index abstractions h) as [a|]; [|apply Hrest].
    destruct (if (0 <? i)%nat then _ else _) as [prev|e'];
      cbn [mbind result_mbind result_bind]; [|by eexists].
    destruct (if Z.of_nat i <? _ then _ else _) as [next|e'];
      cbn [mbind result_mbind result_bind]; [|by eexists].
    apply Hrest.
Qed.

End WriteChaptersPrepFacts.

(** X13: for an order whose entries are pairwise distinct indices of
    abstractions (what the Ordering Stage accepts), [WriteChapters.prep]
    returns one item per entry, in order. The item at position [k] is
    chapter [k + 1] of the abstraction named by the entry; its previous
    chapter is unset at the first position and otherwise refers to position
    [k - 1], its next chapter is unset at the last position and otherwise
    refers to position [k + 1], each reference holding the number, the name
    and the file name [f"{j+1:02d}_{safe_name}.md"] of that chapter. *)
Theorem prep_items_linked ctx abstractions chapter_order :
  Forall (λ idx, 0 ≤ idx < Z.of_nat (length abstractions)) chapter_order →
  NoDup chapter_order →
  ∃ items,
    WriteChaptersPrep.prep ctx abstractions chapter_order = Ok items
    ∧ length items = length chapter_order
    ∧ ∀ k idx, chapter_order !! k = Some idx →
        ∃ it, items !! k = Some it
              ∧ item_at ctx abstractions chapter_order k idx it.
Proof.
  intros Hvalid Hnd. unfold WriteChaptersPrep.prep.
  destruct (WriteChaptersPrepFacts.listing_loop_valid abstractions chapter_order
              Hvalid Hnd 0 [] ∅) as (filenames & -> & Hpos & _).
  cbn [app].
  assert (∀ j idx, chapter_order !! j = Some idx →
            at_index abstractions idx ≠ None
            ∧ filenames !! idx = chapter_ref_at abstractions chapter_order j)
    as Hfn.
  { intros j idx Hj. destruct (Hpos j idx Hj) as (a & Ha & Hf).
    split; [congruence|]. rewrite Hf. unfold chapter_ref_at.
    rewrite Hj. cbn. by rewrite Ha. }
  destruct (WriteChaptersPrepFacts.items_loop_valid ctx abstractions
              chapter_order
              (PyStr.join NL (imap (λ j, listing_line abstractions (0 + j))
                                chapter_order))
              filenames Hfn chapter_order 0 [])
    as (items & -> & Hlen & Hitems); [done|].
  exists items. split_and!; [done..|].
  intros k idx Hk. destruct (Hitems k idx Hk) as (it & a & Hit & Ha & Hitem).
  exists it. split; [done|]. exists a. rewrite Hitem. cbn. split_and!; try done.
  by apply Hfn.
Qed.

Lemma prep_items_linked_witness :
  ∃ items,
    WriteChaptersPrep.prep
      {| WriteChaptersPrep.files_data := [("a.py", "x"); ("b.py", "y"); ("c.py", "z")];
         WriteChaptersPrep.project_name := "p";
         WriteChaptersPrep.language := "english";
         WriteChaptersPrep.use_cache := true |}
      two_abstractions [1; 0]
    = Ok items
    ∧ length items = length [1; 0]
    ∧ ∀ k idx, [1; 0] !! k = Some idx →
        ∃ it, items !! k = Some it
              ∧ item_at
                  {| WriteChaptersPrep.files_data :=
                       [("a.py", "x"); ("b.py", "y"); ("c.py", "z")];
                     WriteChaptersPrep.project_name := "p";
                     WriteChaptersPrep.language := "english";
                     WriteChaptersPrep.use_cache := true |}
                  two_abstractions [1; 0] k idx it.
Proof.
  apply (prep_items_linked _ two_abstractions [1; 0]).
  - repeat constructor; cbn; lia.
  - compute_done.
Defined.

(** X14: [WriteChapters.prep] passes over an entry of the order that is
    not an index of an abstraction, but it does not get past one that
    stands next to a valid entry: the reference to the neighbouring chapter
    is looked up in [chapter_filenames], which has no key for the invalid
    entry, and [prep] raises. *)
Theorem prep_raises_next_to_invalid_entry ctx abstractions chapter_order
    k idx j bad :
  chapter_order !! k = Some idx →
  valid_index idx abstractions = true →
  chapter_order !! j = Some bad →
  valid_index bad abstractions = false →
  j = S k ∨ k = S j →
  raises (WriteChaptersPrep.prep ctx abstractions chapter_order).
Proof.
  intros Hk Hvalid Hj Hbad Hnext. unfold WriteChaptersPrep.prep.
  destruct (WriteChaptersPrep.listing_loop abstractions 0 chapter_order [] ∅)
    as [all_chapters filenames] eqn:Hloop.
  assert (raises (WriteChaptersPrep.neighbour chapter_order filenames j))
    as Hraise.
  { unfold WriteChaptersPrep.neighbour. rewrite Hj.
    destruct (filenames !! bad) as [ref|] eqn:Hf; [|by eexists].
    pose proof (WriteChaptersPrepFacts.listing_loop_keys abstractions
                  chapter_order 0 [] ∅ bad) as Hkeys.
    rewrite Hloop in Hkeys. cbn [snd] in Hkeys.
    destruct Hkeys as [Hin|?]; [by rewrite Hf| |congruence].
    rewrite lookup_empty in Hin. by destruct Hin. }
  eapply (WriteChaptersPrepFacts.items_loop_raises _ _ _ _ _ chapter_order 0 []
            k idx Hk Hvalid).
  cbn [Nat.add]. destruct Hnext as [->| ->].
  - right. split.
    + apply lookup_lt_Some in Hj. lia.
    + by replace (k + 1)%nat with (S k) by lia.
  - left. split; [lia|]. by replace (S j - 1)%nat with j by lia.
Qed.

Lemma prep_raises_next_to_invalid_entry_witness :
  raises
    (WriteChaptersPrep.prep
       {| WriteChaptersPrep.files_data := [("a.py", "x")];
          WriteChaptersPrep.project_name := "p";
          WriteChaptersPrep.language := "english";
          WriteChaptersPrep.use_cache := true |}
       two_abstractions [0; 5]).
Proof.
  apply (prep_raises_next_to_invalid_entry _ two_abstractions [0; 5]
           0%nat 0 1%nat 5); try reflexivity.
  by left.
Defined.

(** ** What the stages hand to the oracle *)

Module PrepFacts.




Lemma getitem_valid {A} (l : list A) i :
  0 ≤ i < Z.of_nat (length l) →
  ∃ a, PyStrExt.getitem l i = Some a ∧ l !! Z.to_nat i = Some a.
Proof.
  intros Hi. unfold PyStrExt.getitem.
  rewrite (proj2 (Z.leb_le 0 i)) by lia.
  destruct (lookup_lt_is_Some_2 l (Z.to_nat i)) as [a Ha]; [lia|]. eauto.
Qed.

End PrepFacts.



(** X16: the listing of the abstractions that [AnalyzeRelationships.prep]
    hands to the oracle uses the entry form that the validation of the
    Relationship Stage accepts: a relationship whose two endpoints are
    entries copied from the listing, with any string as its label, is
    accepted, and it resolves to the positions of those two abstractions,
    whatever their names are. *)
Theorem listing_entries_are_accepted_endpoints abstractions i a j b rel_label :
  abstractions !! i = Some a →
  abstractions !! j = Some b →
  AnalyzeRelationships.validate_relationships (Z.of_nat (length abstractions))
    [relationship_from_listing (AnalyzeRelationshipsPrep.listing_entry i a)
       (AnalyzeRelationshipsPrep.listing_entry j b) rel_label] []
  = Ok [{| from := Z.of_nat i; to := Z.of_nat j; label := rel_label |}].
Proof.
  intros Hi%lookup_lt_Some Hj%lookup_lt_Some.
  apply AnalyzeRelationshipsFacts.validate_relationships_ok.
  eexists. split; [|done]. constructor; [|constructor].
  eexists _, _, _. split; [reflexivity|]. cbn.
  split_and!; try reflexivity; try lia;
    apply IndexFacts.endpoint_of_commented.
Qed.

Lemma listing_entries_are_accepted_endpoints_witness :
  AnalyzeRelationships.validate_relationships
    (Z.of_nat (length two_abstractions))
    [relationship_from_listing "1 # HTTP/2 Client" "0 # Data Store" "calls"] []
  = Ok [{| from := 1; to := 0; label := "calls" |}].
Proof.
  apply (listing_entries_are_accepted_endpoints two_abstractions 1
           {| name := "HTTP/2 Client"; description := "Talks to the server.";
              files := [1; 2] |}
           0
           {| name := "Data Store"; description := "Keeps the records.";
              files := [0] |} "calls"); reflexivity.
Defined.

(** X17: on relationships that the Relationship Stage accepted for the
    abstractions, [OrderChapters.prep] does not raise: every lookup
    [abstractions[rel["from"]]] and [abstractions[rel["to"]]] finds its
    abstraction, and the context holds, after its header, one line per
    relationship, in order, naming the two abstractions at those indices. *)
Theorem order_context_names_endpoints lang_note abstractions parsed rels :
  AnalyzeRelationships.validate (Z.of_nat (length abstractions)) parsed = Ok rels →
  ∃ listing header lines,
    OrderChaptersPrep.prep lang_note abstractions rels
    = Ok (listing, header +:+ PyStr.join EmptyString lines)
    ∧ Forall2
        (λ rel line, ∃ f t,
           abstractions !! Z.to_nat (from rel) = Some f
           ∧ abstractions !! Z.to_nat (to rel) = Some t
           ∧ line = relationship_text rel f t)
        (details rels) lines.
Proof.
  intros (d & ys & _ & _ & _ & Hacc)%AnalyzeRelationshipsFacts.validate_data_ok.
  unfold OrderChaptersPrep.prep.
  set (header := "Project Summary" +:+ _).
  assert (∀ context,
            ∃ lines,
              OrderChaptersPrep.context_loop abstractions (details rels) context
              = Ok (context +:+ PyStr.join EmptyString lines)
              ∧ Forall2
                  (λ rel line, ∃ f t,
                     abstractions !! Z.to_nat (from rel) = Some f
                     ∧ abstractions !! Z.to_nat (to rel) = Some t
                     ∧ line = relationship_text rel f t)
                  (details rels) lines) as Hloop.
  { clear header. induction Hacc as [|y rel ys rs Hrel _ IH]; intros context.
    - exists []. cbn. by rewrite PyStrFacts.app_nil_r.
    - destruct Hrel as (? & ? & ? & _ & _ & _ & _ & _ & _ & Hfrom & Hto).
      destruct (PrepFacts.getitem_valid abstractions (from rel) Hfrom)
        as (f & Hf & Hf').
      destruct (PrepFacts.getitem_valid abstractions (to rel) Hto)
        as (t & Ht & Ht').
      cbn [OrderChaptersPrep.context_loop].
      unfold OrderChaptersPrep.relationship_line. rewrite Hf, Ht.
      cbn [mbind result_mbind result_bind].
      destruct (IH (context +:+ relationship_text rel f t)) as (lines & Hrest & Hl).
      change (context +:+ _ +:+ _ +:+ _ +:+ _ +:+ _ +:+ _ +:+ _ +:+ _ +:+ _ +:+ _)
        with (context +:+ relationship_text rel f t).
      rewrite Hrest.
      exists (relationship_text rel f t :: lines). split.
      + rewrite PyStrFacts.app_assoc. do 2 f_equal.
        destruct lines; [|done]. cbn [PyStr.join]. by rewrite PyStrFacts.app_nil_r.
      + constructor; [by exists f, t|done]. }
  destruct (Hloop header) as (lines & -> & Hlines).
  by eexists _, header, lines.
Qed.

Lemma order_context_names_endpoints_witness :
  ∃ listing header lines,
    OrderChaptersPrep.prep "" two_abstractions
      {| summary := "s";
         details := [{| from := 0; to := 1; label := "uses" |}] |}
    = Ok (listing, header +:+ PyStr.join EmptyString lines)
    ∧ Forall2
        (λ rel line, ∃ f t,
           two_abstractions !! Z.to_nat (from rel) = Some f
           ∧ two_abstractions !! Z.to_nat (to rel) = Some t
           ∧ line = relationship_text rel f t)
        [{| from := 0; to := 1; label := "uses" |}] lines.
Proof.
  apply (order_context_names_endpoints "" two_abstractions
           (YDict sample_relationships)
           {| summary := "s";
              details := [{| from := 0; to := 1; label := "uses" |}] |}).
  vm_compute. reflexivity.
Defined.

(** ** Documentation files *)

Module DocContextFacts.
Import PyStr PyStrExt PyStrFacts PyStrExtFacts DocContext.

Lemma contains_app_r sub a b :
  contains sub b = true → contains sub (a +:+ b) = true.
Proof.
  intros Hb. induction a as [|c a IH]; [by rewrite app_nil_l|].
  rewrite app_cons. by apply contains_cons.
Qed.

Lemma join_last sep l :
  l ≠ [] → ∃ before, join sep l = before +:+ last_field l.
Proof.
  induction l as [|x l IH]; [done|]. intros _.
  destruct l as [|y l]; [by exists EmptyString|].
  destruct IH as [before Hb]; [done|].
  exists (x +:+ sep +:+ before).
  change (join sep (x :: y :: l)) with (x +:+ sep +:+ join sep (y :: l)).
  rewrite Hb. by rewrite !app_assoc.
Qed.

(** What the file name holds, the path holds. *)
Lemma contains_basename sub p :
  contains sub (basename p) = true → contains sub p = true.
Proof.
  intros Hsub. unfold basename in Hsub.
  destruct (join_last "/" (split "/" p)) as [before Hb];
    [apply split_nonempty|].
  rewrite join_split in Hb. rewrite Hb. by apply contains_app_r.
Qed.

(** The lists only grow, and the entries of [design_docs] come from the
    fourth branch. *)
Lemma classify_design_docs doc file entry :
  entry ∈ design_docs (classify doc file) →
  entry ∈ design_docs doc
  ∨ entry = (file.1, take (Z.to_nat 2000) file.2)
    ∧ startswith (basename (lower file.1)) "readme" = false
    ∧ any_in ["architecture"; "arch"; "design"; "adr"] (lower file.1) = false
    ∧ any_in ["design"; "spec"; "specification"] (basename (lower file.1)) = true.
Proof.
  destruct file as [path content]. unfold classify. cbn [fst snd].
  destruct (startswith (basename (lower path)) "readme"); [by left|].
  destruct (any_in ["architecture"; "arch"; "design"; "adr"] (lower path));
    [by left|].
  destruct (any_in ["api"; "swagger"; "openapi"] (lower path)); [by left|].
  destruct (any_in ["design"; "spec"; "specification"] (basename (lower path)))
    eqn:Hspec.
  - cbn [design_docs]. rewrite elem_of_app, list_elem_of_singleton.
    intros [?| ->]; [by left|by right].
  - destruct (any_in ["contributing"; "development"; "dev-guide"]
                (basename (lower path))); [by left|].
    destruct (_ || _); by left.
Qed.

Lemma fold_design_docs files_data doc entry :
  entry ∈ design_docs (fold_left classify files_data doc) →
  entry ∈ design_docs doc
  ∨ ∃ path full,
      (path, full) ∈ files_data
      ∧ entry = (path, take (Z.to_nat 2000) full)
      ∧ startswith (basename (lower path)) "readme" = false
      ∧ any_in ["architecture"; "arch"; "design"; "adr"] (lower path) = false
      ∧ any_in ["design"; "spec"; "specification"] (basename (lower path))
        = true.
Proof.
  revert doc. induction files_data as [|file rest IH]; intros doc; [by left|].
  cbn [fold_left]. intros [Hin|(p & f & Hf & Hrest)]%IH.
  - apply classify_design_docs in Hin as [?|Hnew]; [by left|].
    right. destruct file as [p f]. exists p, f.
    split; [apply list_elem_of_here|exact Hnew].
  - right. exists p, f. split; [by apply list_elem_of_further|exact Hrest].
Qed.

End DocContextFacts.

(** X18: every entry of [design_docs] that [extract_documentation_context]
    gives is a file of the corpus whose lowercased file name holds
    ["spec"]: a file whose path holds ["design"] is never listed there (it
    is taken by the architecture branch, which comes first), so the term
    ["design"] of the design branch selects nothing. The entry holds the
    first 2000 characters of the file. *)
Theorem design_docs_hold_spec_files files_data path content :
  (path, content)
  ∈ DocContext.design_docs (DocContext.extract_documentation_context files_data) →
  PyStr.contains "spec" (PyStrExt.basename (PyStr.lower path)) = true
  ∧ PyStr.contains "design" (PyStr.lower path) = false
  ∧ PyStr.contains "design" (PyStrExt.basename (PyStr.lower path)) = false
  ∧ ∃ full,
      (path, full) ∈ files_data
      ∧ content = PyStr.take (Z.to_nat 2000) full
      ∧ (String.length content ≤ 2000)%nat.
Proof.
  unfold DocContext.extract_documentation_context.
  intros [Hin|(p & full & Hfile & Heq & _ & Harch & Hspec)]
    %DocContextFacts.fold_design_docs; [by apply elem_of_nil in Hin|].
  apply pair_equal_spec in Heq as [-> ->].
  unfold DocContext.any_in in *. cbn [existsb] in *.
  rewrite !orb_false_r in *.
  apply orb_false_iff in Harch as [_ Harch].
  apply orb_false_iff in Harch as [_ Harch].
  apply orb_false_iff in Harch as [Hdesign _].
  assert (PyStr.contains "design" (PyStrExt.basename (PyStr.lower p)) = false)
    as Hname.
  { destruct (PyStr.contains "design" (PyStrExt.basename (PyStr.lower p))) eqn:E;
      [|done].
    apply DocContextFacts.contains_basename in E. congruence. }
  rewrite Hname, orb_false_l in Hspec. split_and!; [|done..|].
  - apply orb_true_iff in Hspec as [?|Hspec]; [done|].
    by eapply (PyStrFacts.contains_weaken "spec" "specification").
  - exists full. split; [exact Hfile|]. split; [reflexivity|].
    rewrite LabelFacts.length_take. apply Nat.le_min_l.
Qed.

Lemma design_docs_hold_spec_files_witness :
  PyStr.contains "spec" (PyStrExt.basename (PyStr.lower "docs/Wire-Spec.md")) = true
  ∧ PyStr.contains "design" (PyStr.lower "docs/Wire-Spec.md") = false
  ∧ PyStr.contains "design" (PyStrExt.basename (PyStr.lower "docs/Wire-Spec.md"))
    = false
  ∧ ∃ full,
      ("docs/Wire-Spec.md", full)
      ∈ [("docs/Design-Spec.md", "d"); ("docs/Wire-Spec.md", "s")]
      ∧ "s" = PyStr.take (Z.to_nat 2000) full
      ∧ (String.length "s" ≤ 2000)%nat.
Proof.
  apply (design_docs_hold_spec_files
           [("docs/Design-Spec.md", "d"); ("docs/Wire-Spec.md", "s")]).
  vm_compute. apply list_elem_of_here.
Defined.

(** ** The context of the Abstraction Stage *)

Module LlmContextFacts.
Import PyStr PyStrFacts LlmContext.

Lemma partition_loop_filter files_data :
  ∀ i contextual_files code_files,
    partition_loop i files_data contextual_files code_files
    = (contextual_files
       ++ List.filter (λ file, is_contextual file.1.2)
            (imap (λ j file, ((i + j)%nat, file.1, file.2)) files_data),
       code_files
       ++ List.filter (λ file, negb (is_contextual file.1.2))
            (imap (λ j file, ((i + j)%nat, file.1, file.2)) files_data)).
Proof.
  induction files_data as [|[path content] rest IH];
    intros i contextual_files code_files.
  - cbn. by rewrite !List.app_nil_r.
  - cbn [partition_loop]. rewrite imap_cons. cbn [List.filter fst snd].
    rewrite Nat.add_0_r.
    assert (imap ((λ j file, ((i + j)%nat, file.1, file.2)) ∘ S) rest
            = imap (λ j (file : string * string), ((S i + j)%nat, file.1, file.2))
                rest) as ->.
    { apply imap_ext. intros j file _. cbn. do 2 f_equal. lia. }
    destruct (is_contextual path); rewrite IH; cbn [negb];
      by rewrite <- List.app_assoc.
Qed.


Lemma contains_app_l sub a b :
  contains sub a = true → contains sub (a +:+ b) = true.
Proof.
  intros Ha. eapply ExtractorFacts.contains_prefix_mono; [|apply Ha].
  apply prefix_app.
Qed.

End LlmContextFacts.


(** ** The file listing *)

Module FileListingFacts.
Import PyStr PyStrFacts PyStrExtFacts LlmContext FileListing.

Lemma join_elem d sep x l :
  x ∈ l → ∃ a b, join (String d sep) l = a +:+ x +:+ b.
Proof.
  induction l as [|y l IH]; [by intros ?%elem_of_nil|].
  intros [->|Hin]%elem_of_cons.
  - destruct l as [|z l].
    + exists EmptyString, EmptyString. by rewrite app_nil_r.
    + by exists EmptyString, (String d sep +:+ join (String d sep) (z :: l)).
  - destruct l as [|z l]; [by apply elem_of_nil in Hin|].
    destruct (IH Hin) as (a & b & Hab).
    exists (y +:+ String d sep +:+ a), b.
    change (join (String d sep) (y :: z :: l))
      with (y +:+ String d sep +:+ join (String d sep) (z :: l)).
    rewrite Hab. by rewrite !app_assoc.
Qed.

(** What a line holds, the text holds. *)
Lemma contains_line sub line s :
  line ∈ split NL s → contains sub line = true → contains sub s = true.
Proof.
  intros Hin Hsub.
  destruct (join_elem (ascii_of_N 10) EmptyString _ _ Hin) as (a & b & Hab).
  change (String (ascii_of_N 10) EmptyString) with NL in Hab.
  unfold NL in Hab at 1 2. rewrite join_split in Hab. rewrite Hab.
  by apply DocContextFacts.contains_app_r, LlmContextFacts.contains_app_l.
Qed.

Lemma listing_loop_no_section lines file_listing :
  Forall (λ line, contains CONTEXT_HEADER line = false
                  ∧ contains CODE_HEADER line = false) lines →
  listing_loop lines false false file_listing = file_listing.
Proof.
  induction 1 as [|line rest [Hc Hd] _ IH]; [done|].
  cbn [listing_loop]. by rewrite Hc, Hd.
Qed.

End FileListingFacts.

(** X20: when the context holds neither of the two section headers - as
    with a corpus in which no file is contextual, for which
    [create_llm_context] writes no header - the file listing names no file:
    for a corpus that is not empty it is the fixed sentence that gives the
    number of files. *)
Theorem file_listing_falls_back_without_sections contextual_file_count
    file_count context_str :
  PyStr.contains LlmContext.CONTEXT_HEADER context_str = false →
  PyStr.contains LlmContext.CODE_HEADER context_str = false →
  0 < file_count →
  FileListing._generate_file_listing_for_prompt contextual_file_count file_count
    context_str
  = FileListing.fallback file_count.
Proof.
  intros Hcontext Hcode Hcount.
  unfold FileListing._generate_file_listing_for_prompt.
  rewrite FileListingFacts.listing_loop_no_section.
  - rewrite bool_decide_eq_true_2 by done.
    by rewrite (proj2 (Z.ltb_lt 0 file_count)).
  - apply Forall_forall. intros line Hline. split.
    + destruct (PyStr.contains LlmContext.CONTEXT_HEADER line) eqn:E; [|done].
      rewrite <- Hcontext. symmetry. by eapply FileListingFacts.contains_line.
    + destruct (PyStr.contains LlmContext.CODE_HEADER line) eqn:E; [|done].
      rewrite <- Hcode. symmetry. by eapply FileListingFacts.contains_line.
Qed.

Lemma file_listing_falls_back_without_sections_witness :
  FileListing._generate_file_listing_for_prompt 0 2
    (LlmContext.create_llm_context
       [("src/a.py", "import b"); ("src/b.py", "x = 1")]).1.1
  = FileListing.fallback 2.
Proof.
  apply (file_listing_falls_back_without_sections 0 2); [reflexivity..|lia].
Defined.

Module FileListingEntryFacts.
Import PyStr PyStrFacts PyStrExtFacts LlmContext FileListing.

(** A text free of [c] that starts [x ++ c ...] lies within [x]. *)
Lemma prefix_fits q x c rest :
  all_chars (not_char c) q = true →
  String.prefix q (x +:+ String c rest) = true → String.prefix q x = true.
Proof.
  revert x. induction q as [|e q IH]; intros x Hq; [by rewrite !prefix_nil|].
  cbn [all_chars] in Hq. apply andb_true_iff in Hq as [He Hq].
  destruct x as [|f x].
  - rewrite app_nil_l, prefix_cons. intros [Hec _]%andb_true_iff.
    apply bool_decide_eq_true in Hec as ->.
    unfold not_char in He. by rewrite Ascii.eqb_refl in He.
  - rewrite app_cons, !prefix_cons. intros [-> Hp]%andb_true_iff.
    by rewrite (IH x Hq Hp).
Qed.

(** The cut of [split(sep, 1)] when [sep] does not occur before and its
    first character does not occur again in it. *)
Lemma split_once_go_unique_head c q a b :
  all_chars (not_char c) q = true →
  contains (String c q) a = false →
  split_once_go (String c q) (a +:+ String c q +:+ b) = (a, Some b).
Proof.
  intros Hq. induction a as [|d a IH]; intros Ha.
  - rewrite app_nil_l.
    change (String c q +:+ b) with (String c (q +:+ b)).
    cbn [split_once_go].
    change (String c (q +:+ b)) with (String c q +:+ b).
    rewrite prefix_app. by rewrite drop_length_app.
  - unfold contains in Ha; fold contains in Ha.
    apply orb_false_iff in Ha as [Hp Ha].
    rewrite app_cons. cbn [split_once_go].
    destruct (String.prefix (String c q) (String d (a +:+ String c q +:+ b)))
      eqn:Hq'.
    + exfalso. rewrite prefix_cons in Hq', Hp.
      apply andb_true_iff in Hq' as [Hcd Hq'].
      rewrite Hcd in Hp. cbn [andb] in Hp.
      change (String c q +:+ b) with (String c (q +:+ b)) in Hq'.
      apply prefix_fits in Hq'; [congruence|done].
    + by rewrite (IH Ha).
Qed.

Lemma contains_tagged path :
  contains " ---" path = false →
  contains " ---" (path +:+ " (CONTEXTUAL)") = false.
Proof.
  induction path as [|d path IH]; [done|].
  unfold contains; fold contains. intros [Hp Hrest]%orb_false_iff.
  rewrite app_cons. unfold contains; fold contains.
  rewrite (IH Hrest), orb_false_r.
  destruct (String.prefix " ---" (String d (path +:+ " (CONTEXTUAL)"))) eqn:Hq;
    [|done].
  rewrite prefix_cons in Hq, Hp.
  apply andb_true_iff in Hq as [Hcd Hq]. rewrite Hcd in Hp. cbn [andb] in Hp.
  apply (prefix_fits "---" path " " "(CONTEXTUAL)") in Hq; [congruence|done].
Qed.

Lemma take_while_app P a c b :
  all_chars P a = true → P c = false →
  take_while P (a +:+ String c b) = a.
Proof.
  intros Ha Hc. induction a as [|d a IH].
  - rewrite app_nil_l. cbn. by rewrite Hc.
  - cbn [all_chars] in Ha. apply andb_true_iff in Ha as [Hd Ha].
    rewrite app_cons. cbn [take_while]. by rewrite Hd, IH.
Qed.

Lemma tag_no_newline path :
  all_chars (λ c, negb (Ascii.eqb c (ascii_of_N 10))) (context_tag path) = true
  ∧ (contains " ---" path = false →
     contains " ---" (path +:+ context_tag path) = false).
Proof.
  unfold context_tag. destruct (is_contextual path).
  - split; [done|apply contains_tagged].
  - split; [done|]. by rewrite app_nil_r.
Qed.

(** The first line of an entry is read back as the index and the path with
    its tag. *)
Lemma match_entry_header file :
  all_chars (λ c, negb (Ascii.eqb c (ascii_of_N 10))) file.1.2 = true →
  contains " ---" file.1.2 = false →
  match_file_entry (entry_header file)
  = Some (PyInt.str (Z.of_nat file.1.1), file.1.2 +:+ context_tag file.1.2).
Proof.
  destruct file as [[i path] content]. cbn [fst snd]. intros Hnl Hsep.
  destruct (tag_no_newline path) as [Htag Hcut]. specialize (Hcut Hsep).
  unfold match_file_entry, entry_header, startswith. cbn [fst snd].
  rewrite prefix_app.
  rewrite (drop_length_app "--- File Index ").
  change (": " +:+ path +:+ context_tag path +:+ " ---")
    with (String ":" (" " +:+ path +:+ context_tag path +:+ " ---")).
  rewrite take_while_app;
    [|apply FilenameFacts.str_digits; lia|done].
  destruct (PyIntFacts.str_cons (Z.of_nat i)) as (c & s & Hstr & _).
  assert (String.eqb (PyInt.str (Z.of_nat i)) EmptyString = false) as ->
    by by rewrite Hstr.
  rewrite drop_length_app.
  change (String ":" (" " +:+ path +:+ context_tag path +:+ " ---"))
    with (": " +:+ path +:+ context_tag path +:+ " ---").
  rewrite prefix_app. rewrite (drop_length_app ": ").
  replace (path +:+ context_tag path +:+ " ---")
    with ((path +:+ context_tag path) +:+ " ---" +:+ EmptyString)
    by by rewrite app_assoc, app_nil_r.
  rewrite (split_once_go_unique_head " " "---") by done.
  by rewrite all_chars_app, Hnl, Htag.
Qed.

End FileListingEntryFacts.

Module FileListingLoopFacts.
Import PyStr PyStrFacts PyStrExtFacts LlmContext FileListing.

Lemma entry_as_lines file :
  entry (context_tag file.1.2) file
  = entry_header file
    +:+ String (ascii_of_N 10)
          (file.2 +:+ String (ascii_of_N 10) (String (ascii_of_N 10) EmptyString)).
Proof.
  unfold entry, entry_header.
  change (String (ascii_of_N 10)
            (file.2 +:+ String (ascii_of_N 10) (String (ascii_of_N 10) EmptyString)))
    with (NL +:+ file.2 +:+ NL +:+ NL).
  by rewrite !app_assoc.
Qed.

Lemma header_one_line file :
  all_chars (not_char (ascii_of_N 10)) file.1.2 = true →
  all_chars (not_char (ascii_of_N 10)) (entry_header file) = true.
Proof.
  intros Hpath. unfold entry_header. rewrite !all_chars_app, Hpath.
  destruct (FileListingEntryFacts.tag_no_newline file.1.2) as [Htag _].
  assert (all_chars (not_char (ascii_of_N 10)) (PyInt.str (Z.of_nat file.1.1))
          = true) as ->.
  { eapply all_chars_impl; [|apply FilenameFacts.str_digits; lia].
    intros c. destruct c as [[] [] [] [] [] [] [] []]; vm_compute; congruence. }
  unfold not_char. by rewrite Htag.
Qed.

Lemma entry_split file rest :
  all_chars (not_char (ascii_of_N 10)) file.1.2 = true →
  split NL (entry (context_tag file.1.2) file +:+ rest)
  = entry_lines file ++ split NL rest.
Proof.
  intros Hpath. rewrite entry_as_lines. unfold NL, entry_lines.
  rewrite app_assoc, app_cons, split_char_app.
  rewrite split_char_absent by by apply header_one_line.
  rewrite app_assoc, !app_cons, app_nil_l, split_char_app.
  change (String (ascii_of_N 10) rest)
    with (EmptyString +:+ String (ascii_of_N 10) rest).
  rewrite split_char_app. cbn [app]. by rewrite <- List.app_assoc.
Qed.

Lemma split_line line rest :
  all_chars (not_char (ascii_of_N 10)) line = true →
  split NL (line +:+ NL +:+ rest) = line :: split NL rest.
Proof.
  intros Hline. change (NL +:+ rest) with (String (ascii_of_N 10) rest).
  unfold NL. rewrite split_char_app. by rewrite split_char_absent.
Qed.

Lemma split_blank rest : split NL (NL +:+ rest) = EmptyString :: split NL rest.
Proof. apply (split_line EmptyString). done. Qed.

Lemma entries_split files rest :
  Forall (λ file, all_chars (not_char (ascii_of_N 10)) file.1.2 = true) files →
  split NL (join EmptyString
              (map (λ file, entry (context_tag file.1.2) file) files) +:+ rest)
  = flat_map entry_lines files ++ split NL rest.
Proof.
  induction 1 as [|file files Hfile _ IH]; [by rewrite app_nil_l|].
  cbn [map flat_map].
  assert (∀ x l, join EmptyString (x :: l) = x +:+ join EmptyString l) as Hjoin.
  { intros x [|y l]; [by rewrite app_nil_r|done]. }
  rewrite Hjoin, app_assoc, entry_split by done.
  by rewrite IH, <- List.app_assoc.
Qed.

Lemma loop_inert lines rest in_contextual_section in_code_section file_listing :
  Forall inert_line lines →
  listing_loop (lines ++ rest) in_contextual_section in_code_section file_listing
  = listing_loop rest in_contextual_section in_code_section file_listing.
Proof.
  induction 1 as [|line lines (Hc & Hd & Hm) _ IH]; [done|].
  cbn [app listing_loop]. rewrite Hc, Hd, Hm, IH.
  by destruct (in_contextual_section || in_code_section).
Qed.

Lemma empty_line_inert : inert_line EmptyString.
Proof. done. Qed.

Lemma loop_entry file rest in_contextual_section in_code_section file_listing :
  in_contextual_section || in_code_section = true →
  listable file →
  listing_loop (entry_lines file ++ rest) in_contextual_section in_code_section
    file_listing
  = listing_loop rest in_contextual_section in_code_section
      (file_listing ++ [listing_item file]).
Proof.
  intros Hon (Hnl & Hsep & Hc & Hd & Hcontent).
  unfold entry_lines. cbn [app listing_loop].
  rewrite Hc, Hd, Hon, FileListingEntryFacts.match_entry_header by done.
  rewrite <- List.app_assoc, loop_inert by done.
  cbn [app listing_loop]. cbn. rewrite Hon. done.
Qed.

Lemma loop_entries files rest in_contextual_section in_code_section file_listing :
  in_contextual_section || in_code_section = true →
  Forall listable files →
  listing_loop (flat_map entry_lines files ++ rest) in_contextual_section
    in_code_section file_listing
  = listing_loop rest in_contextual_section in_code_section
      (file_listing ++ map listing_item files).
Proof.
  intros Hon Hfiles. revert file_listing.
  induction Hfiles as [|file files Hfile _ IH]; intros file_listing.
  - cbn. by rewrite List.app_nil_r.
  - cbn [flat_map map]. rewrite <- List.app_assoc, loop_entry by done.
    rewrite IH. by rewrite <- List.app_assoc.
Qed.

End FileListingLoopFacts.

(** X21: the file listing is read back from the context. For a corpus
    with at least one contextual file, whose paths hold no newline and no
    [" ---"], and in which no first line of an entry holds a section header
    and no line of a content holds one or has the form of a first line,
    [_generate_file_listing_for_prompt] applied to the context of
    [create_llm_context] gives one line per file, ["- <index> # <path>"],
    the contextual files first (their path followed by [" (CONTEXTUAL)"]),
    each file under its index in the corpus. *)
Theorem file_listing_reads_back_the_context files_data contextual_file_count :
  Forall listable (enumerated files_data) →
  Exists (λ file, LlmContext.is_contextual file.1 = true) files_data →
  let contextual_files :=
    List.filter (λ file, LlmContext.is_contextual file.1.2)
      (enumerated files_data) in
  let code_files :=
    List.filter (λ file, negb (LlmContext.is_contextual file.1.2))
      (enumerated files_data) in
  FileListing._generate_file_listing_for_prompt contextual_file_count
    (Z.of_nat (length files_data))
    (LlmContext.create_llm_context files_data).1.1
  = PyStr.join NL (map listing_item (contextual_files ++ code_files)).
Proof.
  intros Hlistable Hsome. cbn zeta.
  unfold LlmContext.create_llm_context.
  rewrite LlmContextFacts.partition_loop_filter. cbn [app Nat.add].
  fold (enumerated files_data).
  set (contextual_files := List.filter _ (enumerated files_data)).
  set (code_files := List.filter _ (enumerated files_data)).
  cbn [fst snd].
  assert (Forall listable contextual_files ∧ Forall listable code_files)
    as [Hcontextual Hcode].
  { rewrite Forall_forall in Hlistable.
    split; apply Forall_forall; intros file [Hin _]%list_elem_of_In%filter_In;
      by apply Hlistable, list_elem_of_In. }
  assert (map (LlmContext.entry " (CONTEXTUAL)") contextual_files
          = map (λ file, LlmContext.entry (context_tag file.1.2) file)
              contextual_files) as ->.
  { apply map_ext_in. intros file [_ Hc]%filter_In.
    unfold context_tag. by rewrite Hc. }
  assert (map (LlmContext.entry EmptyString) code_files
          = map (λ file, LlmContext.entry (context_tag file.1.2) file) code_files)
    as ->.
  { apply map_ext_in. intros file [_ Hc]%filter_In.
    unfold context_tag. by destruct (LlmContext.is_contextual file.1.2). }
  assert (contextual_files ≠ []) as Hne.
  { apply Exists_exists in Hsome as ([path content] & Hin & Hc).
    apply list_elem_of_lookup in Hin as [i Hi].
    assert ((i, path, content) ∈ contextual_files) as Hin'.
    { apply list_elem_of_In, filter_In. split; [|done].
      apply list_elem_of_In, list_elem_of_lookup. exists i.
      unfold enumerated. by rewrite list_lookup_imap, Hi. }
    intros E. rewrite E in Hin'. by apply elem_of_nil in Hin'. }
  assert (∀ l : list (nat * string * string),
            Forall listable l →
            Forall (λ file, all_chars (not_char (ascii_of_N 10)) file.1.2 = true) l)
    as Hpaths.
  { intros l Hl. eapply Forall_impl; [apply Hl|]. by intros file (? & _). }
  unfold FileListing._generate_file_listing_for_prompt.
  assert (PyStr.split NL
            (match contextual_files with
             | [] => EmptyString
             | _ :: _ =>
                 LlmContext.CONTEXT_HEADER +:+ NL +:+ NL
                 +:+ PyStr.join EmptyString
                       (map (λ file, LlmContext.entry (context_tag file.1.2) file)
                          contextual_files)
                 +:+ NL +:+ LlmContext.CODE_HEADER +:+ NL +:+ NL
             end
             +:+ PyStr.join EmptyString
                   (map (λ file, LlmContext.entry (context_tag file.1.2) file)
                      code_files))
          = [LlmContext.CONTEXT_HEADER; EmptyString]
            ++ flat_map entry_lines contextual_files
            ++ [EmptyString; LlmContext.CODE_HEADER; EmptyString]
            ++ flat_map entry_lines code_files ++ [EmptyString]) as ->.
  { destruct contextual_files as [|file files] eqn:E; [done|].
    rewrite <- E in *. clear E.
    rewrite !PyStrFacts.app_assoc.
    rewrite FileListingLoopFacts.split_line by done.
    rewrite FileListingLoopFacts.split_blank.
    rewrite FileListingLoopFacts.entries_split by by apply Hpaths.
    rewrite FileListingLoopFacts.split_blank.
    rewrite FileListingLoopFacts.split_line by done.
    rewrite FileListingLoopFacts.split_blank.
    rewrite <- (PyStrFacts.app_nil_r (PyStr.join EmptyString _)).
    rewrite FileListingLoopFacts.entries_split by by apply Hpaths.
    done. }
  cbn [app FileListing.listing_loop].
  assert (PyStr.contains LlmContext.CONTEXT_HEADER LlmContext.CONTEXT_HEADER = true)
    as -> by done.
  assert (PyStr.contains LlmContext.CONTEXT_HEADER EmptyString = false) as -> by done.
  assert (PyStr.contains LlmContext.CODE_HEADER EmptyString = false) as -> by done.
  assert (FileListing.match_file_entry EmptyString = None) as -> by done.
  cbn [orb].
  rewrite FileListingLoopFacts.loop_entries by done.
  cbn [app FileListing.listing_loop].
  assert (PyStr.contains LlmContext.CONTEXT_HEADER EmptyString = false) as -> by done.
  assert (PyStr.contains LlmContext.CODE_HEADER EmptyString = false) as -> by done.
  assert (FileListing.match_file_entry EmptyString = None) as -> by done.
  assert (PyStr.contains LlmContext.CONTEXT_HEADER LlmContext.CODE_HEADER = false)
    as -> by done.
  assert (PyStr.contains LlmContext.CODE_HEADER LlmContext.CODE_HEADER = true)
    as -> by done.
  cbn [orb].
  rewrite FileListingLoopFacts.loop_entries by done.
  cbn [app FileListing.listing_loop].
  assert (PyStr.contains LlmContext.CONTEXT_HEADER EmptyString = false) as -> by done.
  assert (PyStr.contains LlmContext.CODE_HEADER EmptyString = false) as -> by done.
  assert (FileListing.match_file_entry EmptyString = None) as -> by done.
  cbn [orb]. rewrite map_app.
  rewrite bool_decide_eq_false_2; [done|].
  destruct contextual_files; [done|]. done.
Qed.

Lemma file_listing_reads_back_the_context_witness :
  FileListing._generate_file_listing_for_prompt 1 2
    (LlmContext.create_llm_context
       [("README.md", "Hello"); ("src/a.py", "import b")]).1.1
  = "- 0 # README.md (CONTEXTUAL)" +:+ NL +:+ "- 1 # src/a.py".
Proof.
  apply (file_listing_reads_back_the_context
           [("README.md", "Hello"); ("src/a.py", "import b")] 1).
  - repeat constructor; reflexivity.
  - apply Exists_cons_hd. reflexivity.
Defined.

(** ** The identifiers of the published events *)

Module PublisherTagsFacts.
Import PyStr PyStrFacts PyStrExtFacts PublisherTags.

Lemma rfind_char_absent c s :
  all_chars (not_char c) s = true → rfind_char c s = None.
Proof.
  induction s as [|d s IH]; [done|]. cbn [all_chars rfind_char].
  intros [Hd Hs]%andb_true_iff. rewrite (IH Hs).
  unfold not_char in Hd. by apply negb_true_iff in Hd as ->.
Qed.

Lemma rfind_char_last c a b :
  all_chars (not_char c) b = true →
  rfind_char c (a +:+ String c b) = Some (String.length a).
Proof.
  intros Hb. induction a as [|d a IH].
  - rewrite app_nil_l. cbn [rfind_char]. rewrite rfind_char_absent by done.
    by rewrite Ascii.eqb_refl.
  - rewrite app_cons. cbn [rfind_char]. by rewrite IH.
Qed.

Lemma take_all s : take (String.length s) s = s.
Proof. induction s as [|c s IH]; [done|]. cbn. by rewrite IH. Qed.

(** The root of [name + ".md"] is [name], for a name without dot or slash
    that starts with another character. *)
Lemma splitext_md c name :
  all_chars (not_char ".") (String c name) = true →
  all_chars (not_char "/") (String c name) = true →
  fst (splitext (String c name +:+ ".md")) = String c name.
Proof.
  intros Hdot Hslash. unfold splitext, rfind.
  rewrite (rfind_char_absent "/") by by rewrite all_chars_app, Hslash.
  change (String c name +:+ ".md") with (String c name +:+ String "." "md").
  rewrite rfind_char_last by done.
  rewrite (proj2 (Z.ltb_lt _ _)) by lia.
  replace (Z.to_nat (-1 + 1)) with 0%nat by lia.
  rewrite drop_0, Z.sub_0_r, Nat2Z.id, take_length_app.
  cbn [all_chars] in Hdot |- *.
  apply andb_true_iff in Hdot as [Hc _]. unfold not_char in Hc.
  apply negb_true_iff in Hc. rewrite Hc. by cbn [andb fst].
Qed.

Lemma splitext_no_dot s :
  all_chars (not_char ".") s = true → fst (splitext s) = s.
Proof.
  intros Hdot. unfold splitext, rfind at 2.
  rewrite (rfind_char_absent ".") by done.
  destruct (rfind "/" s <? -1) eqn:Hlt; [|done].
  apply Z.ltb_lt in Hlt. unfold rfind in Hlt.
  destruct (rfind_char "/" s); lia.
Qed.

Lemma lower_app a b : lower (a +:+ b) = lower a +:+ lower b.
Proof.
  unfold lower. induction a as [|c a IH]; [done|].
  rewrite app_cons. cbn [map_chars]. by rewrite IH.
Qed.

Lemma lower_digits s : all_chars is_ascii_digit s = true → lower s = s.
Proof.
  unfold lower. induction s as [|c s IH]; [done|]. cbn [all_chars map_chars].
  intros [Hc Hs]%andb_true_iff. rewrite (IH Hs). f_equal.
  revert Hc. destruct c as [[] [] [] [] [] [] [] []]; vm_compute; congruence.
Qed.

(** The identifier is the lowercased root after the base, in both
    branches. *)
Lemma slug_identifier_root url_path :
  ∃ base_slug,
    (∀ title, slug_identifier url_path title
              = base_slug +:+ "/" +:+ lower (fst (splitext title))).
Proof.
  eexists. intros title. unfold slug_identifier.
  destruct (String.eqb_spec (lower (fst (splitext title))) "index") as [->|_];
    reflexivity.
Qed.

Lemma app_inv_head a x y : a +:+ x = a +:+ y → x = y.
Proof.
  induction a as [|c a IH]; [done|]. rewrite !app_cons. intros [= H]. by apply IH.
Qed.

Lemma safe_name_plain chapter_name :
  all_chars (not_char ".") (Filename.safe_name chapter_name) = true
  ∧ all_chars (not_char "/") (Filename.safe_name chapter_name) = true.
Proof.
  split; (eapply all_chars_impl; [|apply NavigationFacts.safe_name_safe]);
    intros c; destruct c as [[] [] [] [] [] [] [] []]; vm_compute; congruence.
Qed.

Lemma digits_plain s :
  all_chars is_ascii_digit s = true →
  all_chars (not_char ".") s = true ∧ all_chars (not_char "/") s = true.
Proof.
  intros Hs. split; (eapply all_chars_impl; [|apply Hs]);
    intros c; destruct c as [[] [] [] [] [] [] [] []]; vm_compute; congruence.
Qed.

(** The lowercased root of the file name of a chapter. *)
Lemma chapter_root i chapter_name :
  lower (fst (splitext (Filename.filename i chapter_name)))
  = PyInt.format_02d (Z.of_nat i + 1) +:+ "_"
    +:+ lower (Filename.safe_name chapter_name).
Proof.
  unfold Filename.filename.
  pose proof (FilenameFacts.format_02d_digits (Z.of_nat i + 1) ltac:(lia)) as Hd.
  destruct (digits_plain _ Hd) as [Hdot Hslash].
  destruct (safe_name_plain chapter_name) as [Hdot' Hslash'].
  destruct (FilenameFacts.filename_starts_with_digit i chapter_name)
    as (c & s & Hname & _). unfold Filename.filename in Hname.
  set (root := PyInt.format_02d (Z.of_nat i + 1) +:+ "_"
               +:+ Filename.safe_name chapter_name).
  assert (PyInt.format_02d (Z.of_nat i + 1) +:+ "_"
          +:+ Filename.safe_name chapter_name +:+ ".md" = root +:+ ".md") as ->
    by (unfold root; by rewrite !app_assoc).
  assert (∃ c' s', root = String c' s') as (c' & s' & Hroot).
  { unfold root. destruct (PyInt.format_02d (Z.of_nat i + 1)); [|by eexists _, _].
    by eexists _, _. }
  assert (all_chars (not_char ".") root = true
          ∧ all_chars (not_char "/") root = true) as [Hr Hr'].
  { unfold root. rewrite !all_chars_app, Hdot, Hslash, Hdot', Hslash'. done. }
  rewrite Hroot in Hr, Hr' |- *. rewrite splitext_md by done.
  rewrite <- Hroot. unfold root. rewrite !lower_app.
  by rewrite lower_digits.
Qed.

End PublisherTagsFacts.

Module EventIdentifierFacts.
Import PyStr PyStrFacts PublisherTags.

Lemma roots_distinct (added : list (nat * abstraction * string)) :
  StronglySorted lt (map (λ e, e.1.1) added) →
  NoDup (map (λ e, PyInt.format_02d (Z.of_nat e.1.1 + 1) +:+ "_"
                   +:+ lower (Filename.safe_name (name e.1.2))) added).
Proof.
  induction added as [|e added IH]; [constructor|].
  cbn [map]. intros Hs. apply StronglySorted_inv in Hs as [Hs Hlt].
  constructor; [|by apply IH].
  intros (e' & Heq & Hin)%list_elem_of_fmap.
  apply (FilenameFacts.digits_then_other _ _ "_"
           (lower (Filename.safe_name (name e.1.2)))
           (lower (Filename.safe_name (name e'.1.2)))) in Heq;
    [|apply FilenameFacts.format_02d_digits; lia
     |apply FilenameFacts.format_02d_digits; lia|done].
  pose proof (FilenameFacts.format_02d_int (Z.of_nat e.1.1 + 1) ltac:(lia)) as Hi.
  pose proof (FilenameFacts.format_02d_int (Z.of_nat e'.1.1 + 1) ltac:(lia)) as Hj.
  rewrite Heq, Hj in Hi. injection Hi as Hi.
  rewrite Forall_forall in Hlt.
  assert (e'.1.1 ∈ map (λ e, e.1.1) added) as Hpos
    by (apply list_elem_of_fmap; by exists e').
  specialize (Hlt _ Hpos). lia.
Qed.

Lemma root_starts_with_digit i s :
  ∃ c t, PyInt.format_02d (Z.of_nat i + 1) +:+ "_" +:+ s = String c t
         ∧ is_ascii_digit c = true.
Proof.
  pose proof (FilenameFacts.format_02d_digits (Z.of_nat i + 1) ltac:(lia)) as Hd.
  destruct (PyInt.format_02d (Z.of_nat i + 1)) as [|c t] eqn:E.
  - exfalso. unfold PyInt.format_02d in E.
    destruct (Z.of_nat i + 1 <? 10); [done|].
    destruct (PyIntFacts.str_cons (Z.of_nat i + 1)) as (? & ? & E' & _).
    congruence.
  - exists c, (t +:+ "_" +:+ s). split; [done|].
    cbn [all_chars] in Hd. by apply andb_true_iff in Hd as [Hc _].
Qed.

End EventIdentifierFacts.

(** X22: the events that one run publishes have pairwise distinct
    identifiers: the identifier is the lowercased path of the repository
    URL followed by the lowercased title without its extension, and the
    titles of a run - [index], the file name of each chapter, and
    [beginner_friendly_episode] - differ after that. No event of a run
    takes the place of another one of the same run. *)
Theorem event_identifiers_distinct url_path abstractions chapter_order
    chapters_content index episode publish url :
  let r := CombineTutorial.prep_chapters abstractions chapter_order
             chapters_content in
  let p := {| Output.index_content := index;
              Output.chapter_files := r.1;
              Output.beginner_friendly_episode := episode;
              Output.publish_to_nostr := publish;
              Output.repo_url := url |} in
  NoDup (map (λ a, PublisherTags.slug_identifier url_path a.1.1)
           (Output.artifacts p)).
Proof.
  cbn zeta. destruct (PublisherTagsFacts.slug_identifier_root url_path)
    as [base_slug Hslug].
  unfold CombineTutorial.prep_chapters.
  destruct (FilenameFacts.chapter_loop_positions abstractions chapters_content
              chapter_order 0 [] []) as (added & -> & Hsorted & _).
  cbn [fst snd app]. unfold Output.artifacts.
  cbn [Output.index_content Output.chapter_files Output.beginner_friendly_episode].
  rewrite !map_app, !map_map. cbn [map fst snd app].
  rewrite !Hslug.
  rewrite (map_ext _
             (λ e : nat * abstraction * string,
                (λ x, base_slug +:+ "/" +:+ x)
                  (PyInt.format_02d (Z.of_nat e.1.1 + 1) +:+ "_"
                   +:+ PyStr.lower (Filename.safe_name (name e.1.2)))))
    by (intros e; cbn [CombineTutorial.file_name];
        by rewrite Hslug, PublisherTagsFacts.chapter_root).
  rewrite <- (map_map
                (λ e : nat * abstraction * string,
                   PyInt.format_02d (Z.of_nat e.1.1 + 1) +:+ "_"
                   +:+ PyStr.lower (Filename.safe_name (name e.1.2)))
                (λ x, base_slug +:+ "/" +:+ x)).
  assert (map (λ a : string * string * string,
                 PublisherTags.slug_identifier url_path a.1.1)
            (if String.eqb episode EmptyString then []
             else [("beginner_friendly_episode", "beginner_friendly_episode.md",
                    episode)])
          = map (λ x, base_slug +:+ "/" +:+ x)
              (if String.eqb episode EmptyString then []
               else ["beginner_friendly_episode"])) as ->.
  { destruct (String.eqb episode EmptyString); [done|].
    cbn [map fst]. by rewrite Hslug. }
  assert (PyStr.lower (PublisherTags.splitext "index").1 = "index") as ->
    by reflexivity.
  change ((base_slug +:+ "/" +:+ "index")
          :: map (λ x, base_slug +:+ "/" +:+ x) ?l ++ ?t)
    with (map (λ x, base_slug +:+ "/" +:+ x) ("index" :: l) ++ t).
  rewrite <- map_app.
  apply (NoDup_fmap_2_strong (λ x, base_slug +:+ "/" +:+ x)).
  { intros x y _ _ Heq. apply PublisherTagsFacts.app_inv_head in Heq.
    by apply (PublisherTagsFacts.app_inv_head "/") in Heq. }
  set (roots := map _ added).
  assert (∀ s c t, s = String c t → PyStr.is_ascii_digit c = false → s ∉ roots)
    as Hother.
  { intros s c t -> Hc (e & He & _)%list_elem_of_fmap.
    destruct (EventIdentifierFacts.root_starts_with_digit e.1.1
                (PyStr.lower (Filename.safe_name (name e.1.2))))
      as (c' & t' & Hf & Hd). congruence. }
  cbn [app]. apply NoDup_cons. split.
  - rewrite elem_of_app. intros [Hin|Hin]; [by eapply Hother in Hin|].
    destruct (String.eqb episode EmptyString); [by apply elem_of_nil in Hin|].
    by apply list_elem_of_singleton in Hin.
  - apply NoDup_app. split_and!.
    + by apply EventIdentifierFacts.roots_distinct.
    + intros s Hin Hs.
      destruct (String.eqb episode EmptyString); [by apply elem_of_nil in Hs|].
      apply list_elem_of_singleton in Hs as ->. by eapply Hother in Hin.
    + destruct (String.eqb episode EmptyString);
        [apply NoDup_nil_2|apply NoDup_singleton].
Qed.

(** ** Crawling a cloned repository *)

Module CrawlFacts.
Import Crawl.

Lemma parse_github_url_returns repo_url :
  ∃ parsed, FetchRepo.parse_github_url repo_url = Ok parsed.
Proof.
  unfold FetchRepo.parse_github_url.
  destruct (PyStr.contains "/tree/" repo_url) eqn:Htree; [|by eexists].
  destruct (PyStrExtFacts.split_once_go_found _ _ Htree) as (a & b & Hcut).
  unfold PyStr.split_once. rewrite Hcut. by eexists.
Qed.

Lemma kept_key fnmatch max_file_size include_patterns exclude_patterns f entry :
  kept fnmatch max_file_size include_patterns exclude_patterns f = Some entry →
  entry.1 = rel_path f.
Proof.
  unfold kept. destruct (file_size f); [|done]. destruct (text f); [|done].
  destruct (_ && _); [|done]. by intros [= <-].
Qed.

Lemma kept_as_loop fnmatch max_file_size include_patterns exclude_patterns f :
  kept fnmatch max_file_size include_patterns exclude_patterns f
  = match file_size f with
    | None => None
    | Some size =>
        if max_file_size <? size then None
        else if negb (should_include_file fnmatch include_patterns
                        exclude_patterns (rel_path f) (filename f))
        then None
        else match text f with
             | Some content => Some (rel_path f, content)
             | None => None
             end
    end.
Proof.
  unfold kept. destruct (file_size f) as [size|]; [|done].
  rewrite (Z.leb_antisym max_file_size size).
  destruct (max_file_size <? size); cbn [negb andb]; [by destruct (text f)|].
  destruct (should_include_file _ _ _ _ _); by destruct (text f).
Qed.

Lemma crawl_loop_distinct fnmatch max_file_size include_patterns exclude_patterns
    walked seen :
  NoDup (map rel_path (seen ++ walked)) →
  crawl_loop fnmatch max_file_size include_patterns exclude_patterns walked
    (omap (kept fnmatch max_file_size include_patterns exclude_patterns) seen)
  = omap (kept fnmatch max_file_size include_patterns exclude_patterns)
      (seen ++ walked).
Proof.
  revert seen. induction walked as [|f rest IH]; intros seen Hnd.
  - by rewrite List.app_nil_r.
  - replace (seen ++ f :: rest) with ((seen ++ [f]) ++ rest) in *
      by by rewrite <- List.app_assoc.
    rewrite <- IH by done. rewrite omap_app. cbn [omap list_omap crawl_loop].
    rewrite (kept_as_loop _ _ _ _ f).
    destruct (file_size f) as [size|]; [|by rewrite List.app_nil_r].
    destruct (max_file_size <? size); [by rewrite List.app_nil_r|].
    destruct (should_include_file fnmatch include_patterns exclude_patterns
                (rel_path f) (filename f)); cbn [negb];
      [|by rewrite List.app_nil_r].
    destruct (text f) as [content|]; [|by rewrite List.app_nil_r].
    f_equal. apply ContextFacts.dict_set_fresh.
    intros (entry & Hkey & Hin)%list_elem_of_fmap.
    apply list_elem_of_omap in Hin as (g & Hg & Hentry).
    apply kept_key in Hentry. rewrite Hentry in Hkey.
    rewrite !map_app in Hnd. apply NoDup_app in Hnd as [Hnd _].
    apply NoDup_app in Hnd as (_ & Hnd & _).
    apply (Hnd (rel_path f)).
    + rewrite Hkey. apply list_elem_of_In, in_map, list_elem_of_In, Hg.
    + apply list_elem_of_here.
Qed.

End CrawlFacts.

(** X23: [FetchRepo.exec] on a repository URL. When cloning fails, the
    crawl hands back no file and [exec] raises "Failed to fetch files".
    Otherwise, for a walk whose relative paths are pairwise distinct, the
    files fetched are, in the order of the walk, those whose size can be
    read and is at most [max_file_size], whose name matches an include
    pattern (when there are any), whose path matches no exclude pattern
    and whose text can be read; [exec] raises "Failed to fetch files"
    exactly when no file of the walk is such a file. *)
Theorem fetch_keeps_or_fails fnmatch repo_url max_file_size include_patterns
    exclude_patterns :
  (∀ e,
     Crawl.exec fnmatch (λ _ _ _, Crawl.CloneFails e) repo_url max_file_size
       include_patterns exclude_patterns
     = Raise (OtherException "Failed to fetch files"))
  ∧ (∀ walked,
       NoDup (map Crawl.rel_path walked) →
       Crawl.exec fnmatch (λ _ _ _, Crawl.Cloned walked) repo_url max_file_size
         include_patterns exclude_patterns
       = match omap (Crawl.kept fnmatch max_file_size include_patterns
                       exclude_patterns) walked with
         | [] => Raise (OtherException "Failed to fetch files")
         | files_list => Ok files_list
         end).
Proof.
  destruct (CrawlFacts.parse_github_url_returns repo_url)
    as ([[clean branch] subdirectory] & Hparse).
  split.
  - intros e. unfold Crawl.exec. by rewrite Hparse.
  - intros walked Hnd. unfold Crawl.exec. rewrite Hparse.
    cbn [mbind result_mbind result_bind Crawl.crawl_git_repo].
    pose proof (CrawlFacts.crawl_loop_distinct fnmatch max_file_size
                  include_patterns exclude_patterns walked [] Hnd) as Hloop.
    cbn [app omap list_omap] in Hloop. rewrite Hloop.
    by destruct (omap _ walked).
Qed.

(** ** An oracle failure in the Narrative Assembly Stage *)

Module OutageFacts.
Import PyStr PyStrFacts.

Lemma rstrip_keeps_head c s :
  is_space c = false → ∃ r, rstrip (String c s) = String c r.
Proof.
  intros Hc. unfold rstrip. cbn [rstrip_by].
  destruct (rstrip_by is_space s); [rewrite Hc|]; by eexists.
Qed.

Lemma rstrip_closed s c :
  is_space c = false → rstrip (s +:+ String c EmptyString) = s +:+ String c EmptyString.
Proof.
  intros Hc. unfold rstrip. induction s as [|d s IH].
  - rewrite app_nil_l. cbn [rstrip_by]. by rewrite Hc.
  - rewrite app_cons. cbn [rstrip_by]. rewrite IH.
    by destruct s.
Qed.

(** The text of a failure marker is left as it is by the heading check,
    which puts the heading and a blank line before it. *)
Lemma repair_heading_of_marker abstraction_name e :
  WriteChapters.repair_heading abstraction_name
    ("[OpenAI call failed: " +:+ e +:+ "]")
  = "# " +:+ abstraction_name +:+ NL +:+ NL
    +:+ "[OpenAI call failed: " +:+ e +:+ "]".
Proof.
  unfold WriteChapters.repair_heading.
  set (marker := "[OpenAI call failed: " +:+ e +:+ "]").
  assert (strip marker = marker) as ->.
  { unfold strip, marker.
    change ("[OpenAI call failed: " +:+ e +:+ "]")
      with (String "[" ("OpenAI call failed: " +:+ e +:+ "]")).
    rewrite lstrip_head by done.
    change (String "[" ("OpenAI call failed: " +:+ e +:+ "]"))
      with ("[OpenAI call failed: " +:+ e +:+ "]").
    replace ("[OpenAI call failed: " +:+ e +:+ "]")
      with (("[OpenAI call failed: " +:+ e) +:+ "]") by by rewrite app_assoc.
    by apply rstrip_closed. }
  assert (startswith marker ("# " +:+ abstraction_name) = false) as -> by done.
  cbn [negb].
  destruct (split NL marker) as [|first rest] eqn:Hs;
    [by rewrite !app_assoc|].
  assert (∃ t, first = String "[" t) as [t ->].
  { unfold split, marker in Hs.
    change ("[OpenAI call failed: " +:+ e +:+ "]")
      with (String "[" ("OpenAI call failed: " +:+ e +:+ "]")) in Hs.
    cbn [split_go] in Hs.
    assert (String.prefix NL
              (String "[" ("OpenAI call failed: " +:+ e +:+ "]")) = false)
      as Hp by done.
    rewrite Hp in Hs.
    destruct (split_go NL 0 ("OpenAI call failed: " +:+ e +:+ "]"));
      injection Hs as <- _; by eexists. }
  unfold strip. rewrite lstrip_head by done.
  destruct (rstrip_keeps_head "[" t) as [r ->]; [done|].
  assert (startswith (String "[" r) "#" = false) as -> by done.
  by rewrite !app_assoc.
Qed.

End OutageFacts.

(** X24: when the oracle call of a chapter raises (and the cache gives no
    answer), [call_llm] returns the failure marker, which goes through the
    heading check like any chapter text: [exec] returns the heading, a
    blank line and the marker as the chapter, on the first attempt. The
    failure is not retried, whatever [max_retries] is; one oracle call is
    made and the cache file is left as it is. *)
Theorem oracle_failure_becomes_the_chapter environment prompt
    abstraction_name use_cache max_retries w e :
  CallLlm.api (environment (length (Stage.calls w))) = CallLlm.ApiRaises e →
  CallLlm.cache_hit (environment (length (Stage.calls w))) prompt use_cache
    (Stage.cache w) = None →
  Node._exec
    (Pipeline.WriteChapters_exec environment prompt abstraction_name use_cache)
    (S max_retries) w
  = (Ok (Some ("# " +:+ abstraction_name +:+ NL +:+ NL
               +:+ "[OpenAI call failed: " +:+ e +:+ "]")),
     {| Stage.cache := Stage.cache w;
        Stage.calls := Stage.calls w ++ [(prompt, use_cache)] |}).
Proof.
  intros Hapi Hmiss. unfold Node._exec. cbn [Node.attempts].
  unfold Pipeline.WriteChapters_exec, Stage.exec, Stage.call_llm_in.
  rewrite bool_decide_eq_true_2, andb_true_r by done.
  destruct (CallLlmFacts.call_llm_cases (environment (length (Stage.calls w)))
              prompt use_cache (Stage.cache w))
    as [(c & Hhit & _)|[(_ & _ & ->)|(_ & _ & t & Hfresh & Hclean & _)]].
  - congruence.
  - unfold fresh_response. rewrite Hapi. cbn [mbind result_mbind result_bind].
    by rewrite OutageFacts.repair_heading_of_marker.
  - unfold fresh_response in Hfresh. rewrite Hapi in Hfresh.
    injection Hfresh as <-. done.
Qed.

Lemma oracle_failure_becomes_the_chapter_witness :
  Node._exec
    (Pipeline.WriteChapters_exec (λ _, api_down) "p" "Core" true)
    5 {| Stage.cache := CallLlm.Absent; Stage.calls := [] |}
  = (Ok (Some ("# " +:+ "Core" +:+ NL +:+ NL
               +:+ "[OpenAI call failed: " +:+ "Connection error." +:+ "]")),
     {| Stage.cache := CallLlm.Absent; Stage.calls := [] ++ [("p", true)] |}).
Proof.
  apply (oracle_failure_becomes_the_chapter (λ _, api_down) "p" "Core" true 4);
    reflexivity.
Defined.

(** ** The chapter files and their chapters *)

Module ChapterFileFacts.
Import CombineTutorial.

Lemma items_from_lookup abstractions chapter_order :
  Forall (λ idx, 0 ≤ idx < Z.of_nat (length abstractions)) chapter_order →
  ∀ i j idx a,
    chapter_order !! j = Some idx →
    abstractions !! Z.to_nat idx = Some a →
    WriteChapters.items_from abstractions i chapter_order !! j
    = Some {| WriteChapters.chapter_num := Z.of_nat (i + j) + 1;
              WriteChapters.abstraction_index := idx;
              WriteChapters.abstraction_details := a |}.
Proof.
  induction 1 as [|idx' rest Hidx _ IH]; intros i j idx a Hj Ha;
    [by rewrite lookup_nil in Hj|].
  destruct (NavigationFacts.at_index_valid abstractions idx' Hidx)
    as (a' & Ha' & Hlook).
  cbn [WriteChapters.items_from]. rewrite Ha'.
  destruct j as [|j].
  - injection Hj as <-. rewrite Nat.add_0_r. cbn. congruence.
  - cbn [lookup list_lookup] in Hj |- *.
    change (WriteChapters.items_from abstractions (S i) rest !! j
            = Some {| WriteChapters.chapter_num := Z.of_nat (i + S j) + 1;
                      WriteChapters.abstraction_index := idx;
                      WriteChapters.abstraction_details := a |}).
    rewrite (IH (S i) j idx a Hj Ha).
    by replace (S i + j)%nat with (i + S j)%nat by lia.
Qed.

Lemma chapter_loop_files abstractions chapters_content chapter_order :
  Forall (λ idx, 0 ≤ idx < Z.of_nat (length abstractions)) chapter_order →
  ∀ i chapter_files chapter_links,
    (i + length chapter_order ≤ length chapters_content)%nat →
    let r := (chapter_loop abstractions chapters_content i chapter_order
                chapter_files chapter_links).1 in
    length r = (length chapter_files + length chapter_order)%nat
    ∧ (∀ k f, chapter_files !! k = Some f → r !! k = Some f)
    ∧ (∀ j idx a body,
         chapter_order !! j = Some idx →
         abstractions !! Z.to_nat idx = Some a →
         chapters_content !! (i + j)%nat = Some body →
         r !! (length chapter_files + j)%nat
         = Some {| file_name := Filename.filename (i + j) (name a);
                   content := body |}).
Proof.
  induction 1 as [|idx rest Hidx Hv IH]; intros i fs ls Hlen; cbn zeta.
  - cbn. split; [lia|]. split; [done|]. intros j idx a body Hj.
    by rewrite lookup_nil in Hj.
  - destruct (NavigationFacts.at_index_valid abstractions idx Hidx)
      as (a & Ha & Ha').
    destruct (lookup_lt_is_Some_2 chapters_content i) as [body Hbody];
      [cbn in Hlen; lia|].
    cbn [chapter_loop]. rewrite Ha, Hbody.
    specialize (IH (S i)
                  (fs ++ [{| file_name := Filename.filename i (name a);
                             content := body |}])
                  (ls ++ [{| number := Z.of_nat i + 1; title := name a;
                             filename := Filename.filename i (name a);
                             link_description := description a |}])).
    cbn zeta in IH. destruct IH as (IHlen & IHkeep & IHnew).
    { cbn in Hlen. lia. }
    rewrite List.length_app in IHlen, IHnew. cbn [length] in IHlen, IHnew.
    split; [cbn [length]; lia|]. split.
    + intros k f Hk. apply IHkeep. by apply lookup_app_l_Some.
    + intros [|j] idx' a' body' Hj Ha'' Hb.
      * cbn in Hj. injection Hj as <-.
        assert (a' = a) as -> by congruence.
        rewrite !Nat.add_0_r in *. assert (body' = body) as -> by congruence.
        apply IHkeep. by rewrite list_lookup_middle.
      * cbn in Hj.
        replace (length fs + S j)%nat with (length fs + 1 + j)%nat by lia.
        replace (i + S j)%nat with (S i + j)%nat in * by lia.
        by apply (IHnew j idx' a' body').
Qed.

End ChapterFileFacts.

(** X25: for an order of valid indices and the chapters that the Narrative
    Assembly Stage wrote for it, [CombineTutorial.prep] gives one chapter
    file per position of the order, and the file at position [k] belongs
    to one abstraction in name and in text: its name is built from the
    position and the name of the abstraction at that position, and its
    text is the chapter written for that abstraction, which starts with
    the heading of that abstraction once leading whitespace is skipped. *)
Theorem chapter_file_holds_its_chapter abstractions chapter_order oracle_text :
  Forall (λ idx, 0 ≤ idx < Z.of_nat (length abstractions)) chapter_order →
  let chapters_content :=
    WriteChapters.chapters oracle_text
      (WriteChapters.items_to_process abstractions chapter_order) in
  let chapter_files :=
    (CombineTutorial.prep_chapters abstractions chapter_order
       chapters_content).1 in
  length chapter_files = length chapter_order
  ∧ ∀ k idx a,
      chapter_order !! k = Some idx →
      abstractions !! Z.to_nat idx = Some a →
      ∃ chapter_content,
        chapter_files !! k
        = Some {| CombineTutorial.file_name := Filename.filename k (name a);
                  CombineTutorial.content :=
                    WriteChapters.repair_heading (name a) chapter_content |}
        ∧ PyStr.startswith
            (PyStr.lstrip (WriteChapters.repair_heading (name a) chapter_content))
            ("# " +:+ name a) = true.
Proof.
  intros Hv chapters_content chapter_files.
  pose proof (NavigationFacts.chapters_length oracle_text _ _ Hv) as Hlen.
  fold chapters_content in Hlen.
  destruct (ChapterFileFacts.chapter_loop_files abstractions chapters_content
              chapter_order Hv 0%nat [] []) as (Hl & _ & Hnew); [cbn; lia|].
  unfold chapter_files, CombineTutorial.prep_chapters.
  destruct (CombineTutorial.chapter_loop abstractions chapters_content 0
              chapter_order [] []) as [fs ls] eqn:Hloop.
  cbn [fst length Nat.add] in *. split; [done|].
  intros k idx a Hk Ha.
  pose proof (ChapterFileFacts.items_from_lookup abstractions chapter_order Hv
                0 k idx a Hk Ha) as Hitem.
  set (it := {| WriteChapters.chapter_num := Z.of_nat (0 + k) + 1;
                WriteChapters.abstraction_index := idx;
                WriteChapters.abstraction_details := a |}) in Hitem.
  exists (oracle_text it). split.
  - apply (Hnew k idx a); [done..|].
    unfold chapters_content, WriteChapters.chapters,
      WriteChapters.items_to_process.
    rewrite list_lookup_fmap. unfold WriteChapters.items_to_process.
    by rewrite Hitem.
  - apply HeadingFacts.starts_after_blanks.
Qed.

Lemma chapter_file_holds_its_chapter_witness :
  let chapters_content :=
    WriteChapters.chapters (λ _, "text")
      (WriteChapters.items_to_process two_abstractions [1; 0]) in
  let chapter_files :=
    (CombineTutorial.prep_chapters two_abstractions [1; 0] chapters_content).1 in
  length chapter_files = length [1; 0]
  ∧ ∀ k idx a,
      [1; 0] !! k = Some idx →
      two_abstractions !! Z.to_nat idx = Some a →
      ∃ chapter_content,
        chapter_files !! k
        = Some {| CombineTutorial.file_name := Filename.filename k (name a);
                  CombineTutorial.content :=
                    WriteChapters.repair_heading (name a) chapter_content |}
        ∧ PyStr.startswith
            (PyStr.lstrip (WriteChapters.repair_heading (name a) chapter_content))
            ("# " +:+ name a) = true.
Proof.
  apply (chapter_file_holds_its_chapter two_abstractions [1; 0] (λ _, "text")).
  repeat constructor; cbn; lia.
Defined.
